(** * WhatsApp bulk sender: recipient normalisation and the dispatch loop

    A shallow embedding of the algorithmic part of [main.py]
    (class [WhatsAppBulkSenderGUI]): [validate_numbers], [start_sending],
    [test_send], [send_messages_thread], [send_via_wa_me],
    [stop_sending], [sending_complete] and [save_session_stats], followed by
    the properties of the design document that concern them. *)

From Stdlib Require Import List Bool Arith ZArith Lia.
From Stdlib Require Import Ascii String DecimalString.
Import ListNotations.

Open Scope string_scope.
Open Scope list_scope.
Open Scope nat_scope.

(** ** Python [str] primitives

    A [str] is modelled as a [string] whose characters are the code points
    U+0000 to U+00FF.  On that range [str.isdigit] holds for '0'..'9' and for
    the superscripts U+00B2, U+00B3 and U+00B9, and [str.strip] removes
    U+0009..U+000D, U+001C..U+0020, U+0085 and U+00A0. *)
Module PyStr.

Definition isdigit (c : ascii) : bool :=
  let n := nat_of_ascii c in
  ((48 <=? n) && (n <=? 57)) || (n =? 178) || (n =? 179) || (n =? 185).

Definition isspace (c : ascii) : bool :=
  let n := nat_of_ascii c in
  ((9 <=? n) && (n <=? 13)) || ((28 <=? n) && (n <=? 32))
  || (n =? 133) || (n =? 160).

(** [s.lstrip()] *)
Fixpoint lstrip (s : string) : string :=
  match s with
  | EmptyString => EmptyString
  | String c r => if isspace c then lstrip r else s
  end.

(** [s.rstrip()] *)
Fixpoint rstrip (s : string) : string :=
  match s with
  | EmptyString => EmptyString
  | String c r =>
      match rstrip r with
      | EmptyString => if isspace c then EmptyString else String c EmptyString
      | r' => String c r'
      end
  end.

(** [s.strip()] *)
Definition strip (s : string) : string := rstrip (lstrip s).

(** [s.split(sep)] for a one-character separator: a string with n occurrences
    of [sep] yields n+1 pieces, empty ones included. *)
Fixpoint split (sep : ascii) (s : string) : list string :=
  match s with
  | EmptyString => [EmptyString]
  | String c r =>
      if Ascii.eqb c sep then EmptyString :: split sep r
      else match split sep r with
           | [] => [String c EmptyString]
           | piece :: pieces => String c piece :: pieces
           end
  end.

(** [''.join(filter(pred, s))] *)
Fixpoint filter (pred : ascii -> bool) (s : string) : string :=
  match s with
  | EmptyString => EmptyString
  | String c r => if pred c then String c (filter pred r) else filter pred r
  end.

(** [sep.join(pieces)] *)
Fixpoint join (sep : string) (pieces : list string) : string :=
  match pieces with
  | [] => EmptyString
  | [p] => p
  | p :: rest => (p ++ sep ++ join sep rest)%string
  end.

(** [s.startswith(p)] *)
Definition startswith (s p : string) : bool := String.prefix p s.

(** [str(n)] for a non-negative integer *)
Definition str_of_nat (n : nat) : string :=
  NilEmpty.string_of_uint (Nat.to_uint n).

(** truthiness of a [str]: [not s] *)
Definition is_empty (s : string) : bool :=
  match s with EmptyString => true | _ => false end.

Fixpoint forallb (pred : ascii -> bool) (s : string) : bool :=
  match s with
  | EmptyString => true
  | String c r => pred c && forallb pred r
  end.

End PyStr.

(** ** [validate_numbers] *)
Module Normalizer.
Import PyStr.

Definition comma : ascii := ","%char.

(** The two result lists, [numbers] and [invalid], as the loop builds them. *)
Definition Acc : Type := (list string * list string)%type.

(** The messages appended to [invalid]; each plays the role of a reason
    code of the design document. *)
Definition no_digits (original_num : string) : string :=
  (original_num ++ " (no digits)")%string.

Definition ambiguous_country_prefix (original_num : string) : string :=
  (original_num
   ++ " (10 digits starting with 91 - likely missing digit)")%string.

Definition too_long_with_prefix (original_num cleaned : string) : string :=
  (original_num ++ " (too long: " ++ str_of_nat (String.length cleaned)
   ++ " digits)")%string.

Definition too_short (original_num cleaned : string) : string :=
  (original_num ++ " (too short: " ++ str_of_nat (String.length cleaned)
   ++ " digits)")%string.

Definition too_long_without_prefix (original_num cleaned : string) : string :=
  (original_num ++ " (" ++ str_of_nat (String.length cleaned)
   ++ " digits without 91)")%string.

(** One iteration of the [for num in numbers_str.split(',')] loop. *)
Definition validate_step (acc : Acc) (num : string) : Acc :=
  let '(numbers, invalid) := acc in
  let original_num := strip num in
  if is_empty original_num then acc
  else
    let cleaned := filter isdigit original_num in
    if is_empty cleaned then (numbers, invalid ++ [no_digits original_num])
    else if startswith cleaned "91" then
      if String.length cleaned =? 12 then (numbers ++ [cleaned], invalid)
      else if String.length cleaned =? 10 then
        (numbers, invalid ++ [ambiguous_country_prefix original_num])
      else if 12 <? String.length cleaned then
        (numbers, invalid ++ [too_long_with_prefix original_num cleaned])
      else (numbers, invalid ++ [too_short original_num cleaned])
    else
      if String.length cleaned =? 10 then
        (numbers ++ [("91" ++ cleaned)%string], invalid)
      else if 10 <? String.length cleaned then
        (numbers, invalid ++ [too_long_without_prefix original_num cleaned])
      else (numbers, invalid ++ [too_short original_num cleaned]).

Definition validate_numbers (numbers_str : string) : Acc :=
  fold_left validate_step (split comma numbers_str) ([], []).

End Normalizer.

(** ** The run ledger: [save_session_stats] and [append_sent_log] *)
Module Ledger.

(** A row of [sent_log.csv]. *)
Record Row : Type := mkRow {
  row_time : string;
  row_number : string;
  row_message : string;
  row_status : string;
  row_note : string
}.

(** An entry of [session_stats.json]. *)
Record RunSummary : Type := mkSummary {
  timestamp : string;
  total : nat;
  processed : nat;
  successful : nat;
  failed : nat;
  success_rate : string
}.

(** What [save_session_stats] finds on disk: no file, a file that is not a
    JSON list (unparsable, or another JSON value), or a saved history. *)
Inductive StatsFile : Type :=
| Absent
| NotAList
| Saved (history : list RunSummary).

(** The [history] loaded at the start of [save_session_stats]. *)
Definition load_history (f : StatsFile) : list RunSummary :=
  match f with
  | Saved history => history
  | Absent | NotAList => []
  end.

(** [l[-n:]] for n > 0: the last [n] elements, the whole list when it is
    shorter. *)
Definition last_n {A : Type} (n : nat) (l : list A) : list A :=
  skipn (List.length l - n) l.

(** [history.append(stats); history = history[-50:]] *)
Definition append_summary (history : list RunSummary) (stats : RunSummary)
  : list RunSummary :=
  last_n 50 (history ++ [stats]).

End Ledger.

(** ** The controller and the dispatch loop

    The worker is modelled with what it counts, what it sends to the
    interface, the operations at which it waits, the rows it logs and the
    history file.  The text of the log lines and of the status bar, the
    button bindings and the browser handle ([self.driver]) are left out; the
    channel is met only through the outcome of each attempt.  None of the
    modelled operations raises, so the [except Exception] handler that ends
    [send_messages_thread] has no counterpart. *)
Module Dispatch.
Import PyStr Normalizer Ledger.

(** The fields of [self] that the controller and the worker share. *)
Record App : Type := mkApp {
  sending : bool;
  stop_requested : bool;
  processed_count : nat;
  total_count : nat;
  success_count : nat;
  failed_count : nat;
  delay_between : Z
}.

(** [WhatsAppBulkSenderGUI.__init__] *)
Definition init_app : App :=
  mkApp false false 0 0 0 0 6%Z.

Definition set_stop_requested (b : bool) (a : App) : App :=
  mkApp (sending a) b (processed_count a) (total_count a)
        (success_count a) (failed_count a) (delay_between a).

Definition set_processed_count (n : nat) (a : App) : App :=
  mkApp (sending a) (stop_requested a) n (total_count a)
        (success_count a) (failed_count a) (delay_between a).

Definition set_success_count (n : nat) (a : App) : App :=
  mkApp (sending a) (stop_requested a) (processed_count a) (total_count a)
        n (failed_count a) (delay_between a).

Definition set_failed_count (n : nat) (a : App) : App :=
  mkApp (sending a) (stop_requested a) (processed_count a) (total_count a)
        (success_count a) n (delay_between a).

(** What the form holds when a button is pressed: the two text boxes, the
    results of [int(self.delay_var.get())] and [int(self.tries_var.get())]
    ([None] when [int] raises), and the answers to the three [askyesno]
    dialogs: "Invalid Numbers" and "Confirm Sending" of [start_sending], and
    "Test Send" of [test_send]. *)
Record Ui : Type := mkUi {
  message_text : string;
  numbers_text : string;
  delay_var : option Z;
  tries_var : option Z;
  confirm_invalid : bool;
  confirm_send : bool;
  confirm_test : bool
}.

(** The arguments of the worker thread a command starts. *)
Record Job : Type := mkJob {
  job_numbers : list string;
  job_message : string;
  job_max_tries : Z
}.

Definition is_nil {A : Type} (l : list A) : bool :=
  match l with [] => true | _ => false end.

(** The [try: ... except:] around the two [int] calls. *)
Definition read_settings (ui : Ui) : Z * Z :=
  match delay_var ui, tries_var ui with
  | Some d, Some t => (d, t)
  | _, _ => (6%Z, 2%Z)
  end.

(** [start_sending]: the new state and the thread started, if any. *)
Definition start_sending (ui : Ui) (a : App) : App * option Job :=
  if sending a then (a, None)
  else
    let message := strip (message_text ui) in
    if is_empty message then (a, None)
    else
      let numbers_str := strip (numbers_text ui) in
      if is_empty numbers_str then (a, None)
      else
        let '(numbers, invalid) := validate_numbers numbers_str in
        if negb (is_nil invalid) && negb (confirm_invalid ui) then (a, None)
        else if is_nil numbers then (a, None)
        else if negb (confirm_send ui) then (a, None)
        else
          let '(delay, max_tries) := read_settings ui in
          (mkApp true false 0 (List.length numbers) 0 0 delay,
           Some (mkJob numbers message max_tries)).

(** [test_send]: the same for the single-recipient test. *)
Definition test_send (ui : Ui) (a : App) : App * option Job :=
  if sending a then (a, None)
  else
    let message := strip (message_text ui) in
    if is_empty message then (a, None)
    else
      let numbers_str := strip (numbers_text ui) in
      if is_empty numbers_str then (a, None)
      else
        let '(numbers, invalid) := validate_numbers numbers_str in
        match numbers with
        | [] => (a, None)
        | test_number :: _ =>
            if negb (confirm_test ui) then (a, None)
            else
              let '(delay, max_tries) := read_settings ui in
              (mkApp true false 0 1 0 0 delay,
               Some (mkJob [test_number] message max_tries))
        end.

(** [stop_sending], run by the interface thread. *)
Definition stop_sending (a : App) : App :=
  if sending a then set_stop_requested true a else a.

(** What one send attempt meets, named after the handler of
    [send_via_wa_me] that deals with it. *)
Inductive AttemptResult : Type :=
| Clicked
| ButtonTimeout
| SendException (text : string)
| BrowserError (text : string)
| UnexpectedError (text : string).

(** The operations at which the worker waits on the channel or on time.
    [Backoff] is the [time.sleep(1)] before a retry, [DelayTick] the
    [time.sleep(1)] of the delay between two recipients. *)
Inductive Op : Type :=
| DriverStart
| WaitReady
| Attempt (number : string) (attempt : Z)
| Backoff
| DelayTick.

(** What the worker sends to the interface. *)
Inductive Event : Type :=
| ProgressBar (idx total : nat)
| ProcessedValue (n : nat)
| SuccessValue (n : nat)
| FailedValue (n : nat).

(** An event together with the counters at the moment it is emitted. *)
Record Obs : Type := mkObs {
  ev : Event;
  seen : App
}.

(** How a bulk run ends: which call of [sending_complete] is reached. *)
Inductive Terminal : Type :=
| Completed
| Cancelled
| Failed.

(** Everything outside the worker.  Operations are numbered in the order
    the worker performs them; [stop_during k] says that the interface thread
    runs [stop_sending] while the worker is in operation [k], and
    [attempt_result k] what the channel does when operation [k] is a send
    attempt.  [now_strftime k] and [now_isoformat k] are the two renderings
    of [datetime.now()] after [k] operations, [render_rate] stands for the
    floating-point formatting of [success_rate], [stats_io_ok] for the
    reads and writes of [session_stats.json] not raising, and
    [sent_log_io_ok k] for the write to [sent_log.csv] made after [k]
    operations not raising. *)
Record Env : Type := mkEnv {
  driver_starts : bool;
  whatsapp_ready : bool;
  attempt_result : nat -> AttemptResult;
  stop_during : nat -> bool;
  now_strftime : nat -> string;
  now_isoformat : nat -> string;
  render_rate : nat -> nat -> string;
  stats_io_ok : bool;
  sent_log_io_ok : nat -> bool
}.

(** The state the worker threads through its calls. *)
Record Machine : Type := mkMachine {
  app : App;
  ops : list Op;
  events : list Obs;
  sent_log : list Row;
  stats_file : StatsFile
}.

Definition M (A : Type) : Type := Machine -> A * Machine.

Definition ret {A : Type} (x : A) : M A := fun m => (x, m).

Definition bind {A B : Type} (c : M A) (k : A -> M B) : M B :=
  fun m => let '(x, m') := c m in k x m'.

Notation "x <- c ;; k" := (bind c (fun x => k))
  (at level 61, c at next level, right associativity).
Notation "c ;; k" := (bind c (fun _ => k))
  (at level 61, right associativity).

Definition get_app : M App := fun m => (app m, m).

Definition modify_app (f : App -> App) : M unit :=
  fun m => (tt, mkMachine (f (app m)) (ops m) (events m) (sent_log m)
                          (stats_file m)).

Definition emit (e : Event) : M unit :=
  fun m => (tt, mkMachine (app m) (ops m) (events m ++ [mkObs e (app m)])
                          (sent_log m) (stats_file m)).

Section Worker.

Variable env : Env.

(** The worker performs a waiting operation; the interface thread may run
    [stop_sending] meanwhile.  The result is the operation's number. *)
Definition block (op : Op) : M nat :=
  fun m =>
    let k := List.length (ops m) in
    let a := if stop_during env k then stop_sending (app m) else app m in
    (k, mkMachine a (ops m ++ [op]) (events m) (sent_log m) (stats_file m)).

(** [datetime.now().strftime("%Y-%m-%d %H:%M:%S")] *)
Definition clock : M string :=
  fun m => (now_strftime env (List.length (ops m)), m).

(** [append_sent_log]: when the write raises, the error is only logged and
    the row is lost. *)
Definition append_sent_log (row : Row) : M unit :=
  fun m =>
    if sent_log_io_ok env (List.length (ops m))
    then (tt, mkMachine (app m) (ops m) (events m) (sent_log m ++ [row])
                        (stats_file m))
    else (tt, m).

(** The note [send_via_wa_me] returns when the last attempt fails. *)
Definition failure_note (r : AttemptResult) : string :=
  match r with
  | Clicked => "Sent successfully"
  | ButtonTimeout => "Send button not found (page may not have loaded)"
  | SendException text => ("Send exception: " ++ text)%string
  | BrowserError text => ("Browser error: " ++ text)%string
  | UnexpectedError text => ("Unexpected error: " ++ text)%string
  end.

(** The body of [for attempt in range(1, max_tries + 1)], with [remaining]
    the number of iterations left. *)
Fixpoint attempt_loop (number : string) (max_tries : Z) (remaining : nat)
  (attempt : Z) : M (bool * string) :=
  match remaining with
  | O => ret (false, "All attempts failed")
  | S remaining' =>
      k <- block (Attempt number attempt) ;;
      match attempt_result env k with
      | Clicked => ret (true, "Sent successfully")
      | failure =>
          if (attempt <? max_tries)%Z then
            block Backoff ;;
            attempt_loop number max_tries remaining' (attempt + 1)%Z
          else ret (false, failure_note failure)
      end
  end.

(** [send_via_wa_me] *)
Definition send_via_wa_me (number message : string) (max_tries : Z)
  : M (bool * string) :=
  attempt_loop number max_tries (Z.to_nat max_tries) 1%Z.

(** [save_session_stats] *)
Definition save_session_stats : M unit :=
  fun m =>
    let a := app m in
    let stats :=
      mkSummary (now_isoformat env (List.length (ops m))) (total_count a)
                (processed_count a) (success_count a) (failed_count a)
                (render_rate env (success_count a) (total_count a)) in
    if stats_io_ok env then
      (tt, mkMachine a (ops m) (events m) (sent_log m)
                     (Saved (append_summary (load_history (stats_file m))
                                            stats)))
    else (tt, m).

(** [sending_complete] *)
Definition sending_complete (success : bool) : M unit :=
  modify_app (fun a =>
    mkApp false false (processed_count a) (total_count a)
          (success_count a) (failed_count a) (delay_between a)) ;;
  if success then save_session_stats else ret tt.

(** [for i in range(self.delay_between)] with [n] iterations left. *)
Fixpoint delay_loop (n : nat) : M unit :=
  match n with
  | O => ret tt
  | S n' =>
      a <- get_app ;;
      if stop_requested a then ret tt
      else block DelayTick ;; delay_loop n'
  end.

(** [for idx, number in enumerate(numbers, start=1)], from position [idx]
    of a list of [len] numbers. *)
Fixpoint send_loop (numbers : list string) (idx len : nat)
  (message : string) (max_tries : Z) : M unit :=
  match numbers with
  | [] => ret tt
  | number :: rest =>
      a <- get_app ;;
      if stop_requested a then ret tt
      else
        modify_app (set_processed_count idx) ;;
        emit (ProgressBar idx len) ;;
        emit (ProcessedValue idx) ;;
        r <- send_via_wa_me number message max_tries ;;
        let '(success, note) := r in
        (if success then
           modify_app (fun a => set_success_count (success_count a + 1) a) ;;
           a <- get_app ;;
           emit (SuccessValue (success_count a))
         else
           modify_app (fun a => set_failed_count (failed_count a + 1) a) ;;
           a <- get_app ;;
           emit (FailedValue (failed_count a))) ;;
        t <- clock ;;
        append_sent_log
          (mkRow t number message (if success then "OK" else "FAILED") note) ;;
        a <- get_app ;;
        (if (idx <? len) && negb (stop_requested a) then
           delay_loop (Z.to_nat (delay_between a))
         else ret tt) ;;
        send_loop rest (S idx) len message max_tries
  end.

(** [start_edge_driver] and [wait_for_whatsapp_ready], as the worker sees
    them. *)
Definition start_edge_driver : M bool :=
  block DriverStart ;; ret (driver_starts env).

Definition wait_for_whatsapp_ready : M bool :=
  block WaitReady ;; ret (whatsapp_ready env).

(** [send_messages_thread] *)
Definition send_messages_thread (numbers : list string) (message : string)
  (max_tries : Z) : M Terminal :=
  started <- start_edge_driver ;;
  if negb started then sending_complete false ;; ret Failed
  else
    ready <- wait_for_whatsapp_ready ;;
    if negb ready then sending_complete false ;; ret Failed
    else
      send_loop numbers 1 (List.length numbers) message max_tries ;;
      a <- get_app ;;
      if negb (stop_requested a) then sending_complete true ;; ret Completed
      else sending_complete false ;; ret Cancelled.

End Worker.

(** The machine in which the thread of a job starts. *)
Definition boot (a : App) (sent : list Row) (stats : StatsFile) : Machine :=
  mkMachine a [] [] sent stats.

(** A bulk run: [start_sending] followed by the thread it starts. *)
Definition run (env : Env) (job : Job) (m : Machine) : Terminal * Machine :=
  send_messages_thread env (job_numbers job) (job_message job)
                       (job_max_tries job) m.

End Dispatch.

Import PyStr Normalizer Ledger Dispatch.

(** * Vocabulary of the properties *)

(** ** Tokens *)

(** A token of the input that the loop does not skip. *)
Definition kept (t : string) : bool := negb (is_empty (strip t)).

(** The comma-delimited tokens that are non-empty after trimming. *)
Definition kept_tokens (numbers_str : string) : list string :=
  List.filter kept (split comma numbers_str).

(** What [str.isdigit] accepts in a token: [cleaned] in
    [validate_numbers]. *)
Definition cleaned_of (num : string) : string := filter isdigit (strip num).

(** Twelve characters that [str.isdigit] accepts, the first two being
    91. *)
Definition well_formed (v : string) : Prop :=
  PyStr.forallb isdigit v = true
  /\ String.length v = 12
  /\ startswith v "91" = true.

(** ** Machines and their operations *)

(** A history longer than the cap, as an edited file could hold. *)
Definition sixty_summaries : list RunSummary :=
  map (fun k => mkSummary "t" k k k 0 "100.0%") (seq 1 60).

(** The counters and [sending] are the same, and a stop request is not
    withdrawn. *)
Definition steady (a a' : App) : Prop :=
  sending a' = sending a
  /\ processed_count a' = processed_count a
  /\ total_count a' = total_count a
  /\ success_count a' = success_count a
  /\ failed_count a' = failed_count a
  /\ delay_between a' = delay_between a
  /\ (stop_requested a = true -> stop_requested a' = true).

(** Nothing but the operation list and the stop flag has changed. *)
Definition quiet (m m' : Machine) : Prop :=
  events m' = events m
  /\ sent_log m' = sent_log m
  /\ stats_file m' = stats_file m
  /\ steady (app m) (app m').

(** The send attempts among a list of operations. *)
Fixpoint attempts_of (l : list Op) : list (string * Z) :=
  match l with
  | [] => []
  | Attempt number attempt :: l' => (number, attempt) :: attempts_of l'
  | _ :: l' => attempts_of l'
  end.

(** Attempts [attempt], [attempt]+1, ... of one recipient, [n] of them, with
    the pause before each retry. *)
Fixpoint retry_ops (number : string) (attempt : Z) (n : nat) : list Op :=
  match n with
  | O => []
  | S O => [Attempt number attempt]
  | S n' => Attempt number attempt :: Backoff
            :: retry_ops number (attempt + 1)%Z n'
  end.

(** The operation is a tick of the delay between two recipients. *)
Definition is_delay_tick (op : Op) : bool :=
  match op with DelayTick => true | _ => false end.

(** The machine when [send_via_wa_me] is called for position [idx]. *)
Definition before_send (idx len : nat) (m : Machine) : Machine :=
  let a := set_processed_count idx (app m) in
  mkMachine a (ops m)
            ((events m ++ [mkObs (ProgressBar idx len) a])
               ++ [mkObs (ProcessedValue idx) a])
            (sent_log m) (stats_file m).

(** The machine once the result of [send_via_wa_me] is counted, shown and
    logged. *)
Definition recorded (env : Env) (success : bool) (note number message : string)
  (m : Machine) : Machine :=
  let a := if success
           then set_success_count (success_count (app m) + 1) (app m)
           else set_failed_count (failed_count (app m) + 1) (app m) in
  mkMachine a (ops m)
            (events m
               ++ [mkObs (if success then SuccessValue (success_count a)
                          else FailedValue (failed_count a)) a])
            (sent_log m
               ++ (if sent_log_io_ok env (List.length (ops m))
                   then [mkRow (now_strftime env (List.length (ops m))) number
                               message (if success then "OK" else "FAILED")
                               note]
                   else []))
            (stats_file m).

(** The machine after the delay that follows position [idx], if any. *)
Definition paused (env : Env) (idx len : nat) (m : Machine) : Machine :=
  if (idx <? len) && negb (stop_requested (app m))
  then snd (delay_loop env (Z.to_nat (delay_between (app m))) m)
  else m.

(** A channel on which the Send button never appears. *)
Definition always_timeout : Env :=
  mkEnv true true (fun _ => ButtonTimeout) (fun _ => false)
        (fun _ => "2024-01-01 10:00:00") (fun _ => "2024-01-01T10:00:00")
        (fun _ _ => "0.0%") true (fun _ => true).

(** The same channel, with a sent log that cannot be written. *)
Definition always_timeout_no_log : Env :=
  mkEnv true true (fun _ => ButtonTimeout) (fun _ => false)
        (fun _ => "2024-01-01 10:00:00") (fun _ => "2024-01-01T10:00:00")
        (fun _ _ => "0.0%") true (fun _ => false).

(** A worker about to enter the send loop of a run over two numbers. *)
Definition ready_machine : Machine :=
  mkMachine (mkApp true false 0 2 0 0 1%Z) [DriverStart; WaitReady] [] []
            Absent.

(** The processed counter equals succeeded plus failed. *)
Definition balanced (a : App) : Prop :=
  processed_count a = success_count a + failed_count a.

(** The processed counter is one ahead: a recipient is being sent to. *)
Definition in_flight (a : App) : Prop :=
  processed_count a = success_count a + failed_count a + 1.

(** What holds of the counters when an event is emitted. *)
Definition event_ok (o : Obs) : Prop :=
  match ev o with
  | ProgressBar _ _ | ProcessedValue _ => in_flight (seen o)
  | SuccessValue _ | FailedValue _ => balanced (seen o)
  end.

(** The machine after [sending_complete]. *)
Definition finished (env : Env) (success : bool) (m : Machine) : Machine :=
  snd (sending_complete env success m).

(** The summary [save_session_stats] builds from the machine. *)
Definition summary_of (env : Env) (m : Machine) : RunSummary :=
  mkSummary (now_isoformat env (List.length (ops m))) (total_count (app m))
            (processed_count (app m)) (success_count (app m))
            (failed_count (app m))
            (render_rate env (success_count (app m)) (total_count (app m))).

(** ** Sample forms and surroundings *)

Definition one_number : Ui :=
  mkUi "hello" "9876543210" (Some 1%Z) (Some 2%Z) true true true.

Definition two_numbers : Ui :=
  mkUi "hello" "9876543210, 9876543211" (Some 2%Z) (Some 2%Z) true true true.

(** Every attempt succeeds and stop is never pressed. *)
Definition calm : Env :=
  mkEnv true true (fun _ => Clicked) (fun _ => false)
        (fun _ => "2024-01-01 10:00:00")
        (fun _ => "2024-01-01T10:00:00") (fun _ _ => "100.0%") true (fun _ => true).

(** Stop is pressed during the first tick of the delay between recipients
    (operation 3: the driver start is 0, the wait 1, the first attempt 2). *)
Definition stop_in_delay : Env :=
  mkEnv true true (fun _ => Clicked) (fun k => k =? 3)
        (fun _ => "2024-01-01 10:00:00")
        (fun _ => "2024-01-01T10:00:00") (fun _ _ => "100.0%") true (fun _ => true).

(** The browser does not start. *)
Definition no_driver : Env :=
  mkEnv false true (fun _ => Clicked) (fun _ => false)
        (fun _ => "2024-01-01 10:00:00")
        (fun _ => "2024-01-01T10:00:00") (fun _ _ => "100.0%") true (fun _ => true).

Definition three_numbers : Ui :=
  mkUi "hello" "9876543210, 9876543211, 9876543212" (Some 0%Z) (Some 2%Z)
       true true true.

(** With no delay and two tries, the attempts for the second of three
    numbers are operations 3 and 5; both time out. *)
Definition second_fails : Env :=
  mkEnv true true
        (fun k => if (k =? 3) || (k =? 5) then ButtonTimeout else Clicked)
        (fun _ => false)
        (fun _ => "2024-01-01 10:00:00")
        (fun _ => "2024-01-01T10:00:00") (fun _ _ => "66.7%") true (fun _ => true).

(** The job and the machine that [start_sending] produces from a form, in a
    freshly opened application. *)
Definition job_of (ui : Ui) : Job :=
  match snd (start_sending ui init_app) with
  | Some job => job
  | None => mkJob [] "" 0
  end.

Definition booted (ui : Ui) (stats : StatsFile) : Machine :=
  boot (fst (start_sending ui init_app)) [] stats.

(** * Further vocabulary *)

(** ** More on tokens *)



(** A decimal digit, '0' to '9'. *)
Definition isdecimal (c : ascii) : bool :=
  let n := nat_of_ascii c in (48 <=? n) && (n <=? 57).

(** The decimal digits of a token, in order. *)
Definition decimal_digits (num : string) : string := filter isdecimal num.

(** No character of [s] is one of the superscripts U+00B2, U+00B3 and
    U+00B9: whatever [str.isdigit] accepts in [s] is a decimal digit. *)
Definition plain (s : string) : bool :=
  PyStr.forallb (fun c => implb (isdigit c) (isdecimal c)) s.




(** U+00B2, the superscript two. *)
Definition superscript_two : ascii := ascii_of_nat 178.

(** The token 9140669674 followed by two superscripts. *)
Definition digits_then_superscripts : string :=
  ("9140669674" ++ String superscript_two (String superscript_two ""))%string.

(** The token 9876543210 with a superscript in front. *)
Definition superscript_then_digits : string :=
  String superscript_two "9876543210".

(** The two results side by side, as when the lists of two inputs are put
    one after the other. *)
Definition acc_app (x y : Acc) : Acc := (fst x ++ fst y, snd x ++ snd y).

(** A character that is white space or a comma. *)
Definition blank_char (c : ascii) : bool := isspace c || Ascii.eqb c comma.

(** The line end that the text widget adds to what [get(1.0, tk.END)]
    returns. *)
Definition newline : string := String (ascii_of_nat 10) EmptyString.


(** A form whose message box is empty. *)
Definition no_message : Ui :=
  mkUi "  " "9876543210" (Some 1%Z) (Some 2%Z) true true true.

(** A form with one bad number, the user declining to go on without it, and
    a retry setting that is not a number. *)
Definition declined : Ui :=
  mkUi "hello" "9876543210, 12345" (Some 9%Z) None false true true.

(** ** More on runs *)

(** A stop request arrives during one of the operations [lo], ..., [hi]-1. *)
Definition requested (env : Env) (lo hi : nat) : Prop :=
  exists t, lo <= t < hi /\ stop_during env t = true.

(** From [m] to [m'] the worker has only added operations, and, a run being
    active, the stop flag is set in [m'] exactly when it was set in [m] or a
    request arrived during one of the operations added. *)
Definition tracks (env : Env) (m m' : Machine) : Prop :=
  (exists extra, ops m' = ops m ++ extra)
  /\ sending (app m') = sending (app m)
  /\ (sending (app m) = true ->
      (stop_requested (app m') = true <->
       stop_requested (app m) = true
       \/ requested env (List.length (ops m)) (List.length (ops m')))).

(** The number of rows with a given status. *)
Definition count_status (status : string) (rows : list Row) : nat :=
  List.length (List.filter (fun r => String.eqb (row_status r) status) rows).

(** The number of ticks of the delay among a list of operations. *)
Definition count_ticks (l : list Op) : nat :=
  List.length (List.filter is_delay_tick l).

(** The operations of a send loop that is not cut short: for each recipient
    in turn its attempts, as many as [tries] says, with a pause between two
    of them, then [delay] ticks of the delay when another recipient
    follows, and nothing when none does. *)
Fixpoint schedule (delay : nat) (numbers : list string) (tries : list nat)
  : list Op :=
  match numbers, tries with
  | number :: numbers', j :: tries' =>
      retry_ops number 1 j
      ++ match numbers' with
         | [] => []
         | _ :: _ => repeat DelayTick delay ++ schedule delay numbers' tries'
         end
  | _, _ => []
  end.

(** The operation does not begin anything: it is neither a tick of the
    delay nor the first attempt for a recipient. *)
Definition starts_nothing (op : Op) : bool :=
  match op with
  | DelayTick => false
  | Attempt _ attempt => negb (attempt =? 1)%Z
  | _ => true
  end.

(** The rows that reach [sent_log.csv], among rows paired with the number
    of operations performed when each is written: those whose write does
    not raise. *)
Definition written (env : Env) (timed : list (nat * Row)) : list Row :=
  map snd (List.filter (fun x => sent_log_io_ok env (fst x)) timed).

(** What the loop does for one recipient: the attempts it makes, the row
    it builds, and the ticks of the delay it sleeps afterwards. *)
Record Visit : Type := mkVisit
  { visit_row : Row;
    visit_tries : nat;
    visit_ticks : nat }.

(** The operations of a visit: the attempts with their pauses, then the
    ticks. *)
Definition visit_ops (v : Visit) : list Op :=
  retry_ops (row_number (visit_row v)) 1 (visit_tries v)
  ++ repeat DelayTick (visit_ticks v).

(** The rows of consecutive visits, the first of which begins after
    [start] operations, each with the number of operations performed when
    it is written: the row of a visit is written when the attempts of the
    visit are over and before its ticks. *)
Fixpoint timed_rows (start : nat) (visits : list Visit) : list (nat * Row) :=
  match visits with
  | [] => []
  | v :: rest =>
      (start
       + List.length (retry_ops (row_number (visit_row v)) 1 (visit_tries v)),
       visit_row v)
      :: timed_rows (start + List.length (visit_ops v)) rest
  end.


(** What a row of the sent log can say. *)
Definition row_outcome (r : Row) : Prop :=
  (row_status r = "OK" /\ row_note r = "Sent successfully")
  \/ row_status r = "FAILED".

(** The row of a recipient for which no attempt was made. *)
Definition row_untried (r : Row) : Prop :=
  row_status r = "FAILED" /\ row_note r = "All attempts failed".

(** Two tries, the first of which times out for the first recipient
    (operation 2); stop is never pressed. *)
Definition first_try_fails : Env :=
  mkEnv true true (fun k => if k =? 2 then ButtonTimeout else Clicked)
        (fun _ => false)
        (fun _ => "2024-01-01 10:00:00") (fun _ => "2024-01-01T10:00:00")
        (fun _ _ => "100.0%") true (fun _ => true).

(** WhatsApp Web does not become ready. *)
Definition not_ready : Env :=
  mkEnv true false (fun _ => Clicked) (fun _ => false)
        (fun _ => "2024-01-01 10:00:00") (fun _ => "2024-01-01T10:00:00")
        (fun _ _ => "100.0%") true (fun _ => true).

(** Stop is pressed during the attempt for the last of two recipients
    (with a delay of two ticks, operation 5). *)
Definition stop_in_last_send : Env :=
  mkEnv true true (fun _ => Clicked) (fun k => k =? 5)
        (fun _ => "2024-01-01 10:00:00") (fun _ => "2024-01-01T10:00:00")
        (fun _ _ => "100.0%") true (fun _ => true).

(** A form on which the user confirms the bulk run and declines the
    test. *)
Definition test_declined : Ui :=
  mkUi "hello" "9876543210, 9876543211" (Some 2%Z) (Some 2%Z) true true
       false.


(** An attempt for one of the recipients, numbered from 1 to [max_tries]. *)
Definition attempt_within (numbers : list string) (max_tries : Z)
  (x : string * Z) : Prop :=
  In (fst x) numbers /\ (1 <= snd x <= max_tries)%Z.

(** Stop is pressed while the browser starts. *)
Definition stop_at_once : Env :=
  mkEnv true true (fun _ => Clicked) (fun k => k =? 0)
        (fun _ => "2024-01-01 10:00:00") (fun _ => "2024-01-01T10:00:00")
        (fun _ _ => "100.0%") true (fun _ => true).

(** Stop is pressed during the first of the two tries for the second of
    three recipients (operation 3 when there is no delay); that recipient
    fails on both tries. *)
Definition stop_in_retry : Env :=
  mkEnv true true
        (fun k => if (k =? 3) || (k =? 5) then ButtonTimeout else Clicked)
        (fun k => k =? 3)
        (fun _ => "2024-01-01 10:00:00") (fun _ => "2024-01-01T10:00:00")
        (fun _ _ => "66.7%") true (fun _ => true).

(** * The test send *)
Module Trial.

Section TestWorker.

Variable env : Env.

(** [test_complete]: of the state, only [sending] changes. *)
Definition test_complete (success : bool) : M unit :=
  modify_app (fun a =>
    mkApp false (stop_requested a) (processed_count a) (total_count a)
          (success_count a) (failed_count a) (delay_between a)).

(** [test_send_thread]; the result is the argument it gives to
    [test_complete].  [update_progress(100)] is the event [ProgressBar 1 1].
    On an empty list [numbers[0]] raises, and the handler that ends the
    function calls [test_complete(False)]. *)
Definition test_send_thread (numbers : list string) (message : string)
  (max_tries : Z) : M bool :=
  started <- start_edge_driver env ;;
  if negb started then test_complete false ;; ret false
  else
    ready <- wait_for_whatsapp_ready env ;;
    if negb ready then test_complete false ;; ret false
    else
      match numbers with
      | [] => test_complete false ;; ret false
      | number :: _ =>
          r <- send_via_wa_me env number message max_tries ;;
          let '(success, note) := r in
          modify_app (set_processed_count 1) ;;
          emit (ProgressBar 1 1) ;;
          emit (ProcessedValue 1) ;;
          if success then
            modify_app (set_success_count 1) ;;
            emit (SuccessValue 1) ;;
            test_complete true ;; ret true
          else
            modify_app (set_failed_count 1) ;;
            emit (FailedValue 1) ;;
            test_complete false ;; ret false
      end.

End TestWorker.

(** A test: the thread that [test_send] starts. *)
Definition trial (env : Env) (job : Job) (m : Machine) : bool * Machine :=
  test_send_thread env (job_numbers job) (job_message job)
                   (job_max_tries job) m.

End Trial.

Import Trial.

(** The job and the machine that [test_send] produces from a form, in a
    freshly opened application. *)
Definition test_job_of (ui : Ui) : Job :=
  match snd (test_send ui init_app) with
  | Some job => job
  | None => mkJob [] "" 0
  end.

Definition test_booted (ui : Ui) (sent : list Row) (stats : StatsFile)
  : Machine :=
  boot (fst (test_send ui init_app)) sent stats.

(** The browser starts and WhatsApp Web becomes ready. *)
Definition channel_up (env : Env) : bool :=
  driver_starts env && whatsapp_ready env.

(** * Drafts and imported numbers *)
Module Draft.
Import PyStr.

(** The contents of the two text boxes, as [get("1.0", "end-1c")] returns
    them. *)
Record Boxes : Type := mkBoxes {
  message_box : string;
  numbers_box : string
}.

(** What [load_draft] finds in [draft_autosave.json]: no file; something it
    cannot use (unreadable, not JSON, not an object, or a field that is not
    text: each raises and is caught); or an object, with its [message] and
    [numbers] fields when present. *)
Inductive DraftFile : Type :=
| NoDraft
| Unusable
| Stored (message numbers : option string) (timestamp : string).

(** [draft.get(key, "")] *)
Definition get_or_empty (field : option string) : string :=
  match field with
  | Some text => text
  | None => EmptyString
  end.

(** [save_draft], given the rendering of the current time and whether the
    file can be written. *)
Definition save_draft (boxes : Boxes) (timestamp : string) (io_ok : bool)
  (file : DraftFile) : DraftFile :=
  if io_ok
  then Stored (Some (message_box boxes)) (Some (numbers_box boxes)) timestamp
  else file.

(** [load_draft], given the answer to the [askyesno] dialog. *)
Definition load_draft (file : DraftFile) (restore : bool) (boxes : Boxes)
  : Boxes :=
  match file with
  | Stored message_field numbers_field _ =>
      let message := strip (get_or_empty message_field) in
      let numbers := strip (get_or_empty numbers_field) in
      if negb (is_empty message) || negb (is_empty numbers) then
        if restore then
          mkBoxes (if negb (is_empty message) then message
                   else message_box boxes)
                  (if negb (is_empty numbers) then numbers
                   else numbers_box boxes)
        else boxes
      else boxes
  | NoDraft | Unusable => boxes
  end.

(** [auto_save_draft], without its rescheduling. *)
Definition auto_save_draft (sending : bool) (boxes : Boxes)
  (timestamp : string) (io_ok : bool) (file : DraftFile) : DraftFile :=
  if negb sending then save_draft boxes timestamp io_ok file else file.

(** A row of [csv.DictReader]: the text under a column name, when the
    column exists and the row reaches it. *)
Definition CsvRow : Type := string -> option string.

(** The column names [load_csv] tries, in its order. *)
Definition csv_columns : list string :=
  ["number"; "phone"; "mobile"; "contact"; "Phone"; "Number"].

(** The inner loop of [load_csv]: the first of the columns with a non-empty
    text, trimmed. *)
Fixpoint pick (row : CsvRow) (columns : list string) : option string :=
  match columns with
  | [] => None
  | col :: columns' =>
      match row col with
      | Some text => if is_empty text then pick row columns'
                     else Some (strip text)
      | None => pick row columns'
      end
  end.

(** The [numbers] list [load_csv] builds from the rows. *)
Fixpoint csv_numbers (rows : list CsvRow) : list string :=
  match rows with
  | [] => []
  | row :: rows' =>
      match pick row csv_columns with
      | Some number => number :: csv_numbers rows'
      | None => csv_numbers rows'
      end
  end.

(** What [load_csv] does to the boxes once the file is read. *)
Definition load_csv (rows : list CsvRow) (boxes : Boxes) : Boxes :=
  match csv_numbers rows with
  | [] => boxes
  | numbers => mkBoxes (message_box boxes) (join ", " numbers)
  end.

End Draft.

Import Draft.

(** The text holds no comma. *)
Definition comma_free (s : string) : Prop :=
  PyStr.forallb (fun c => negb (Ascii.eqb c comma)) s = true.

(** The boxes of a freshly opened application. *)
Definition empty_boxes : Boxes := mkBoxes EmptyString EmptyString.

(** A sheet with a phone column in two rows and a mobile column in the
    third. *)
Definition sample_sheet : list CsvRow :=
  [ (fun col => if String.eqb col "phone" then Some " 9876543210 " else None);
    (fun col => if String.eqb col "phone" then Some "+91 98765-43211"
                else None);
    (fun col => if String.eqb col "phone" then Some EmptyString
                else if String.eqb col "mobile" then Some "12345" else None) ].

(** * Properties *)

(** ** Characters and strings *)

Lemma isdigit_not_space (c : ascii) : isdigit c = true -> isspace c = false.
Proof.
  destruct c as [[] [] [] [] [] [] [] []]; vm_compute; congruence.
Qed.

Lemma isdigit_not_comma (c : ascii) :
  isdigit c = true -> Ascii.eqb c comma = false.
Proof.
  destruct c as [[] [] [] [] [] [] [] []]; vm_compute; congruence.
Qed.

Lemma forallb_filter (pred : ascii -> bool) (s : string) :
  PyStr.forallb pred (PyStr.filter pred s) = true.
Proof.
  induction s as [|c r IH]; simpl; [reflexivity|].
  destruct (pred c) eqn:E; simpl; [rewrite E|]; assumption.
Qed.

Lemma filter_id (pred : ascii -> bool) (s : string) :
  PyStr.forallb pred s = true -> PyStr.filter pred s = s.
Proof.
  induction s as [|c r IH]; simpl; [reflexivity|].
  intros H. apply andb_true_iff in H as [Hc Hr].
  rewrite Hc, IH by assumption. reflexivity.
Qed.

Lemma lstrip_digits (s : string) :
  PyStr.forallb isdigit s = true -> lstrip s = s.
Proof.
  destruct s as [|c r]; simpl; [reflexivity|].
  intros H. apply andb_true_iff in H as [Hc _].
  rewrite (isdigit_not_space c Hc). reflexivity.
Qed.

Lemma rstrip_digits (s : string) :
  PyStr.forallb isdigit s = true -> rstrip s = s.
Proof.
  induction s as [|c r IH]; simpl; [reflexivity|].
  intros H. apply andb_true_iff in H as [Hc Hr].
  rewrite (IH Hr), (isdigit_not_space c Hc).
  destruct r; reflexivity.
Qed.

Lemma strip_digits (s : string) :
  PyStr.forallb isdigit s = true -> strip s = s.
Proof.
  intros H. unfold strip. rewrite (lstrip_digits s H). apply rstrip_digits, H.
Qed.

Lemma split_not_nil (sep : ascii) (s : string) : split sep s <> [].
Proof.
  destruct s as [|c r]; simpl; [discriminate|].
  destruct (Ascii.eqb c sep); [discriminate|].
  destruct (split sep r); discriminate.
Qed.

Lemma split_digits (s : string) :
  PyStr.forallb isdigit s = true -> split comma s = [s].
Proof.
  induction s as [|c r IH]; simpl; [reflexivity|].
  intros H. apply andb_true_iff in H as [Hc Hr].
  rewrite (isdigit_not_comma c Hc), (IH Hr). reflexivity.
Qed.

Lemma split_app_sep (sep : ascii) (a b : string) :
  split sep (a ++ String sep b)%string = split sep a ++ split sep b.
Proof.
  induction a as [|c r IH]; simpl.
  - rewrite Ascii.eqb_refl. reflexivity.
  - destruct (Ascii.eqb c sep); [rewrite IH; reflexivity|].
    rewrite IH. destruct (split sep r) eqn:E; [|reflexivity].
    exfalso. exact (split_not_nil sep r E).
Qed.

Lemma string_length_app (a b : string) :
  String.length (a ++ b)%string = String.length a + String.length b.
Proof. induction a; simpl; congruence. Qed.

(** ** The normaliser *)

(** Each step appends to the accumulators; what it appends does not depend
    on them. *)
Lemma validate_step_acc (numbers invalid : list string) (num : string) :
  validate_step (numbers, invalid) num =
  (numbers ++ fst (validate_step ([], []) num),
   invalid ++ snd (validate_step ([], []) num)).
Proof.
  unfold validate_step.
  repeat match goal with
         | |- context [if ?b then _ else _] => destruct b
         end; simpl; rewrite ?app_nil_r; reflexivity.
Qed.

Lemma fold_validate_acc (tokens numbers invalid : list string) :
  fold_left validate_step tokens (numbers, invalid) =
  (numbers ++ fst (fold_left validate_step tokens ([], [])),
   invalid ++ snd (fold_left validate_step tokens ([], []))).
Proof.
  revert numbers invalid.
  induction tokens as [|t ts IH]; intros numbers invalid; cbn [fold_left].
  - cbn [fst snd]. rewrite !app_nil_r. reflexivity.
  - rewrite validate_step_acc, IH.
    destruct (validate_step ([], []) t) as [n1 i1] eqn:E1.
    rewrite (IH n1 i1). cbn [fst snd]. rewrite !app_assoc. reflexivity.
Qed.

(** A token that survives trimming goes to exactly one list. *)
Lemma validate_step_one (num : string) :
  is_empty (strip num) = false ->
  (exists v, validate_step ([], []) num = ([v], []))
  \/ (exists x, validate_step ([], []) num = ([], [x])).
Proof.
  intros H. unfold validate_step. rewrite H.
  repeat match goal with
         | |- context [if ?b then _ else _] => destruct b
         end; simpl; eauto.
Qed.

Lemma validate_step_skip (acc : Acc) (num : string) :
  is_empty (strip num) = true -> validate_step acc num = acc.
Proof.
  intros H. unfold validate_step. destruct acc. rewrite H. reflexivity.
Qed.

Lemma fold_validate_flat (tokens : list string) :
  fold_left validate_step tokens ([], []) =
  (flat_map (fun t => fst (validate_step ([], []) t)) (List.filter kept tokens),
   flat_map (fun t => snd (validate_step ([], []) t)) (List.filter kept tokens)).
Proof.
  induction tokens as [|t ts IH]; cbn [fold_left List.filter flat_map].
  - reflexivity.
  - destruct (kept t) eqn:Ek; unfold kept in Ek;
      [apply negb_true_iff in Ek as E|apply negb_false_iff in Ek as E].
    2:{ rewrite (validate_step_skip _ t E). exact IH. }
    + destruct (validate_step ([], []) t) as [n1 i1] eqn:E1.
      rewrite fold_validate_acc, IH. cbn [flat_map fst snd].
      rewrite E1. reflexivity.
Qed.

Lemma cleaned_kept (num : string) :
  String.length (cleaned_of num) <> 0 -> kept num = true.
Proof.
  unfold cleaned_of, kept. destruct (strip num); simpl; congruence.
Qed.

Lemma step_ambiguous (num : string) :
  String.length (cleaned_of num) = 10 ->
  startswith (cleaned_of num) "91" = true ->
  validate_step ([], []) num = ([], [ambiguous_country_prefix (strip num)]).
Proof.
  intros Hlen Hpre.
  assert (Hk : kept num = true) by (apply cleaned_kept; lia).
  unfold kept in Hk. apply negb_true_iff in Hk.
  unfold validate_step. fold (cleaned_of num). rewrite Hk, Hpre, Hlen.
  destruct (cleaned_of num); [discriminate|]. reflexivity.
Qed.

Lemma step_local (num : string) :
  String.length (cleaned_of num) = 10 ->
  startswith (cleaned_of num) "91" = false ->
  validate_step ([], []) num = ([("91" ++ cleaned_of num)%string], []).
Proof.
  intros Hlen Hpre.
  assert (Hk : kept num = true) by (apply cleaned_kept; lia).
  unfold kept in Hk. apply negb_true_iff in Hk.
  unfold validate_step. fold (cleaned_of num). rewrite Hk, Hpre, Hlen.
  destruct (cleaned_of num); [discriminate|]. reflexivity.
Qed.

(** ** Decimal digits and the superscripts *)

Lemma isdecimal_isdigit (c : ascii) : isdecimal c = true -> isdigit c = true.
Proof. unfold isdecimal, isdigit. cbv zeta. intros ->. reflexivity. Qed.

Lemma isdecimal_not_space (c : ascii) :
  isspace c = true -> isdecimal c = false.
Proof.
  destruct c as [[] [] [] [] [] [] [] []]; vm_compute; congruence.
Qed.

Lemma filter_cons (pred : ascii -> bool) (c : ascii) (r : string) :
  PyStr.filter pred (String c r)
  = if pred c then String c (PyStr.filter pred r) else PyStr.filter pred r.
Proof. reflexivity. Qed.

Lemma filter_lstrip (pred : ascii -> bool) (s : string) :
  (forall c, isspace c = true -> pred c = false) ->
  PyStr.filter pred (lstrip s) = PyStr.filter pred s.
Proof.
  intros Hp. induction s as [|c r IH]; [reflexivity|].
  cbn [lstrip]. destruct (isspace c) eqn:Ec; [|reflexivity].
  rewrite filter_cons, (Hp c Ec). exact IH.
Qed.

Lemma filter_rstrip (pred : ascii -> bool) (s : string) :
  (forall c, isspace c = true -> pred c = false) ->
  PyStr.filter pred (rstrip s) = PyStr.filter pred s.
Proof.
  intros Hp. induction s as [|c r IH]; [reflexivity|].
  cbn [rstrip]. rewrite (filter_cons pred c r), <- IH.
  destruct (rstrip r) as [|c' r'].
  - destruct (isspace c) eqn:Ec.
    + rewrite (Hp c Ec). reflexivity.
    + rewrite filter_cons. reflexivity.
  - rewrite (filter_cons pred c (String c' r')). reflexivity.
Qed.

Lemma forallb_cons (pred : ascii -> bool) (c : ascii) (r : string) :
  PyStr.forallb pred (String c r) = pred c && PyStr.forallb pred r.
Proof. reflexivity. Qed.

Lemma forallb_lstrip (pred : ascii -> bool) (s : string) :
  PyStr.forallb pred s = true -> PyStr.forallb pred (lstrip s) = true.
Proof.
  induction s as [|c r IH]; [reflexivity|].
  intros H. cbn [lstrip]. destruct (isspace c); [|exact H].
  rewrite forallb_cons in H. apply andb_true_iff in H as [_ H]. exact (IH H).
Qed.

Lemma forallb_rstrip (pred : ascii -> bool) (s : string) :
  PyStr.forallb pred s = true -> PyStr.forallb pred (rstrip s) = true.
Proof.
  induction s as [|c r IH]; [reflexivity|].
  rewrite forallb_cons. intros H. apply andb_true_iff in H as [Hc Hr].
  specialize (IH Hr). cbn [rstrip].
  destruct (rstrip r) as [|c' r'].
  - destruct (isspace c); [reflexivity|].
    rewrite forallb_cons, Hc. reflexivity.
  - rewrite forallb_cons, Hc, IH. reflexivity.
Qed.


Lemma filter_plain (s : string) :
  plain s = true -> PyStr.filter isdigit s = PyStr.filter isdecimal s.
Proof.
  unfold plain. induction s as [|c r IH]; [reflexivity|].
  rewrite forallb_cons. intros H. apply andb_true_iff in H as [Hc Hr].
  rewrite !filter_cons, (IH Hr).
  destruct (isdecimal c) eqn:Ed.
  - rewrite (isdecimal_isdigit c Ed). reflexivity.
  - destruct (isdigit c); [discriminate Hc|reflexivity].
Qed.

(** Without superscripts, [cleaned] is the decimal digits of the token. *)
Lemma cleaned_plain (num : string) :
  plain num = true -> cleaned_of num = decimal_digits num.
Proof.
  intros H. unfold cleaned_of, decimal_digits, strip.
  rewrite filter_plain by (apply forallb_rstrip, forallb_lstrip, H).
  rewrite filter_rstrip, filter_lstrip by exact isdecimal_not_space.
  reflexivity.
Qed.


(** A token without superscripts whose decimal digits are exactly ten and
    start with 91 is appended to [invalid] with the message for the
    ambiguous country prefix and leaves [numbers] as it was, whatever has
    been accumulated and wherever the token stands in the input; on the
    input of the design document the result is the two expected numbers and
    the one invalid entry. *)
Lemma plain_ambiguous_prefix_is_invalid :
  (forall (numbers invalid : list string) (num : string),
      plain num = true ->
      String.length (decimal_digits num) = 10 ->
      startswith (decimal_digits num) "91" = true ->
      validate_step (numbers, invalid) num =
      (numbers, invalid ++ [ambiguous_country_prefix (strip num)]))
  /\ (forall (numbers_str num : string),
      In num (split comma numbers_str) ->
      plain num = true ->
      String.length (decimal_digits num) = 10 ->
      startswith (decimal_digits num) "91" = true ->
      In (ambiguous_country_prefix (strip num))
         (snd (validate_numbers numbers_str)))
  /\ validate_numbers "9876543210, 919876543211, 9140669674" =
     (["919876543210"; "919876543211"],
      [ambiguous_country_prefix "9140669674"]).
Proof.
  split; [|split].
  - intros numbers invalid num Hp Hlen Hpre.
    rewrite <- (cleaned_plain num Hp) in Hlen, Hpre.
    rewrite validate_step_acc, (step_ambiguous num Hlen Hpre).
    cbn [fst snd]. rewrite app_nil_r. reflexivity.
  - intros numbers_str num Hin Hp Hlen Hpre.
    rewrite <- (cleaned_plain num Hp) in Hlen, Hpre.
    unfold validate_numbers. rewrite fold_validate_flat. cbn [snd].
    apply in_flat_map. exists num. split.
    + apply filter_In. split; [exact Hin|]. apply cleaned_kept. lia.
    + rewrite (step_ambiguous num Hlen Hpre). left. reflexivity.
  - vm_compute. reflexivity.
Qed.

(** A token without superscripts whose decimal digits are exactly ten and
    do not start with 91 is appended to [numbers] as 91 followed by those
    digits, and leaves [invalid] as it was. *)
Lemma plain_local_number_gets_prefix :
  (forall (numbers invalid : list string) (num : string),
      plain num = true ->
      String.length (decimal_digits num) = 10 ->
      startswith (decimal_digits num) "91" = false ->
      validate_step (numbers, invalid) num =
      (numbers ++ [("91" ++ decimal_digits num)%string], invalid))
  /\ (forall (numbers_str num : string),
      In num (split comma numbers_str) ->
      plain num = true ->
      String.length (decimal_digits num) = 10 ->
      startswith (decimal_digits num) "91" = false ->
      In ("91" ++ decimal_digits num)%string
         (fst (validate_numbers numbers_str))).
Proof.
  split.
  - intros numbers invalid num Hp Hlen Hpre.
    rewrite <- (cleaned_plain num Hp) in *.
    rewrite validate_step_acc, (step_local num Hlen Hpre).
    cbn [fst snd]. rewrite app_nil_r. reflexivity.
  - intros numbers_str num Hin Hp Hlen Hpre.
    rewrite <- (cleaned_plain num Hp) in *.
    unfold validate_numbers. rewrite fold_validate_flat. cbn [fst].
    apply in_flat_map. exists num. split.
    + apply filter_In. split; [exact Hin|]. apply cleaned_kept. lia.
    + rewrite (step_local num Hlen Hpre). left. reflexivity.
Qed.

(** C2, which the code breaks on a token that holds a superscript: the
    token 9140669674 followed by two U+00B2 has exactly the ten decimal
    digits 9140669674 and they start with 91, so the token is to be
    reported for the ambiguous country prefix and kept out of the valid
    list.  [str.isdigit] is true of U+00B2, the filter of
    [validate_numbers] keeps the two superscripts, the filtered string has
    twelve characters, and the token comes back as a valid number,
    superscripts included, with nothing reported. *)
Theorem superscripts_pass_ambiguous_prefix :
  decimal_digits digits_then_superscripts = "9140669674"
  /\ String.length (decimal_digits digits_then_superscripts) = 10
  /\ startswith (decimal_digits digits_then_superscripts) "91" = true
  /\ validate_numbers digits_then_superscripts
     = ([digits_then_superscripts], [])
  /\ validate_numbers ("9876543210, " ++ digits_then_superscripts)
     = (["919876543210"; digits_then_superscripts], []).
Proof. repeat split; reflexivity. Qed.

(** C3, which the code breaks on a token that holds a superscript: the
    token 9876543210 with U+00B2 in front has exactly the ten decimal
    digits 9876543210 and they do not start with 91, so the token is to
    give the valid number 919876543210.  [str.isdigit] is true of U+00B2,
    the filter of [validate_numbers] keeps the superscript, the filtered
    string has eleven characters, and the token is reported as eleven
    digits without 91, with nothing in the valid list. *)
Theorem superscript_blocks_local_number :
  decimal_digits superscript_then_digits = "9876543210"
  /\ String.length (decimal_digits superscript_then_digits) = 10
  /\ startswith (decimal_digits superscript_then_digits) "91" = false
  /\ validate_numbers superscript_then_digits
     = ([], [(superscript_then_digits ++ " (11 digits without 91)")%string])
  /\ validate_numbers ("x, " ++ superscript_then_digits)
     = ([], ["x (no digits)";
             (superscript_then_digits ++ " (11 digits without 91)")%string]).
Proof. repeat split; reflexivity. Qed.

(** C10: the two result lists are the concatenation, over the tokens that
    are non-empty after trimming and in input order, of what each token
    contributes, and each such token contributes one entry to exactly one
    list; so the lengths add up to the number of those tokens. *)
Theorem validate_numbers_partitions (numbers_str : string) :
  fst (validate_numbers numbers_str) =
    flat_map (fun t => fst (validate_step ([], []) t))
             (kept_tokens numbers_str)
  /\ snd (validate_numbers numbers_str) =
    flat_map (fun t => snd (validate_step ([], []) t))
             (kept_tokens numbers_str)
  /\ Forall (fun t =>
               (exists v, validate_step ([], []) t = ([v], []))
               \/ (exists x, validate_step ([], []) t = ([], [x])))
            (kept_tokens numbers_str)
  /\ List.length (fst (validate_numbers numbers_str))
     + List.length (snd (validate_numbers numbers_str))
     = List.length (kept_tokens numbers_str).
Proof.
  unfold validate_numbers, kept_tokens.
  rewrite fold_validate_flat. cbn [fst snd].
  assert (HF : Forall (fun t =>
               (exists v, validate_step ([], []) t = ([v], []))
               \/ (exists x, validate_step ([], []) t = ([], [x])))
            (List.filter kept (split comma numbers_str))).
  { apply Forall_forall. intros t Ht. apply filter_In in Ht as [_ Hk].
    apply validate_step_one. unfold kept in Hk.
    apply negb_true_iff in Hk. exact Hk. }
  repeat split; try exact HF.
  induction HF as [|t ts Ht _ IH]; cbn [flat_map List.length].
  - reflexivity.
  - rewrite !length_app.
    destruct Ht as [[v Hv]|[x Hx]]; [rewrite Hv|rewrite Hx];
      cbn [fst snd List.length]; lia.
Qed.

Lemma step_well_formed (num v : string) :
  In v (fst (validate_step ([], []) num)) -> well_formed v.
Proof.
  unfold validate_step. fold (cleaned_of num).
  destruct (is_empty (strip num)); [intros []|].
  destruct (is_empty (cleaned_of num)); [intros []|].
  destruct (startswith (cleaned_of num) "91") eqn:Hpre.
  - destruct (String.length (cleaned_of num) =? 12) eqn:H12.
    + intros [<-|[]]. apply Nat.eqb_eq in H12.
      repeat split; [apply forallb_filter|exact H12|exact Hpre].
    + destruct (String.length (cleaned_of num) =? 10); [intros []|].
      destruct (12 <? String.length (cleaned_of num)); intros [].
  - destruct (String.length (cleaned_of num) =? 10) eqn:H10.
    + intros [<-|[]]. apply Nat.eqb_eq in H10.
      repeat split.
      * cbn [PyStr.forallb String.append]. unfold cleaned_of.
        rewrite forallb_filter. reflexivity.
      * rewrite string_length_app, H10. reflexivity.
      * unfold startswith. destruct (cleaned_of num); reflexivity.
    + destruct (10 <? String.length (cleaned_of num)); intros [].
Qed.

Lemma numbers_well_formed (numbers_str : string) :
  Forall well_formed (fst (validate_numbers numbers_str)).
Proof.
  unfold validate_numbers. rewrite fold_validate_flat. cbn [fst].
  apply Forall_forall. intros v Hv.
  apply in_flat_map in Hv as [t [_ Ht]].
  exact (step_well_formed t v Ht).
Qed.

Lemma well_formed_step (v : string) :
  well_formed v -> kept v = true /\ validate_step ([], []) v = ([v], []).
Proof.
  intros [Hd [Hlen Hpre]].
  assert (Hs : strip v = v) by (apply strip_digits, Hd).
  assert (Hc : cleaned_of v = v).
  { unfold cleaned_of. rewrite Hs. apply filter_id, Hd. }
  assert (Hne : is_empty v = false).
  { destruct v; [discriminate Hlen|reflexivity]. }
  split.
  - unfold kept. rewrite Hs, Hne. reflexivity.
  - unfold validate_step. fold (cleaned_of v).
    rewrite Hs, Hc, Hne, Hpre, Hlen. reflexivity.
Qed.

Lemma validate_step_strip (acc : Acc) (t t' : string) :
  strip t = strip t' -> validate_step acc t = validate_step acc t'.
Proof.
  intros H. unfold validate_step. rewrite H. reflexivity.
Qed.

Lemma strip_leading_space (v : string) :
  strip (String " " v) = strip v.
Proof. reflexivity. Qed.

Lemma fold_well_formed (tokens l : list string) :
  Forall2 (fun t v => strip t = strip v /\ well_formed v) tokens l ->
  fold_left validate_step tokens ([], []) = (l, []).
Proof.
  induction 1 as [|t v ts l [Hs Hv] _ IH]; cbn [fold_left].
  - reflexivity.
  - destruct (well_formed_step v Hv) as [_ Hstep].
    rewrite (validate_step_strip _ t v Hs), Hstep, fold_validate_acc, IH.
    reflexivity.
Qed.

Lemma split_join_comma (v : string) (rest : list string) :
  Forall well_formed (v :: rest) ->
  split comma (join "," (v :: rest)) = v :: rest.
Proof.
  revert v. induction rest as [|w rest IH]; intros v Hall.
  - apply split_digits. inversion Hall as [|? ? [Hd _] _]. exact Hd.
  - inversion Hall as [|? ? [Hd _] Hrest]; subst.
    change (join "," (v :: w :: rest))
      with (v ++ String comma (join "," (w :: rest)))%string.
    rewrite split_app_sep, (split_digits v Hd), (IH w Hrest). reflexivity.
Qed.

Lemma split_join_comma_space (v : string) (rest : list string) :
  Forall well_formed (v :: rest) ->
  split comma (join ", " (v :: rest)) = v :: map (String " ") rest.
Proof.
  revert v. induction rest as [|w rest IH]; intros v Hall.
  - apply split_digits. inversion Hall as [|? ? [Hd _] _]. exact Hd.
  - inversion Hall as [|? ? [Hd _] Hrest]; subst.
    change (join ", " (v :: w :: rest))
      with (v ++ String comma (String " " (join ", " (w :: rest))))%string.
    rewrite split_app_sep, (split_digits v Hd).
    cbn [split app]. change (Ascii.eqb " " comma) with false. cbv iota.
    rewrite (IH w Hrest). reflexivity.
Qed.

Lemma renormalise (sep : string) (l : list string) :
  sep = "," \/ sep = ", " ->
  Forall well_formed l ->
  validate_numbers (join sep l) = (l, []).
Proof.
  intros Hsep Hall. destruct l as [|v rest].
  - destruct Hsep as [-> | ->]; reflexivity.
  - unfold validate_numbers.
    inversion Hall as [|? ? Hv Hrest]; subst.
    destruct Hsep as [-> | ->].
    + rewrite (split_join_comma v rest Hall).
      apply fold_well_formed.
      clear Hv Hrest. induction Hall; constructor; auto.
    + rewrite (split_join_comma_space v rest Hall).
      apply fold_well_formed. constructor; [auto|].
      clear Hv Hall. induction Hrest; cbn [map]; constructor; auto.
Qed.

(** C4: the valid list of any input, joined with commas (with or without a
    space after each comma) and normalised again, comes back unchanged and
    with no invalid entry. *)
Theorem validate_numbers_idempotent (numbers_str : string) :
  validate_numbers (join "," (fst (validate_numbers numbers_str))) =
    (fst (validate_numbers numbers_str), [])
  /\ validate_numbers (join ", " (fst (validate_numbers numbers_str))) =
    (fst (validate_numbers numbers_str), []).
Proof.
  split; apply renormalise; auto using numbers_well_formed.
Qed.

(** ** The summary history *)

Lemma last_n_suffix {A : Type} (n : nat) (l : list A) :
  l = firstn (List.length l - n) l ++ last_n n l
  /\ List.length (last_n n l) = Nat.min n (List.length l).
Proof.
  unfold last_n. split.
  - symmetry. apply firstn_skipn.
  - rewrite length_skipn. lia.
Qed.

(** C8: when [save_session_stats] writes the file, the history it writes is
    the end of the previous history followed by the new summary, in the same
    order, of length min(50, previous length + 1): never more than 50
    entries, and what is dropped is dropped from the old end. *)
Theorem history_keeps_last_50 (env : Env) (m : Machine) :
  stats_io_ok env = true ->
  exists (stats : RunSummary) (evicted retained : list RunSummary),
    stats_file (snd (save_session_stats env m)) = Saved retained
    /\ load_history (stats_file m) ++ [stats] = evicted ++ retained
    /\ List.length retained =
       Nat.min 50 (List.length (load_history (stats_file m)) + 1)
    /\ List.length retained <= 50
    /\ total stats = total_count (app m)
    /\ processed stats = processed_count (app m)
    /\ successful stats = success_count (app m)
    /\ failed stats = failed_count (app m).
Proof.
  intros Hio. unfold save_session_stats. rewrite Hio. cbn [snd stats_file].
  set (stats := mkSummary _ _ _ _ _ _).
  destruct (last_n_suffix 50 (load_history (stats_file m) ++ [stats]))
    as [Hsplit Hlen].
  exists stats,
    (firstn (List.length (load_history (stats_file m) ++ [stats]) - 50)
            (load_history (stats_file m) ++ [stats])),
    (append_summary (load_history (stats_file m)) stats).
  unfold append_summary.
  rewrite length_app in Hlen. cbn [List.length] in Hlen.
  repeat split; try reflexivity; try exact Hsplit; lia.
Qed.

Lemma history_keeps_last_50_witness :
  exists (stats : RunSummary) (evicted retained : list RunSummary),
    stats_file (snd (save_session_stats
                       (mkEnv true true (fun _ => Clicked) (fun _ => false)
                              (fun _ => "t") (fun _ => "t")
                              (fun _ _ => "100.0%") true (fun _ => true))
                       (mkMachine (mkApp false false 2 2 2 0 6%Z) [] [] []
                                  (Saved sixty_summaries))))
    = Saved retained
    /\ sixty_summaries ++ [stats] = evicted ++ retained
    /\ List.length retained = Nat.min 50 (List.length sixty_summaries + 1)
    /\ List.length retained <= 50
    /\ total stats = 2 /\ processed stats = 2
    /\ successful stats = 2 /\ failed stats = 0.
Proof.
  apply (history_keeps_last_50
           (mkEnv true true (fun _ => Clicked) (fun _ => false)
                  (fun _ => "t") (fun _ => "t") (fun _ _ => "100.0%") true (fun _ => true))
           (mkMachine (mkApp false false 2 2 2 0 6%Z) [] [] []
                      (Saved sixty_summaries))).
  reflexivity.
Defined.

(** ** One run at a time *)

(** C9: while a run is active, [start_sending] and [test_send] return at
    once: the state, counters included, is the one they were given and no
    thread is started. *)
Theorem start_rejected_while_sending (ui : Ui) (a : App) :
  sending a = true ->
  start_sending ui a = (a, None) /\ test_send ui a = (a, None).
Proof.
  intros H. unfold start_sending, test_send. rewrite H. split; reflexivity.
Qed.

Lemma start_rejected_while_sending_witness :
  start_sending (mkUi "hi" "9876543210" (Some 1%Z) (Some 2%Z) true true true)
                (mkApp true false 3 7 2 1 6%Z)
  = (mkApp true false 3 7 2 1 6%Z, None)
  /\ test_send (mkUi "hi" "9876543210" (Some 1%Z) (Some 2%Z) true true true)
               (mkApp true false 3 7 2 1 6%Z)
  = (mkApp true false 3 7 2 1 6%Z, None).
Proof.
  apply (start_rejected_while_sending
           (mkUi "hi" "9876543210" (Some 1%Z) (Some 2%Z) true true true)
           (mkApp true false 3 7 2 1 6%Z)).
  reflexivity.
Defined.

(** ** The worker: what its operations leave alone *)

Lemma steady_refl (a : App) : steady a a.
Proof. unfold steady. tauto. Qed.

Lemma steady_trans (a b c : App) : steady a b -> steady b c -> steady a c.
Proof.
  unfold steady. intros (?&?&?&?&?&?&?) (?&?&?&?&?&?&?).
  repeat split; try congruence; auto.
Qed.

Lemma quiet_refl (m : Machine) : quiet m m.
Proof. unfold quiet. auto using steady_refl. Qed.

Lemma quiet_trans (m1 m2 m3 : Machine) :
  quiet m1 m2 -> quiet m2 m3 -> quiet m1 m3.
Proof.
  unfold quiet. intros (?&?&?&?) (?&?&?&?).
  split; [congruence|]. split; [congruence|]. split; [congruence|].
  eauto using steady_trans.
Qed.

Lemma stop_sending_steady (a : App) : steady a (stop_sending a).
Proof.
  unfold stop_sending. destruct (sending a); [|apply steady_refl].
  unfold steady. cbn. tauto.
Qed.

Section WorkerFacts.

Variable env : Env.

Lemma block_spec (op : Op) (m : Machine) :
  exists m',
    block env op m = (List.length (ops m), m')
    /\ ops m' = ops m ++ [op]
    /\ quiet m m'
    /\ (stop_during env (List.length (ops m)) = true ->
        sending (app m) = true -> stop_requested (app m') = true).
Proof.
  unfold block. eexists. split; [reflexivity|]. cbn.
  split; [reflexivity|]. split.
  - unfold quiet. cbn. split; [reflexivity|]. split; [reflexivity|].
    split; [reflexivity|].
    destruct (stop_during env _);
      [apply stop_sending_steady|apply steady_refl].
  - intros -> Hs. unfold stop_sending. rewrite Hs. reflexivity.
Qed.

(** [send_via_wa_me] adds attempts and pauses only. *)
Lemma attempt_loop_frame (number : string) (max_tries : Z) (remaining : nat) :
  forall (attempt : Z) (m : Machine),
  exists r m' extra,
    attempt_loop env number max_tries remaining attempt m = (r, m')
    /\ ops m' = ops m ++ extra
    /\ List.forallb (fun op => negb (is_delay_tick op)) extra = true
    /\ quiet m m'.
Proof.
  induction remaining as [|n IH]; intros attempt m; cbn [attempt_loop].
  - exists (false, "All attempts failed"), m, [].
    rewrite app_nil_r. auto using quiet_refl.
  - unfold bind at 1.
    destruct (block_spec (Attempt number attempt) m)
      as (m1 & -> & Hops1 & Hq1 & _).
    assert (Hretry :
      exists r m' extra,
        (if (attempt <? max_tries)%Z
         then block env Backoff ;;
              attempt_loop env number max_tries n (attempt + 1)%Z
         else ret (false, failure_note
                            (attempt_result env (List.length (ops m))))) m1
        = (r, m')
        /\ ops m' = ops m ++ extra
        /\ List.forallb (fun op => negb (is_delay_tick op)) extra = true
        /\ quiet m m').
    { destruct (attempt <? max_tries)%Z.
      - unfold bind.
        destruct (block_spec Backoff m1) as (m2 & -> & Hops2 & Hq2 & _).
        destruct (IH (attempt + 1)%Z m2) as (r & m' & extra & -> & Ho & Hf & Hq).
        exists r, m', ([Attempt number attempt; Backoff] ++ extra).
        split; [reflexivity|]. split.
        + rewrite Ho, Hops2, Hops1, <- !app_assoc. reflexivity.
        + split; [exact Hf|]. eauto using quiet_trans.
      - exists (false, failure_note (attempt_result env (List.length (ops m)))),
               m1, [Attempt number attempt].
        auto. }
    destruct (attempt_result env (List.length (ops m))) eqn:Er;
      try exact Hretry.
    exists (true, "Sent successfully"), m1, [Attempt number attempt].
    auto.
Qed.

Lemma delay_loop_frame (n : nat) :
  forall (m : Machine),
  exists m' k,
    delay_loop env n m = (tt, m')
    /\ ops m' = ops m ++ repeat DelayTick k
    /\ quiet m m'.
Proof.
  induction n as [|n IH]; intros m; cbn [delay_loop].
  - exists m, 0. cbn. rewrite app_nil_r. auto using quiet_refl.
  - unfold bind at 1, get_app.
    destruct (stop_requested (app m)).
    + exists m, 0. cbn. rewrite app_nil_r. auto using quiet_refl.
    + unfold bind.
      destruct (block_spec DelayTick m) as (m1 & -> & Hops1 & Hq1 & _).
      destruct (IH m1) as (m' & k & -> & Ho & Hq).
      exists m', (S k). split; [reflexivity|]. split.
      * rewrite Ho, Hops1, <- app_assoc. reflexivity.
      * eauto using quiet_trans.
Qed.

End WorkerFacts.

(** ** Retries *)

Lemma attempts_of_app (l1 l2 : list Op) :
  attempts_of (l1 ++ l2) = attempts_of l1 ++ attempts_of l2.
Proof.
  induction l1 as [|op l1 IH]; cbn; [reflexivity|].
  destruct op; cbn; rewrite IH; reflexivity.
Qed.

Lemma attempts_of_ticks (k : nat) : attempts_of (repeat DelayTick k) = [].
Proof. induction k; cbn; auto. Qed.

Lemma attempts_of_retry_ops (number : string) (n : nat) :
  forall (attempt : Z),
  attempts_of (retry_ops number attempt n) =
  map (fun j => (number, (attempt + Z.of_nat j)%Z)) (seq 0 n).
Proof.
  induction n as [|n IH]; intros attempt; [reflexivity|].
  destruct n as [|n].
  - cbn. rewrite Z.add_0_r. reflexivity.
  - change (retry_ops number attempt (S (S n)))
      with (Attempt number attempt :: Backoff
            :: retry_ops number (attempt + 1)%Z (S n)).
    cbn [attempts_of]. rewrite IH.
    change (seq 0 (S (S n))) with (0 :: seq 1 (S n)).
    rewrite <- (seq_shift (S n) 0). cbn [map]. rewrite map_map. f_equal.
    + f_equal. lia.
    + apply map_ext. intros j. f_equal. lia.
Qed.

Section Retries.

Variable env : Env.

Lemma attempt_loop_all_fail (number : string) (max_tries : Z)
  (remaining : nat) :
  forall (attempt : Z) (m : Machine),
  (attempt + Z.of_nat remaining - 1 = max_tries)%Z ->
  1 <= remaining ->
  (forall j, j < remaining ->
     attempt_result env (List.length (ops m) + 2 * j) <> Clicked) ->
  exists note m',
    attempt_loop env number max_tries remaining attempt m = ((false, note), m')
    /\ ops m' = ops m ++ retry_ops number attempt remaining
    /\ quiet m m'.
Proof.
  induction remaining as [|n IH]; intros attempt m Hmax Hpos Hfail; [lia|].
  cbn [attempt_loop]. unfold bind at 1.
  destruct (block_spec env (Attempt number attempt) m)
    as (m1 & -> & Hops1 & Hq1 & _).
  assert (H0 : attempt_result env (List.length (ops m)) <> Clicked).
  { specialize (Hfail 0 ltac:(lia)). rewrite Nat.add_0_r in Hfail.
    exact Hfail. }
  assert (Hretry :
    exists note m',
      (if (attempt <? max_tries)%Z
       then block env Backoff ;;
            attempt_loop env number max_tries n (attempt + 1)%Z
       else ret (false, failure_note
                          (attempt_result env (List.length (ops m))))) m1
      = ((false, note), m')
      /\ ops m' = ops m ++ retry_ops number attempt (S n)
      /\ quiet m m').
  { destruct n as [|n].
    - assert (Hlt : (attempt <? max_tries)%Z = false)
        by (apply Z.ltb_ge; lia).
      rewrite Hlt. eexists. exists m1. split; [reflexivity|].
      split; [exact Hops1|exact Hq1].
    - assert (Hlt : (attempt <? max_tries)%Z = true)
        by (apply Z.ltb_lt; lia).
      rewrite Hlt. unfold bind.
      destruct (block_spec env Backoff m1) as (m2 & -> & Hops2 & Hq2 & _).
      destruct (IH (attempt + 1)%Z m2) as (note & m' & -> & Ho & Hq).
      + lia.
      + lia.
      + intros j Hj. rewrite Hops2, Hops1, !length_app. cbn [List.length].
        replace (List.length (ops m) + 1 + 1 + 2 * j)
          with (List.length (ops m) + 2 * S j) by lia.
        apply Hfail. lia.
      + exists note, m'. split; [reflexivity|]. split.
        * rewrite Ho, Hops2, Hops1, <- !app_assoc. reflexivity.
        * eauto using quiet_trans. }
  destruct (attempt_result env (List.length (ops m))) eqn:Er;
    [congruence|exact Hretry..].
Qed.

Lemma send_via_wa_me_all_fail (number message : string) (max_tries : Z)
  (m : Machine) :
  (1 <= max_tries)%Z ->
  (forall j, j < Z.to_nat max_tries ->
     attempt_result env (List.length (ops m) + 2 * j) <> Clicked) ->
  exists note m',
    send_via_wa_me env number message max_tries m = ((false, note), m')
    /\ ops m' = ops m ++ retry_ops number 1 (Z.to_nat max_tries)
    /\ quiet m m'.
Proof.
  intros Hpos Hfail. unfold send_via_wa_me.
  apply attempt_loop_all_fail; [lia|lia|exact Hfail].
Qed.

End Retries.

(** ** One iteration of the send loop *)

Lemma send_loop_cons (env : Env) (number : string) (rest : list string)
  (idx len : nat) (message : string) (max_tries : Z) (m : Machine) :
  send_loop env (number :: rest) idx len message max_tries m =
  if stop_requested (app m) then (tt, m)
  else
    let '(r, m0) :=
      send_via_wa_me env number message max_tries (before_send idx len m) in
    send_loop env rest (S idx) len message max_tries
      (paused env idx len (recorded env (fst r) (snd r) number message m0)).
Proof.
  cbn [send_loop].
  unfold bind, get_app, modify_app, emit, clock, append_sent_log, ret,
    before_send, paused, recorded.
  cbn [app ops events sent_log stats_file].
  destruct (stop_requested (app m)); [reflexivity|].
  match goal with
  | |- context [send_via_wa_me ?e ?n ?msg ?mt ?mm] =>
      destruct (send_via_wa_me e n msg mt mm) as [[success note] m0]
  end.
  cbn [fst snd].
  destruct success; cbn [app ops events sent_log stats_file];
    match goal with
    | |- context [sent_log_io_ok env ?k] => destruct (sent_log_io_ok env k)
    end; cbn [app ops events sent_log stats_file]; rewrite ?app_nil_r;
    match goal with
    | |- context [if ?c then delay_loop _ _ else _] => destruct c
    end; try reflexivity;
    match goal with
    | |- context [delay_loop ?e ?n ?mm] =>
        destruct (delay_loop e n mm) as [[] ?]; reflexivity
    end.
Qed.

Lemma send_loop_nil (env : Env) (idx len : nat) (message : string)
  (max_tries : Z) (m : Machine) :
  send_loop env [] idx len message max_tries m = (tt, m).
Proof. reflexivity. Qed.

Lemma paused_frame (env : Env) (idx len : nat) (m : Machine) :
  exists k,
    ops (paused env idx len m) = ops m ++ repeat DelayTick k
    /\ quiet m (paused env idx len m).
Proof.
  unfold paused.
  destruct ((idx <? len) && negb (stop_requested (app m))).
  - destruct (delay_loop_frame env (Z.to_nat (delay_between (app m))) m)
      as (m' & k & -> & Ho & Hq).
    exists k. auto.
  - exists 0. cbn. rewrite app_nil_r. auto using quiet_refl.
Qed.

Lemma length_retry_ops (number : string) (n : nat) :
  forall attempt,
  List.length (retry_ops number attempt n) = 2 * n - 1.
Proof.
  induction n as [|n IH]; intros attempt; [reflexivity|].
  destruct n as [|n]; [reflexivity|].
  change (retry_ops number attempt (S (S n)))
    with (Attempt number attempt :: Backoff
          :: retry_ops number (attempt + 1)%Z (S n)).
  cbn [List.length]. rewrite IH. lia.
Qed.

Lemma send_loop_one (env : Env) (number : string) (rest : list string)
  (idx len : nat) (message : string) (max_tries : Z) (m : Machine) :
  send_loop env (number :: rest) idx len message max_tries m =
  send_loop env rest (S idx) len message max_tries
            (snd (send_loop env [number] idx len message max_tries m)).
Proof.
  rewrite !send_loop_cons.
  destruct (stop_requested (app m)) eqn:Hflag.
  - cbn [snd]. destruct rest; [reflexivity|].
    rewrite send_loop_cons, Hflag. reflexivity.
  - destruct (send_via_wa_me env number message max_tries
                             (before_send idx len m)) as [r m0].
    rewrite send_loop_nil. reflexivity.
Qed.

(** C5, as the code has it: when the loop reaches a recipient with the stop
    flag clear and each of the [max_tries] attempts made for it fails
    ([max_tries] at least 1; a pause separates two attempts, so attempt j+1
    is the operation 2j places after the first), then, in the machine the
    loop has reached when it is done with this recipient, the attempts
    added are exactly attempts 1 to [max_tries] for that number,
    [send_via_wa_me] has reported failure, the failed counter has gone up by
    one, and the sent log has gained one row for the number, with status
    FAILED, when the write that follows the last attempt succeeds, and
    nothing when it raises; the loop then goes on with the rest of the
    list from that machine. *)
Theorem failing_recipient_uses_all_attempts (env : Env) (number : string)
  (rest : list string) (idx len : nat) (message : string) (max_tries : Z)
  (m : Machine) :
  (1 <= max_tries)%Z ->
  stop_requested (app m) = false ->
  (forall j, j < Z.to_nat max_tries ->
     attempt_result env (List.length (ops m) + 2 * j) <> Clicked) ->
  send_loop env (number :: rest) idx len message max_tries m =
  send_loop env rest (S idx) len message max_tries
            (snd (send_loop env [number] idx len message max_tries m))
  /\ fst (fst (send_via_wa_me env number message max_tries
                              (before_send idx len m))) = false
  /\ attempts_of
       (ops (snd (send_loop env [number] idx len message max_tries m))) =
     attempts_of (ops m)
     ++ map (fun k => (number, Z.of_nat k)) (seq 1 (Z.to_nat max_tries))
  /\ (exists row : Row,
        row_number row = number
        /\ row_status row = "FAILED"
        /\ sent_log (snd (send_loop env [number] idx len message max_tries m))
           = sent_log m
             ++ (if sent_log_io_ok env
                      (List.length (ops m) + (2 * Z.to_nat max_tries - 1))
                 then [row] else []))
  /\ failed_count
       (app (snd (send_loop env [number] idx len message max_tries m)))
     = failed_count (app m) + 1
  /\ success_count
       (app (snd (send_loop env [number] idx len message max_tries m)))
     = success_count (app m).
Proof.
  intros Hpos Hstop Hfail.
  split; [apply send_loop_one|].
  rewrite send_loop_cons, Hstop.
  destruct (send_via_wa_me_all_fail env number message max_tries
              (before_send idx len m) Hpos Hfail)
    as (note & m0 & Hsend & Hops0 & Hq0).
  rewrite Hsend, send_loop_nil. cbn [fst snd].
  destruct (paused_frame env idx len
              (recorded env false note number message m0))
    as (k & Hopsp & Hqp).
  destruct Hq0 as (_ & Hlog0 & _ & Hst0).
  destruct Hqp as (_ & Hlogp & _ & Hstp).
  destruct Hst0 as (_ & _ & _ & Hs0 & Hf0 & _).
  destruct Hstp as (_ & _ & _ & Hsp & Hfp & _).
  cbn [before_send ops sent_log] in Hops0, Hlog0.
  split; [reflexivity|]. split.
  { rewrite Hopsp. cbn [recorded ops]. rewrite Hops0.
    rewrite !attempts_of_app, attempts_of_ticks, app_nil_r,
      attempts_of_retry_ops.
    f_equal. rewrite <- seq_shift, map_map.
    apply map_ext. intros j. f_equal. lia. }
  split.
  { exists (mkRow (now_strftime env (List.length (ops m0))) number message
                  "FAILED" note).
    split; [reflexivity|]. split; [reflexivity|].
    rewrite Hlogp. cbn [recorded sent_log]. rewrite Hlog0, Hops0, length_app,
      length_retry_ops.
    reflexivity. }
  rewrite Hfp, Hsp. cbn [recorded app].
  cbn. rewrite Hf0, Hs0. cbn. auto.
Qed.

Lemma failing_recipient_uses_all_attempts_witness :
  send_loop always_timeout ["919876543210"; "919876543211"] 1 2 "hi" 3
            ready_machine =
  send_loop always_timeout ["919876543211"] 2 2 "hi" 3
            (snd (send_loop always_timeout ["919876543210"] 1 2 "hi" 3
                            ready_machine))
  /\ fst (fst (send_via_wa_me always_timeout "919876543210" "hi" 3
                              (before_send 1 2 ready_machine))) = false
  /\ attempts_of
       (ops (snd (send_loop always_timeout ["919876543210"] 1 2 "hi" 3
                            ready_machine))) =
     attempts_of (ops ready_machine)
     ++ map (fun k => ("919876543210", Z.of_nat k)) (seq 1 (Z.to_nat 3))
  /\ (exists row : Row,
        row_number row = "919876543210"
        /\ row_status row = "FAILED"
        /\ sent_log (snd (send_loop always_timeout ["919876543210"] 1 2 "hi"
                                    3 ready_machine))
           = sent_log ready_machine
             ++ (if sent_log_io_ok always_timeout
                      (List.length (ops ready_machine)
                       + (2 * Z.to_nat 3 - 1))
                 then [row] else []))
  /\ failed_count
       (app (snd (send_loop always_timeout ["919876543210"] 1 2 "hi" 3
                            ready_machine)))
     = failed_count (app ready_machine) + 1
  /\ success_count
       (app (snd (send_loop always_timeout ["919876543210"] 1 2 "hi" 3
                            ready_machine)))
     = success_count (app ready_machine).
Proof.
  apply (failing_recipient_uses_all_attempts always_timeout "919876543210"
           ["919876543211"] 1 2 "hi" 3 ready_machine).
  - lia.
  - reflexivity.
  - intros j _. discriminate.
Defined.

(** C5 as stated fails: when [sent_log.csv] cannot be written, a recipient
    whose three tries all time out consumes the three attempts and is
    counted as failed, and no row is recorded for it. *)
Lemma failing_recipient_unlogged :
  attempts_of
    (ops (snd (send_loop always_timeout_no_log ["919876543210"] 1 2 "hi" 3
                         ready_machine)))
  = [("919876543210", 1%Z); ("919876543210", 2%Z); ("919876543210", 3%Z)]
  /\ failed_count
       (app (snd (send_loop always_timeout_no_log ["919876543210"] 1 2 "hi" 3
                            ready_machine))) = 1
  /\ sent_log (snd (send_loop always_timeout_no_log ["919876543210"] 1 2 "hi"
                              3 ready_machine)) = [].
Proof. repeat split; reflexivity. Qed.

(** ** Counters *)

Lemma send_via_wa_me_frame (env : Env) (number message : string)
  (max_tries : Z) (m : Machine) :
  exists r m' extra,
    send_via_wa_me env number message max_tries m = (r, m')
    /\ ops m' = ops m ++ extra
    /\ List.forallb (fun op => negb (is_delay_tick op)) extra = true
    /\ quiet m m'.
Proof. apply attempt_loop_frame. Qed.

Lemma send_loop_counts (env : Env) (message : string) (max_tries : Z)
  (len : nat) (numbers : list string) :
  forall (idx : nat) (m : Machine),
  balanced (app m) ->
  idx = S (processed_count (app m)) ->
  Forall event_ok (events m) ->
  balanced (app (snd (send_loop env numbers idx len message max_tries m)))
  /\ Forall event_ok
       (events (snd (send_loop env numbers idx len message max_tries m))).
Proof.
  induction numbers as [|number rest IH]; intros idx m Hbal Hidx Hev.
  - rewrite send_loop_nil. auto.
  - rewrite send_loop_cons.
    destruct (stop_requested (app m)); [auto|].
    destruct (send_via_wa_me_frame env number message max_tries
                (before_send idx len m))
      as ([success note] & m0 & extra & -> & _ & _ & Hq0).
    cbn [fst snd].
    destruct (paused_frame env idx len
                (recorded env success note number message m0))
      as (k & _ & Hqp).
    destruct Hq0 as (Hev0 & _ & _ & (_ & Hp0 & _ & Hs0 & Hf0 & _)).
    destruct Hqp as (Hevp & _ & _ & (_ & Hpp & _ & Hsp & Hfp & _)).
    cbn [before_send app events set_processed_count processed_count
         success_count failed_count] in Hp0, Hs0, Hf0, Hev0.
    unfold balanced in Hbal.
    assert (Hrec : balanced (app (recorded env success note number message m0))
                   /\ processed_count
                        (app (recorded env success note number message m0))
                      = idx).
    { unfold balanced, recorded.
      destruct success; cbn; rewrite Hp0, Hs0, Hf0; lia. }
    destruct Hrec as [Hbr Hpr].
    apply IH.
    + unfold balanced in *. rewrite Hpp, Hsp, Hfp. exact Hbr.
    + rewrite Hpp, Hpr. reflexivity.
    + rewrite Hevp. cbn [recorded events]. rewrite Hev0.
      apply Forall_app. split; [apply Forall_app; split|].
      * apply Forall_app. split; [exact Hev|].
        constructor; [|constructor].
        unfold event_ok, in_flight. cbn. lia.
      * constructor; [|constructor].
        unfold event_ok, in_flight. cbn. lia.
      * constructor; [|constructor].
        unfold event_ok. destruct success; cbn [ev seen]; exact Hbr.
Qed.

(** ** A whole run *)

Lemma thread_cases (env : Env) (numbers : list string) (message : string)
  (max_tries : Z) (m : Machine) :
  send_messages_thread env numbers message max_tries m =
  let m1 := snd (block env DriverStart m) in
  if negb (driver_starts env) then (Failed, finished env false m1)
  else
    let m2 := snd (block env WaitReady m1) in
    if negb (whatsapp_ready env) then (Failed, finished env false m2)
    else
      let m3 := snd (send_loop env numbers 1 (List.length numbers) message
                               max_tries m2) in
      if negb (stop_requested (app m3)) then (Completed, finished env true m3)
      else (Cancelled, finished env false m3).
Proof.
  unfold send_messages_thread, start_edge_driver, wait_for_whatsapp_ready,
    finished.
  unfold bind at 1. unfold bind at 1.
  destruct (block env DriverStart m) as [k1 m1]. cbn [snd ret].
  destruct (driver_starts env); cbn [negb].
  2:{ unfold bind. destruct (sending_complete env false m1) as [[] ?].
      reflexivity. }
  unfold bind at 1. unfold bind at 1.
  destruct (block env WaitReady m1) as [k2 m2]. cbn [snd ret].
  destruct (whatsapp_ready env); cbn [negb].
  2:{ unfold bind. destruct (sending_complete env false m2) as [[] ?].
      reflexivity. }
  unfold bind at 1.
  destruct (send_loop env numbers 1 (List.length numbers) message max_tries m2)
    as [[] m3].
  cbn [snd]. unfold bind at 1, get_app.
  destruct (stop_requested (app m3)); cbn [negb]; unfold bind;
    match goal with
    | |- context [sending_complete ?e ?b ?mm] =>
        destruct (sending_complete e b mm) as [[] ?]
    end; reflexivity.
Qed.

Lemma finished_spec (env : Env) (success : bool) (m : Machine) :
  ops (finished env success m) = ops m
  /\ events (finished env success m) = events m
  /\ sent_log (finished env success m) = sent_log m
  /\ processed_count (app (finished env success m)) = processed_count (app m)
  /\ success_count (app (finished env success m)) = success_count (app m)
  /\ failed_count (app (finished env success m)) = failed_count (app m)
  /\ total_count (app (finished env success m)) = total_count (app m)
  /\ sending (app (finished env success m)) = false
  /\ stats_file (finished env success m) =
     if success && stats_io_ok env
     then Saved (append_summary (load_history (stats_file m))
                                (summary_of env m))
     else stats_file m.
Proof.
  unfold finished, sending_complete, save_session_stats, bind, modify_app,
    ret, summary_of.
  destruct success; [destruct (stats_io_ok env)|]; cbn; tauto.
Qed.

Lemma start_sending_job (ui : Ui) (a0 a : App) (job : Job) :
  start_sending ui a0 = (a, Some job) ->
  sending a0 = false
  /\ sending a = true
  /\ stop_requested a = false
  /\ processed_count a = 0
  /\ success_count a = 0
  /\ failed_count a = 0
  /\ total_count a = List.length (job_numbers job)
  /\ job_numbers job <> [].
Proof.
  unfold start_sending.
  destruct (sending a0); [discriminate|].
  destruct (is_empty (strip (message_text ui))); [discriminate|].
  destruct (is_empty (strip (numbers_text ui))); [discriminate|].
  destruct (validate_numbers (strip (numbers_text ui))) as [numbers invalid].
  destruct (negb (is_nil invalid) && negb (confirm_invalid ui));
    [discriminate|].
  destruct numbers as [|n ns]; [discriminate|]. cbn [is_nil].
  destruct (negb (confirm_send ui)); [discriminate|].
  destruct (read_settings ui) as [delay max_tries].
  intros H. injection H as <- <-. cbn. repeat split. discriminate.
Qed.

(** C1, as the code has it: in every bulk run that [start_sending] starts,
    the processed counter equals succeeded plus failed when the run ends and
    whenever a success or failure count is sent to the interface; when the
    progress bar and the processed count are sent, before the send, it is
    one more. *)
Theorem counters_balance_after_each_outcome (env : Env) (ui : Ui)
  (a0 a : App) (job : Job) (sent : list Row) (stats : StatsFile) :
  start_sending ui a0 = (a, Some job) ->
  balanced (app (snd (run env job (boot a sent stats))))
  /\ Forall event_ok (events (snd (run env job (boot a sent stats)))).
Proof.
  intros Hstart.
  destruct (start_sending_job ui a0 a job Hstart)
    as (_ & _ & _ & Hp & Hs & Hf & _).
  unfold run. rewrite thread_cases. cbv zeta.
  destruct (block_spec env DriverStart (boot a sent stats))
    as (m1 & -> & _ & Hq1). cbn [snd].
  destruct (block_spec env WaitReady m1) as (m2 & -> & _ & Hq2). cbn [snd].
  destruct Hq1 as ((He1 & _ & _ & (_ & Hp1 & _ & Hs1 & Hf1 & _)) & _).
  destruct Hq2 as ((He2 & _ & _ & (_ & Hp2 & _ & Hs2 & Hf2 & _)) & _).
  cbn [boot app events] in *.
  assert (Hb1 : balanced (app m1)) by (unfold balanced; lia).
  assert (Hb2 : balanced (app m2)) by (unfold balanced; lia).
  assert (Hloop := send_loop_counts env (job_message job) (job_max_tries job)
                     (List.length (job_numbers job)) (job_numbers job) 1 m2
                     Hb2 ltac:(lia)
                     ltac:(rewrite He2, He1; constructor)).
  destruct Hloop as [Hb3 He3].
  assert (Hfin : forall success m,
             balanced (app m) -> Forall event_ok (events m) ->
             balanced (app (finished env success m))
             /\ Forall event_ok (events (finished env success m))).
  { intros success m Hb He.
    destruct (finished_spec env success m)
      as (_ & Hev & _ & Hpc & Hsc & Hfc & _).
    unfold balanced in *. rewrite Hev, Hpc, Hsc, Hfc. auto. }
  destruct (negb (driver_starts env)); cbn [snd].
  { apply Hfin; [exact Hb1|rewrite He1; constructor]. }
  destruct (negb (whatsapp_ready env)); cbn [snd].
  { apply Hfin; [exact Hb2|rewrite He2, He1; constructor]. }
  destruct (negb (stop_requested _)); cbn [snd]; apply Hfin; assumption.
Qed.

Lemma counters_balance_after_each_outcome_witness :
  balanced (app (snd (run calm (job_of two_numbers)
                          (booted two_numbers Absent))))
  /\ Forall event_ok (events (snd (run calm (job_of two_numbers)
                                       (booted two_numbers Absent)))).
Proof.
  apply (counters_balance_after_each_outcome calm two_numbers init_app
           (fst (start_sending two_numbers init_app)) (job_of two_numbers)
           [] Absent).
  reflexivity.
Defined.

(** C1 as stated fails: in a run over one number that is sent at the first
    attempt, the processed count is sent to the interface while the
    processed counter is 1 and the succeeded and failed counters are 0. *)
Lemma processed_count_runs_ahead :
  start_sending one_number init_app
  = (fst (start_sending one_number init_app), Some (job_of one_number))
  /\ fst (run calm (job_of one_number) (booted one_number Absent)) = Completed
  /\ In (mkObs (ProcessedValue 1) (mkApp true false 1 1 0 0 1%Z))
        (events (snd (run calm (job_of one_number)
                          (booted one_number Absent))))
  /\ ~ Forall (fun o => balanced (seen o))
         (events (snd (run calm (job_of one_number)
                           (booted one_number Absent)))).
Proof.
  split; [reflexivity|]. split; [reflexivity|]. split.
  - vm_compute. right. left. reflexivity.
  - intros H. rewrite Forall_forall in H.
    specialize (H (mkObs (ProcessedValue 1) (mkApp true false 1 1 0 0 1%Z))).
    assert (Hin : In (mkObs (ProcessedValue 1) (mkApp true false 1 1 0 0 1%Z))
                     (events (snd (run calm (job_of one_number)
                                       (booted one_number Absent))))).
    { vm_compute. right. left. reflexivity. }
    specialize (H Hin). unfold balanced in H. cbn in H. discriminate H.
Qed.

(** ** Stopping *)

Section Stopping.

Variable env : Env.

Lemma delay_loop_stopped (n : nat) (m : Machine) :
  stop_requested (app m) = true -> delay_loop env n m = (tt, m).
Proof.
  intros H. destruct n; [reflexivity|].
  cbn [delay_loop]. unfold bind, get_app. rewrite H. reflexivity.
Qed.

Lemma send_loop_stopped (numbers : list string) (idx len : nat)
  (message : string) (max_tries : Z) (m : Machine) :
  stop_requested (app m) = true ->
  send_loop env numbers idx len message max_tries m = (tt, m).
Proof.
  intros H. destruct numbers; [reflexivity|].
  rewrite send_loop_cons, H. reflexivity.
Qed.

(** A stop request that arrives during a tick of the delay ends the delay
    with that tick. *)
Lemma delay_loop_halts (n : nat) :
  forall (m : Machine) (t : nat),
  sending (app m) = true ->
  List.length (ops m) <= t ->
  nth_error (ops (snd (delay_loop env n m))) t = Some DelayTick ->
  stop_during env t = true ->
  List.length (ops (snd (delay_loop env n m))) = S t
  /\ stop_requested (app (snd (delay_loop env n m))) = true.
Proof.
  induction n as [|n IH]; intros m t Hs Ht Hnth Hstop.
  - cbn in Hnth. apply nth_error_None in Ht. congruence.
  - destruct (stop_requested (app m)) eqn:Hflag.
    + rewrite (delay_loop_stopped (S n) m Hflag) in Hnth. cbn in Hnth.
      apply nth_error_None in Ht. congruence.
    + revert Hnth. cbn [delay_loop]. unfold bind at 1 3 5, get_app.
      rewrite Hflag. unfold bind.
      destruct (block_spec env DelayTick m) as (m1 & -> & Hops1 & Hq1 & Hset).
      destruct Hq1 as (_ & _ & _ & (Hs1 & _)).
      intros Hnth.
      destruct (Nat.eq_dec t (List.length (ops m))) as [-> | Hne].
      * specialize (Hset Hstop Hs).
        rewrite (delay_loop_stopped n m1 Hset). cbn [snd].
        rewrite Hops1, length_app. cbn [List.length]. split; [lia|exact Hset].
      * apply IH; try assumption.
        -- congruence.
        -- rewrite Hops1, length_app. cbn [List.length]. lia.
Qed.

Lemma paused_halts (idx len : nat) (m : Machine) (t : nat) :
  sending (app m) = true ->
  List.length (ops m) <= t ->
  nth_error (ops (paused env idx len m)) t = Some DelayTick ->
  stop_during env t = true ->
  List.length (ops (paused env idx len m)) = S t
  /\ stop_requested (app (paused env idx len m)) = true.
Proof.
  unfold paused.
  destruct ((idx <? len) && negb (stop_requested (app m))).
  - apply delay_loop_halts.
  - intros _ Ht Hnth _. apply nth_error_None in Ht. congruence.
Qed.

(** What the send loop leaves alone, and that it only adds operations. *)
Lemma send_loop_frame (message : string) (max_tries : Z) (len : nat)
  (numbers : list string) :
  forall (idx : nat) (m : Machine),
  exists extra,
    ops (snd (send_loop env numbers idx len message max_tries m))
    = ops m ++ extra
    /\ stats_file (snd (send_loop env numbers idx len message max_tries m))
       = stats_file m
    /\ sending (app (snd (send_loop env numbers idx len message max_tries m)))
       = sending (app m)
    /\ total_count
         (app (snd (send_loop env numbers idx len message max_tries m)))
       = total_count (app m).
Proof.
  induction numbers as [|number rest IH]; intros idx m.
  - rewrite send_loop_nil. exists []. rewrite app_nil_r. auto.
  - rewrite send_loop_cons.
    destruct (stop_requested (app m)).
    { exists []. rewrite app_nil_r. auto. }
    destruct (send_via_wa_me_frame env number message max_tries
                (before_send idx len m))
      as ([success note] & m0 & extra0 & -> & Hops0 & _ & Hq0).
    cbn [fst snd].
    destruct (paused_frame env idx len
                (recorded env success note number message m0))
      as (k & Hopsp & Hqp).
    destruct (IH (S idx) (paused env idx len
                            (recorded env success note number message m0)))
      as (extra & Ho & Hst & Hsd & Htc).
    destruct Hq0 as (_ & _ & Hst0 & (Hs0 & _ & Ht0 & _)).
    destruct Hqp as (_ & _ & Hstp & (Hsp & _ & Htp & _)).
    exists (extra0 ++ repeat DelayTick k ++ extra).
    rewrite Ho, Hst, Hsd, Htc, Hopsp, Hstp, Hsp, Htp.
    cbn [recorded ops stats_file]. rewrite Hops0, Hst0.
    cbn [before_send ops stats_file]. rewrite <- !app_assoc.
    split; [reflexivity|]. split; [reflexivity|].
    destruct success; cbn; rewrite ?Hs0, ?Ht0; cbn; auto.
Qed.

Lemma no_tick_among (extra : list Op) (j : nat) :
  List.forallb (fun op => negb (is_delay_tick op)) extra = true ->
  nth_error extra j <> Some DelayTick.
Proof.
  intros Hall Hnth. apply nth_error_In in Hnth.
  rewrite forallb_forall in Hall. specialize (Hall _ Hnth). discriminate.
Qed.

(** A stop request that arrives during a tick of the delay between two
    recipients makes that tick the last operation of the loop. *)
Lemma send_loop_halts (message : string) (max_tries : Z) (len : nat)
  (numbers : list string) :
  forall (idx : nat) (m : Machine) (t : nat),
  sending (app m) = true ->
  List.length (ops m) <= t ->
  nth_error (ops (snd (send_loop env numbers idx len message max_tries m))) t
  = Some DelayTick ->
  stop_during env t = true ->
  List.length (ops (snd (send_loop env numbers idx len message max_tries m)))
  = S t
  /\ stop_requested
       (app (snd (send_loop env numbers idx len message max_tries m))) = true.
Proof.
  induction numbers as [|number rest IH]; intros idx m t Hs Ht Hnth Hstop.
  - rewrite send_loop_nil in Hnth. cbn in Hnth.
    apply nth_error_None in Ht. congruence.
  - revert Hnth. rewrite send_loop_cons.
    destruct (stop_requested (app m)).
    { cbn. intros Hnth. apply nth_error_None in Ht. congruence. }
    destruct (send_via_wa_me_frame env number message max_tries
                (before_send idx len m))
      as ([success note] & m0 & extra0 & -> & Hops0 & Hnot & Hq0).
    cbn [fst snd].
    set (mr := recorded env success note number message m0).
    set (mp := paused env idx len mr).
    destruct (send_loop_frame message max_tries len rest (S idx) mp)
      as (extra & Ho & _).
    destruct (paused_frame env idx len mr) as (k & Hopsp & Hqp).
    fold mp in Hopsp, Hqp.
    assert (Hopsr : ops mr = ops m ++ extra0) by exact Hops0.
    assert (Hsr : sending (app mr) = true).
    { destruct Hq0 as (_ & _ & _ & (Hs0 & _)).
      unfold mr, recorded. destruct success; cbn; rewrite Hs0; exact Hs. }
    assert (Hsp : sending (app mp) = true).
    { destruct Hqp as (_ & _ & _ & (Hsp & _)). congruence. }
    intros Hnth.
    destruct (Nat.lt_ge_cases t (List.length (ops mr))) as [Hlt | Hge1].
    { exfalso. rewrite Ho, Hopsp, <- app_assoc in Hnth.
      rewrite nth_error_app1 in Hnth by exact Hlt.
      rewrite Hopsr in Hnth.
      rewrite nth_error_app2 in Hnth by exact Ht.
      exact (no_tick_among extra0 _ Hnot Hnth). }
    destruct (Nat.lt_ge_cases t (List.length (ops mp))) as [Hlt | Hge2].
    { rewrite Ho in Hnth. rewrite nth_error_app1 in Hnth by exact Hlt.
      destruct (paused_halts idx len mr t Hsr Hge1 Hnth Hstop) as [Hlen Hflag].
      fold mp in Hlen, Hflag.
      rewrite (send_loop_stopped rest (S idx) len message max_tries mp Hflag).
      cbn [snd]. auto. }
    apply IH; assumption.
Qed.

End Stopping.

(** C6: in a bulk run, when stop is requested while the worker sleeps in a
    tick of the delay between two recipients, that tick is the last
    operation of the run (no further tick, no further send attempt) and the
    run ends as cancelled. *)
Theorem stop_during_delay_cancels (env : Env) (ui : Ui) (a0 a : App)
  (job : Job) (sent : list Row) (stats : StatsFile) (t : nat) :
  start_sending ui a0 = (a, Some job) ->
  nth_error (ops (snd (run env job (boot a sent stats)))) t = Some DelayTick ->
  stop_during env t = true ->
  fst (run env job (boot a sent stats)) = Cancelled
  /\ List.length (ops (snd (run env job (boot a sent stats)))) = S t.
Proof.
  intros Hstart.
  destruct (start_sending_job ui a0 a job Hstart) as (_ & Hs & _).
  unfold run. rewrite thread_cases. cbv zeta.
  destruct (block_spec env DriverStart (boot a sent stats))
    as (m1 & -> & Hops1 & Hq1 & _). cbn [snd].
  destruct (block_spec env WaitReady m1) as (m2 & -> & Hops2 & Hq2 & _).
  cbn [snd].
  destruct Hq1 as (_ & _ & _ & (Hs1 & _)).
  destruct Hq2 as (_ & _ & _ & (Hs2 & _)).
  cbn [boot app ops app] in Hops1, Hs1.
  rewrite Hops1 in Hops2. cbn [List.app] in Hops2.
  assert (Hshort : forall (l : list Op),
             l = [DriverStart] \/ l = [DriverStart; WaitReady] ->
             nth_error l t <> Some DelayTick).
  { intros l [-> | ->]; destruct t as [|[|[|t]]]; cbn; congruence. }
  destruct (negb (driver_starts env)); cbn [fst snd].
  { destruct (finished_spec env false m1) as (-> & _).
    intros Hnth. exfalso. exact (Hshort (ops m1) (or_introl Hops1) Hnth). }
  destruct (negb (whatsapp_ready env)); cbn [fst snd].
  { destruct (finished_spec env false m2) as (-> & _).
    intros Hnth. exfalso. exact (Hshort (ops m2) (or_intror Hops2) Hnth). }
  set (m3 := snd (send_loop env (job_numbers job) 1
                            (List.length (job_numbers job)) (job_message job)
                            (job_max_tries job) m2)).
  assert (Hlen : forall success, ops (finished env success m3) = ops m3).
  { intros success. destruct (finished_spec env success m3) as (-> & _).
    reflexivity. }
  assert (Hhalt : nth_error (ops m3) t = Some DelayTick ->
                  stop_during env t = true ->
                  List.length (ops m3) = S t
                  /\ stop_requested (app m3) = true).
  { intros Hnth Hstop.
    destruct (Nat.lt_ge_cases t (List.length (ops m2))) as [Hlt | Hge].
    - exfalso.
      destruct (send_loop_frame env (job_message job) (job_max_tries job)
                  (List.length (job_numbers job)) (job_numbers job) 1 m2)
        as (extra & Ho & _).
      fold m3 in Ho. rewrite Ho, nth_error_app1 in Hnth by exact Hlt.
      exact (Hshort (ops m2) (or_intror Hops2) Hnth).
    - apply send_loop_halts; try assumption. congruence. }
  destruct (stop_requested (app m3)) eqn:Hflag; cbn [negb fst snd];
    rewrite Hlen; intros Hnth Hstop;
    destruct (Hhalt Hnth Hstop) as [Hl Hf]; [auto|congruence].
Qed.

Lemma stop_during_delay_cancels_witness :
  fst (run stop_in_delay (job_of two_numbers) (booted two_numbers Absent))
  = Cancelled
  /\ List.length (ops (snd (run stop_in_delay (job_of two_numbers)
                                (booted two_numbers Absent)))) = 4.
Proof.
  apply (stop_during_delay_cancels stop_in_delay two_numbers init_app
           (fst (start_sending two_numbers init_app)) (job_of two_numbers)
           [] Absent 3); reflexivity.
Defined.

(** ** The summary of a run *)

(** C7 as stated fails: a run cancelled during the delay, and a run whose
    browser does not start, leave the history as it was; no summary is
    appended. *)
Lemma unfinished_run_saves_no_summary :
  fst (run stop_in_delay (job_of two_numbers) (booted two_numbers (Saved [])))
  = Cancelled
  /\ stats_file (snd (run stop_in_delay (job_of two_numbers)
                          (booted two_numbers (Saved [])))) = Saved []
  /\ fst (run no_driver (job_of two_numbers) (booted two_numbers (Saved [])))
     = Failed
  /\ stats_file (snd (run no_driver (job_of two_numbers)
                          (booted two_numbers (Saved [])))) = Saved [].
Proof. repeat split; reflexivity. Qed.

(** C7, as the code has it: a bulk run that ends as completed builds one
    summary from its final counters and, when the history file can be read
    and written, the file then holds the previous history followed by that
    summary, cut to its last 50 entries; a run that ends as cancelled or
    failed leaves the history file as it was. *)
Theorem summary_saved_when_completed (env : Env) (job : Job) (m : Machine) :
  (fst (run env job m) = Completed ->
   exists stats : RunSummary,
     total stats = total_count (app m)
     /\ processed stats = processed_count (app (snd (run env job m)))
     /\ successful stats = success_count (app (snd (run env job m)))
     /\ failed stats = failed_count (app (snd (run env job m)))
     /\ stats_file (snd (run env job m)) =
        if stats_io_ok env
        then Saved (append_summary (load_history (stats_file m)) stats)
        else stats_file m)
  /\ (fst (run env job m) <> Completed ->
      stats_file (snd (run env job m)) = stats_file m).
Proof.
  unfold run. rewrite thread_cases. cbv zeta.
  destruct (block_spec env DriverStart m) as (m1 & -> & _ & Hq1 & _).
  cbn [snd].
  destruct (block_spec env WaitReady m1) as (m2 & -> & _ & Hq2 & _).
  cbn [snd].
  destruct Hq1 as (_ & _ & Hst1 & (_ & _ & Ht1 & _)).
  destruct Hq2 as (_ & _ & Hst2 & (_ & _ & Ht2 & _)).
  destruct (send_loop_frame env (job_message job) (job_max_tries job)
              (List.length (job_numbers job)) (job_numbers job) 1 m2)
    as (extra & _ & Hst3 & _ & Ht3).
  set (m3 := snd (send_loop env (job_numbers job) 1
                            (List.length (job_numbers job)) (job_message job)
                            (job_max_tries job) m2)) in *.
  assert (Hfail : forall m', stats_file m' = stats_file m ->
                    stats_file (finished env false m') = stats_file m).
  { intros m' H. destruct (finished_spec env false m')
      as (_ & _ & _ & _ & _ & _ & _ & _ & ->). exact H. }
  destruct (negb (driver_starts env)); cbn [fst snd].
  { split; [discriminate|]. intros _. apply Hfail. exact Hst1. }
  destruct (negb (whatsapp_ready env)); cbn [fst snd].
  { split; [discriminate|]. intros _. apply Hfail. congruence. }
  destruct (negb (stop_requested (app m3))); cbn [fst snd].
  - split; [intros _|congruence].
    destruct (finished_spec env true m3)
      as (_ & _ & _ & Hp & Hs & Hf & _ & _ & Hfile).
    exists (summary_of env m3).
    rewrite Hp, Hs, Hf, Hfile. cbn [summary_of total processed successful
                                     failed andb].
    rewrite Ht3, Ht2, Ht1, Hst3, Hst2, Hst1. auto.
  - split; [discriminate|]. intros _. apply Hfail. congruence.
Qed.

Lemma summary_saved_when_completed_witness :
  (exists stats : RunSummary,
     total stats = 2
     /\ processed stats = 2
     /\ successful stats = 2
     /\ failed stats = 0
     /\ stats_file (snd (run calm (job_of two_numbers)
                             (booted two_numbers Absent)))
        = Saved [stats])
  /\ stats_file (snd (run stop_in_delay (job_of two_numbers)
                          (booted two_numbers Absent))) = Absent.
Proof.
  split.
  - apply (proj1 (summary_saved_when_completed calm (job_of two_numbers)
                    (booted two_numbers Absent))).
    reflexivity.
  - apply (proj2 (summary_saved_when_completed stop_in_delay
                    (job_of two_numbers) (booted two_numbers Absent))).
    discriminate.
Defined.

(** The run of the design document: three recipients, the second failing
    on both of its two attempts. *)
Example three_recipients_second_fails :
  let r := run second_fails (job_of three_numbers)
               (booted three_numbers Absent) in
  fst r = Completed
  /\ map (fun row => (row_number row, row_status row)) (sent_log (snd r))
     = [("919876543210", "OK"); ("919876543211", "FAILED");
        ("919876543212", "OK")]
  /\ attempts_of (ops (snd r))
     = [("919876543210", 1%Z); ("919876543211", 1%Z); ("919876543211", 2%Z);
        ("919876543212", 1%Z)]
  /\ stats_file (snd r)
     = Saved [mkSummary "2024-01-01T10:00:00" 3 3 2 1 "66.7%"].
Proof. vm_compute. repeat split. Qed.

(** * Further properties *)

(** ** The normaliser, continued *)








(** X3: normalising two inputs joined by a comma gives the results of the
    first followed by the results of the second, for both lists. *)
Theorem validate_numbers_app (a b : string) :
  validate_numbers (a ++ String comma b)%string =
  acc_app (validate_numbers a) (validate_numbers b).
Proof.
  unfold validate_numbers, acc_app.
  rewrite split_app_sep, fold_left_app.
  destruct (fold_left validate_step (split comma a) ([], [])) as [n1 i1].
  rewrite fold_validate_acc. reflexivity.
Qed.

Lemma isspace_not_comma (c : ascii) :
  isspace c = true -> Ascii.eqb c comma = false.
Proof.
  destruct c as [[] [] [] [] [] [] [] []]; vm_compute; congruence.
Qed.

Lemma lstrip_rstrip_comm (s : string) : rstrip (lstrip s) = lstrip (rstrip s).
Proof.
  induction s as [|c r IH]; [reflexivity|].
  cbn [lstrip rstrip]. destruct (isspace c) eqn:Ec.
  - rewrite IH. destruct (rstrip r) as [|c' r'].
    + reflexivity.
    + cbn [lstrip]. rewrite Ec. reflexivity.
  - cbn [rstrip]. destruct (rstrip r); cbn [lstrip]; rewrite Ec; reflexivity.
Qed.

Lemma rstrip_cons_space (c : ascii) (p q : string) :
  rstrip p = rstrip q -> rstrip (String c p) = rstrip (String c q).
Proof. intros H. cbn [rstrip]. rewrite H. reflexivity. Qed.

Lemma split_rstrip (s : string) :
  map rstrip (split comma (rstrip s)) = map rstrip (split comma s).
Proof.
  induction s as [|c r IH]; [reflexivity|].
  destruct (Ascii.eqb c comma) eqn:Ecomma.
  - assert (Hsp : isspace c = false).
    { destruct (isspace c) eqn:E; [|reflexivity].
      rewrite (isspace_not_comma c E) in Ecomma. discriminate. }
    assert (Hr : rstrip (String c r) = String c (rstrip r)).
    { cbn [rstrip]. rewrite Hsp. destruct (rstrip r); reflexivity. }
    rewrite Hr. cbn [split]. rewrite Ecomma. cbn [map]. rewrite IH.
    reflexivity.
  - destruct (split comma r) as [|piece pieces] eqn:Er;
      [exfalso; exact (split_not_nil comma r Er)|].
    cbn [split]. rewrite Ecomma, Er. cbn [map].
    destruct (rstrip r) as [|c' r'] eqn:Err.
    + cbn [split map] in IH. injection IH as Hp Hps.
      destruct pieces; [|discriminate Hps].
      cbn [rstrip map]. rewrite Err, <- Hp.
      destruct (isspace c) eqn:Ec; [reflexivity|].
      cbn [split]. rewrite Ecomma. cbn [split map rstrip]. rewrite Ec.
      reflexivity.
    + assert (Hr : rstrip (String c r) = String c (String c' r')).
      { cbn [rstrip]. rewrite Err. reflexivity. }
      rewrite Hr.
      destruct (split comma (String c' r')) as [|p' ps'] eqn:Er';
        [exfalso; exact (split_not_nil comma _ Er')|].
      change (split comma (String c (String c' r')))
        with (if Ascii.eqb c comma
              then EmptyString :: split comma (String c' r')
              else match split comma (String c' r') with
                   | [] => [String c EmptyString]
                   | piece :: pieces => String c piece :: pieces
                   end).
      rewrite Ecomma, Er'. cbn [map] in IH |- *.
      injection IH as Hp Hps. rewrite Hps.
      rewrite (rstrip_cons_space c p' piece Hp). reflexivity.
Qed.

Lemma split_lstrip (s : string) :
  map strip (split comma (lstrip s)) = map strip (split comma s).
Proof.
  induction s as [|c r IH]; [reflexivity|].
  cbn [lstrip]. destruct (isspace c) eqn:Ec; [|reflexivity].
  rewrite IH. cbn [split]. rewrite (isspace_not_comma c Ec).
  destruct (split comma r) as [|piece pieces] eqn:Er;
    [exfalso; exact (split_not_nil comma r Er)|].
  cbn [map]. f_equal. unfold strip. cbn [lstrip]. rewrite Ec. reflexivity.
Qed.

Lemma map_strip_rstrip (l : list string) :
  map strip l = map lstrip (map rstrip l).
Proof.
  rewrite map_map. apply map_ext. intros t. apply lstrip_rstrip_comm.
Qed.

Lemma split_strip (s : string) :
  map strip (split comma (strip s)) = map strip (split comma s).
Proof.
  unfold strip at 2.
  rewrite (map_strip_rstrip (split comma (rstrip (lstrip s)))), split_rstrip,
    <- map_strip_rstrip.
  apply split_lstrip.
Qed.

Lemma fold_validate_strip (l1 l2 : list string) :
  map strip l1 = map strip l2 ->
  forall acc, fold_left validate_step l1 acc = fold_left validate_step l2 acc.
Proof.
  revert l2. induction l1 as [|t ts IH]; intros [|t' ts'] H acc;
    try discriminate H; [reflexivity|].
  cbn [map] in H. injection H as Ht Hts. cbn [fold_left].
  rewrite (validate_step_strip acc t t' Ht). apply IH. exact Hts.
Qed.

Lemma rstrip_trailing_space (c : ascii) (s : string) :
  isspace c = true -> rstrip (s ++ String c EmptyString)%string = rstrip s.
Proof.
  intros Hc. induction s as [|d r IH].
  - cbn. rewrite Hc. reflexivity.
  - cbn [String.append rstrip]. rewrite IH. reflexivity.
Qed.

(** X4: white space around the input does not matter: trimming the whole
    text first, as [start_sending] does, or leaving the line end that the
    text widget appends, gives the same two lists as the text itself. *)
Theorem validate_numbers_ignores_outer_space (numbers_str : string) :
  validate_numbers (strip numbers_str) = validate_numbers numbers_str
  /\ validate_numbers (numbers_str ++ newline)%string
     = validate_numbers numbers_str
  /\ validate_numbers (strip (numbers_str ++ newline)%string)
     = validate_numbers numbers_str.
Proof.
  assert (Hstrip : forall s, validate_numbers (strip s) = validate_numbers s).
  { intros s. unfold validate_numbers.
    apply fold_validate_strip, split_strip. }
  assert (Hnl : strip (numbers_str ++ newline)%string = strip numbers_str).
  { unfold strip. rewrite !lstrip_rstrip_comm. unfold newline.
    rewrite rstrip_trailing_space by reflexivity. reflexivity. }
  split; [apply Hstrip|]. split.
  - rewrite <- (Hstrip (numbers_str ++ newline)%string), Hnl. apply Hstrip.
  - rewrite Hnl. apply Hstrip.
Qed.

Lemma split_blank (s : string) :
  PyStr.forallb blank_char s = true ->
  Forall (fun t => PyStr.forallb isspace t = true) (split comma s).
Proof.
  induction s as [|c r IH]; cbn [PyStr.forallb split].
  - intros _. constructor; [reflexivity|constructor].
  - intros H. apply andb_true_iff in H as [Hc Hr]. specialize (IH Hr).
    destruct (Ascii.eqb c comma) eqn:Ecomma.
    + constructor; [reflexivity|exact IH].
    + unfold blank_char in Hc. rewrite Ecomma, orb_false_r in Hc.
      destruct (split comma r) as [|piece pieces];
        [constructor; [cbn; rewrite Hc; reflexivity|constructor]|].
      inversion IH as [|? ? Hp Hps]; subst.
      constructor; [cbn; rewrite Hc, Hp; reflexivity|exact Hps].
Qed.

Lemma lstrip_spaces (t : string) :
  PyStr.forallb isspace t = true -> lstrip t = EmptyString.
Proof.
  induction t as [|c r IH]; [reflexivity|].
  cbn [PyStr.forallb lstrip]. intros H.
  apply andb_true_iff in H as [Hc Hr]. rewrite Hc. exact (IH Hr).
Qed.

(** X5: an input made only of white space and commas, the empty input
    included, yields no valid number and no invalid entry. *)
Theorem blank_input_yields_nothing (numbers_str : string) :
  PyStr.forallb blank_char numbers_str = true ->
  validate_numbers numbers_str = ([], []).
Proof.
  intros H. unfold validate_numbers. rewrite fold_validate_flat.
  assert (Hnone : List.filter kept (split comma numbers_str) = []).
  { assert (Hall := split_blank numbers_str H).
    induction Hall as [|t ts Ht _ IH]; [reflexivity|].
    cbn [List.filter]. unfold kept at 1, strip.
    rewrite (lstrip_spaces t Ht). exact IH. }
  rewrite Hnone. reflexivity.
Qed.

Lemma blank_input_yields_nothing_witness :
  validate_numbers " , ,,  " = ([], []).
Proof.
  apply (blank_input_yields_nothing " , ,,  "). reflexivity.
Defined.

(** ** The summary history, continued *)

Lemma last_n_all {A : Type} (n : nat) (l : list A) :
  List.length l <= n -> last_n n l = l.
Proof.
  intros H. unfold last_n. replace (List.length l - n) with 0 by lia.
  reflexivity.
Qed.

Lemma last_n_app_long {A : Type} (n : nat) (x y : list A) :
  n <= List.length y -> last_n n (x ++ y) = last_n n y.
Proof.
  intros H. unfold last_n. rewrite length_app.
  replace (List.length x + List.length y - n)
    with (List.length x + (List.length y - n)) by lia.
  rewrite skipn_app, skipn_all2 by lia. cbn [List.app].
  f_equal. lia.
Qed.

Lemma last_n_app_short {A : Type} (n : nat) (x y : list A) :
  List.length y <= n -> last_n n (x ++ y) = last_n (n - List.length y) x ++ y.
Proof.
  intros H. unfold last_n. rewrite length_app, skipn_app.
  replace (List.length x + List.length y - n)
    with (List.length x - (n - List.length y)) by lia.
  replace (List.length x - (n - List.length y) - List.length x) with 0 by lia.
  reflexivity.
Qed.

Lemma last_n_last_n {A : Type} (n k : nat) (l : list A) :
  k <= n -> last_n k (last_n n l) = last_n k l.
Proof.
  intros H. unfold last_n. rewrite length_skipn, skipn_skipn. f_equal. lia.
Qed.

Lemma last_n_absorb {A : Type} (n : nat) (x y : list A) :
  last_n n (last_n n x ++ y) = last_n n (x ++ y).
Proof.
  destruct (Nat.le_ge_cases n (List.length y)) as [Hlong | Hshort].
  - rewrite !last_n_app_long by exact Hlong. reflexivity.
  - rewrite !last_n_app_short by exact Hshort.
    rewrite last_n_last_n by lia. reflexivity.
Qed.

(** X6: cutting the history to its last 50 entries after every append
    comes to the same as cutting once at the end: after one or more
    summaries have been appended in turn, the history is the last 50
    entries of the old history followed by all of them. *)
Theorem appends_keep_last_50 (history : list RunSummary)
  (first : RunSummary) (others : list RunSummary) :
  fold_left append_summary (first :: others) history =
  last_n 50 (history ++ first :: others).
Proof.
  revert history first.
  induction others as [|s others IH]; intros history first.
  - reflexivity.
  - change (fold_left append_summary (first :: s :: others) history)
      with (fold_left append_summary (s :: others)
                      (append_summary history first)).
    rewrite IH. unfold append_summary.
    rewrite last_n_absorb, <- app_assoc. reflexivity.
Qed.



(** ** The commands *)

Lemma validate_numbers_strip (s : string) :
  validate_numbers (strip s) = validate_numbers s.
Proof.
  unfold validate_numbers. apply fold_validate_strip, split_strip.
Qed.

(** X8: whenever [start_sending] or [test_send] declines to start a thread
    (a run is active, the message or the numbers are blank, no number is
    valid, or the user answers no), the state is left exactly as it was. *)
Theorem declined_command_changes_nothing (ui : Ui) (a : App) :
  (snd (start_sending ui a) = None -> fst (start_sending ui a) = a)
  /\ (snd (test_send ui a) = None -> fst (test_send ui a) = a).
Proof.
  unfold start_sending, test_send.
  destruct (sending a); [split; reflexivity|].
  destruct (is_empty (strip (message_text ui))); [split; reflexivity|].
  destruct (is_empty (strip (numbers_text ui))); [split; reflexivity|].
  destruct (validate_numbers (strip (numbers_text ui))) as [numbers invalid].
  destruct (read_settings ui) as [delay max_tries].
  split.
  - destruct (negb (is_nil invalid) && negb (confirm_invalid ui));
      [reflexivity|].
    destruct (is_nil numbers); [reflexivity|].
    destruct (negb (confirm_send ui)); [reflexivity|discriminate].
  - destruct numbers; [reflexivity|].
    destruct (negb (confirm_test ui)); [reflexivity|discriminate].
Qed.

Lemma declined_command_changes_nothing_witness :
  fst (start_sending declined init_app) = init_app
  /\ fst (test_send no_message init_app) = init_app.
Proof.
  split.
  - apply (proj1 (declined_command_changes_nothing declined init_app)).
    reflexivity.
  - apply (proj2 (declined_command_changes_nothing no_message init_app)).
    reflexivity.
Defined.

(** X9: when [start_sending] starts a thread, the recipients are the valid
    numbers of the text box as it stands, a non-empty list; the message is
    the trimmed, non-empty text of the message box; the user has confirmed
    (also the invalid numbers, when there are any); and the new state is:
    sending, no stop requested, all counters at zero, the total at the
    number of recipients, and the settings read from the form. *)
Theorem start_sending_starts (ui : Ui) (a a' : App) (job : Job) :
  start_sending ui a = (a', Some job) ->
  job_numbers job = fst (validate_numbers (numbers_text ui))
  /\ job_numbers job <> []
  /\ job_message job = strip (message_text ui)
  /\ job_message job <> EmptyString
  /\ job_max_tries job = snd (read_settings ui)
  /\ a' = mkApp true false 0 (List.length (job_numbers job)) 0 0
                (fst (read_settings ui))
  /\ confirm_send ui = true
  /\ (snd (validate_numbers (numbers_text ui)) <> [] ->
      confirm_invalid ui = true).
Proof.
  unfold start_sending.
  destruct (sending a); [discriminate|].
  destruct (is_empty (strip (message_text ui))) eqn:Hmsg; [discriminate|].
  destruct (is_empty (strip (numbers_text ui))); [discriminate|].
  rewrite <- (validate_numbers_strip (numbers_text ui)).
  destruct (validate_numbers (strip (numbers_text ui))) as [numbers invalid].
  cbn [fst snd] in *.
  destruct (negb (is_nil invalid) && negb (confirm_invalid ui)) eqn:Hinv;
    [discriminate|].
  destruct numbers as [|n ns]; [discriminate|]. cbn [is_nil].
  destruct (confirm_send ui); [|discriminate]. cbn [negb].
  destruct (read_settings ui) as [delay max_tries].
  intros H. injection H as <- <-. cbn [job_numbers job_message job_max_tries
                                     fst snd].
  repeat split; try discriminate.
  - intros E. rewrite E in Hmsg. discriminate.
  - intros Hne. destruct invalid; [contradiction Hne; reflexivity|].
    cbn in Hinv. destruct (confirm_invalid ui); [reflexivity|discriminate].
Qed.

Lemma start_sending_starts_witness :
  job_numbers (job_of two_numbers)
  = fst (validate_numbers (numbers_text two_numbers))
  /\ job_numbers (job_of two_numbers) <> []
  /\ job_message (job_of two_numbers) = strip (message_text two_numbers)
  /\ job_message (job_of two_numbers) <> EmptyString
  /\ job_max_tries (job_of two_numbers) = snd (read_settings two_numbers)
  /\ fst (start_sending two_numbers init_app)
     = mkApp true false 0 (List.length (job_numbers (job_of two_numbers)))
             0 0 (fst (read_settings two_numbers))
  /\ confirm_send two_numbers = true
  /\ (snd (validate_numbers (numbers_text two_numbers)) <> [] ->
      confirm_invalid two_numbers = true).
Proof.
  apply (start_sending_starts two_numbers init_app
           (fst (start_sending two_numbers init_app)) (job_of two_numbers)).
  reflexivity.
Defined.

(** X10: the test goes to the first recipient of the bulk run: when
    [start_sending] would start a run from a form, [test_send] on the same
    form and state, if the user confirms its own dialog, starts a thread for
    the first number of that run alone, with the same message and settings
    and a total of 1; if the user declines that dialog, it starts nothing
    and leaves the state as it was. *)
Theorem test_send_takes_first_recipient (ui : Ui) (a a' : App) (job : Job) :
  start_sending ui a = (a', Some job) ->
  exists (first : string) (others : list string),
    job_numbers job = first :: others
    /\ test_send ui a =
       if confirm_test ui
       then (mkApp true false 0 1 0 0 (delay_between a'),
             Some (mkJob [first] (job_message job) (job_max_tries job)))
       else (a, None).
Proof.
  unfold start_sending, test_send.
  destruct (sending a); [discriminate|].
  destruct (is_empty (strip (message_text ui))); [discriminate|].
  destruct (is_empty (strip (numbers_text ui))); [discriminate|].
  destruct (validate_numbers (strip (numbers_text ui))) as [numbers invalid].
  destruct (negb (is_nil invalid) && negb (confirm_invalid ui));
    [discriminate|].
  destruct numbers as [|n ns]; [discriminate|]. cbn [is_nil].
  destruct (negb (confirm_send ui)); [discriminate|].
  destruct (read_settings ui) as [delay max_tries].
  intros H. injection H as <- <-. exists n, ns. split; [reflexivity|].
  destruct (confirm_test ui); reflexivity.
Qed.

Lemma test_send_takes_first_recipient_witness :
  (exists (first : string) (others : list string),
     job_numbers (job_of two_numbers) = first :: others
     /\ test_send two_numbers init_app =
        if confirm_test two_numbers
        then (mkApp true false 0 1 0 0
                    (delay_between (fst (start_sending two_numbers init_app))),
              Some (mkJob [first] (job_message (job_of two_numbers))
                          (job_max_tries (job_of two_numbers))))
        else (init_app, None))
  /\ (exists (first : string) (others : list string),
        job_numbers (job_of test_declined) = first :: others
        /\ test_send test_declined init_app =
           if confirm_test test_declined
           then (mkApp true false 0 1 0 0
                       (delay_between
                          (fst (start_sending test_declined init_app))),
                 Some (mkJob [first] (job_message (job_of test_declined))
                             (job_max_tries (job_of test_declined))))
           else (init_app, None)).
Proof.
  split.
  - apply (test_send_takes_first_recipient two_numbers init_app
             (fst (start_sending two_numbers init_app))
             (job_of two_numbers)).
    reflexivity.
  - apply (test_send_takes_first_recipient test_declined init_app
             (fst (start_sending test_declined init_app))
             (job_of test_declined)).
    reflexivity.
Defined.

(** ** The worker, continued *)

Ltac conj := repeat match goal with |- _ /\ _ => split end.

Lemma requested_mono (env : Env) (lo lo' hi hi' : nat) :
  lo' <= lo -> hi <= hi' -> requested env lo hi -> requested env lo' hi'.
Proof. intros H1 H2 (t & Ht & Hs). exists t. split; [lia|exact Hs]. Qed.

Lemma requested_split (env : Env) (lo mid hi : nat) :
  lo <= mid <= hi ->
  requested env lo hi <-> requested env lo mid \/ requested env mid hi.
Proof.
  intros Hm. split.
  - intros (t & Ht & Hs). destruct (Nat.lt_ge_cases t mid).
    + left. exists t. split; [lia|exact Hs].
    + right. exists t. split; [lia|exact Hs].
  - intros [H | H]; eapply requested_mono; try exact H; lia.
Qed.

Lemma tracks_refl (env : Env) (m : Machine) : tracks env m m.
Proof.
  unfold tracks. split; [exists []; rewrite app_nil_r; reflexivity|].
  split; [reflexivity|]. intros _. split; [auto|].
  intros [H | (t & Ht & _)]; [exact H|lia].
Qed.

Lemma tracks_trans (env : Env) (m1 m2 m3 : Machine) :
  tracks env m1 m2 -> tracks env m2 m3 -> tracks env m1 m3.
Proof.
  intros ((e1 & Ho1) & Hs1 & Hf1) ((e2 & Ho2) & Hs2 & Hf2).
  unfold tracks. split; [exists (e1 ++ e2); rewrite Ho2, Ho1, app_assoc;
                         reflexivity|].
  split; [congruence|]. intros Hs.
  specialize (Hf1 Hs). rewrite <- Hs1 in Hs. specialize (Hf2 Hs).
  rewrite Hf2, Hf1.
  rewrite (requested_split env (List.length (ops m1)) (List.length (ops m2))
             (List.length (ops m3))).
  - tauto.
  - rewrite Ho2, Ho1, !length_app. lia.
Qed.

(** A change of counters, events or rows alone. *)
Lemma tracks_same (env : Env) (m m' : Machine) :
  ops m' = ops m ->
  sending (app m') = sending (app m) ->
  stop_requested (app m') = stop_requested (app m) ->
  tracks env m m'.
Proof.
  intros Ho Hs Hf. unfold tracks.
  split; [exists []; rewrite app_nil_r; exact Ho|].
  split; [exact Hs|]. intros _. rewrite Ho, Hf. split; [auto|].
  intros [H | (t & Ht & _)]; [exact H|lia].
Qed.

Lemma block_tracks (env : Env) (op : Op) (m : Machine) :
  tracks env m (snd (block env op m)).
Proof.
  unfold tracks, block. cbn [snd ops app].
  split; [exists [op]; reflexivity|]. split.
  - destruct (stop_during env _); [|reflexivity].
    unfold stop_sending. destruct (sending (app m)) eqn:E; cbn; auto.
  - intros Hs. rewrite length_app. cbn [List.length].
    destruct (stop_during env (List.length (ops m))) eqn:Hd.
    + unfold stop_sending. rewrite Hs. cbn. split; [|reflexivity].
      intros _. right. exists (List.length (ops m)). split; [lia|exact Hd].
    + split; [auto|]. intros [H | (t & Ht & Hst)]; [exact H|].
      replace t with (List.length (ops m)) in Hst by lia. congruence.
Qed.

Lemma block_snd (env : Env) (op : Op) (m : Machine) :
  block env op m = (List.length (ops m), snd (block env op m)).
Proof. reflexivity. Qed.

Section Shapes.

Variable env : Env.

(** [send_via_wa_me] makes attempts 1, 2, ... with a pause between two of
    them, at most as many as it has iterations. *)
Lemma attempt_loop_shape (number : string) (max_tries : Z) (remaining : nat) :
  forall (attempt : Z) (m : Machine),
  remaining = 0 \/ (attempt + Z.of_nat remaining - 1 = max_tries)%Z ->
  exists r m' j,
    attempt_loop env number max_tries remaining attempt m = (r, m')
    /\ j <= remaining
    /\ (1 <= remaining -> 1 <= j)
    /\ ops m' = ops m ++ retry_ops number attempt j
    /\ quiet m m'
    /\ tracks env m m'
    /\ (remaining = 0 -> r = (false, "All attempts failed"))
    /\ (fst r = true -> snd r = "Sent successfully").
Proof.
  induction remaining as [|n IH]; intros attempt m Hinv.
  - exists (false, "All attempts failed"), m, 0. cbn [attempt_loop retry_ops].
    rewrite app_nil_r.
    conj; auto using quiet_refl, tracks_refl; try lia; discriminate.
  - destruct Hinv as [Hinv | Hinv]; [discriminate|].
    cbn [attempt_loop]. unfold bind at 1.
    rewrite (block_snd env (Attempt number attempt) m).
    set (m1 := snd (block env (Attempt number attempt) m)).
    destruct (block_spec env (Attempt number attempt) m)
      as (m1' & Hb & Hops1 & Hq1 & _).
    assert (Hm1 : m1' = m1) by (unfold m1; rewrite Hb; reflexivity).
    subst m1'.
    assert (Ht1 : tracks env m m1) by apply block_tracks.
    assert (Hretry :
      exists r m' j,
        (if (attempt <? max_tries)%Z
         then block env Backoff ;;
              attempt_loop env number max_tries n (attempt + 1)%Z
         else ret (false, failure_note
                            (attempt_result env (List.length (ops m))))) m1
        = (r, m')
        /\ j <= S n
        /\ (1 <= S n -> 1 <= j)
        /\ ops m' = ops m ++ retry_ops number attempt j
        /\ quiet m m'
        /\ tracks env m m'
        /\ (S n = 0 -> r = (false, "All attempts failed"))
        /\ (fst r = true -> snd r = "Sent successfully")).
    { destruct n as [|n].
      - assert (Hlt : (attempt <? max_tries)%Z = false)
          by (apply Z.ltb_ge; lia).
        rewrite Hlt. eexists. exists m1, 1. split; [reflexivity|].
        cbn [fst snd retry_ops].
        conj; auto; try lia; discriminate.
      - assert (Hlt : (attempt <? max_tries)%Z = true)
          by (apply Z.ltb_lt; lia).
        rewrite Hlt. unfold bind at 1.
        rewrite (block_snd env Backoff m1).
        set (m2 := snd (block env Backoff m1)).
        destruct (block_spec env Backoff m1) as (m2' & Hb2 & Hops2 & Hq2 & _).
        assert (Hm2 : m2' = m2) by (unfold m2; rewrite Hb2; reflexivity).
        subst m2'.
        assert (Ht2 : tracks env m1 m2) by apply block_tracks.
        destruct (IH (attempt + 1)%Z m2 ltac:(right; lia))
          as (r & m' & j & -> & Hj & Hj1 & Ho & Hq & Ht & _ & Hnote).
        exists r, m', (S j). split; [reflexivity|].
        split; [lia|]. split; [lia|]. split.
        + rewrite Ho, Hops2, Hops1, <- !app_assoc.
          destruct j as [|j]; [lia|]. reflexivity.
        + split; [eauto using quiet_trans|].
          split; [eauto using tracks_trans|].
          split; [discriminate|exact Hnote]. }
    destruct (attempt_result env (List.length (ops m))) eqn:Er;
      try exact Hretry.
    exists (true, "Sent successfully"), m1, 1. cbn [fst snd retry_ops].
    conj; auto; try lia; discriminate.
Qed.

Lemma send_via_wa_me_shape (number message : string) (max_tries : Z)
  (m : Machine) :
  exists r m' j,
    send_via_wa_me env number message max_tries m = (r, m')
    /\ j <= Z.to_nat max_tries
    /\ ops m' = ops m ++ retry_ops number 1 j
    /\ quiet m m'
    /\ tracks env m m'
    /\ ((max_tries <= 0)%Z -> r = (false, "All attempts failed"))
    /\ (fst r = true -> snd r = "Sent successfully").
Proof.
  unfold send_via_wa_me.
  destruct (attempt_loop_shape number max_tries (Z.to_nat max_tries) 1%Z m)
    as (r & m' & j & Heq & Hj & _ & Ho & Hq & Ht & Hzero & Hnote).
  { destruct (Z.to_nat max_tries) eqn:E; [left; reflexivity|right; lia]. }
  exists r, m', j. conj; auto.
  intros Hle. apply Hzero. lia.
Qed.

(** The delay loop sleeps at most [n] ticks, and all [n] of them unless a
    stop request ended it. *)
Lemma delay_loop_shape (n : nat) :
  forall (m : Machine),
  exists m' k,
    delay_loop env n m = (tt, m')
    /\ k <= n
    /\ ops m' = ops m ++ repeat DelayTick k
    /\ quiet m m'
    /\ tracks env m m'
    /\ (stop_requested (app m') = false -> k = n).
Proof.
  induction n as [|n IH]; intros m; cbn [delay_loop].
  - exists m, 0. cbn [repeat]. rewrite app_nil_r.
    conj; auto using quiet_refl, tracks_refl.
  - unfold bind at 1, get_app.
    destruct (stop_requested (app m)) eqn:Hflag.
    + exists m, 0. cbn [repeat ret]. rewrite app_nil_r.
      conj; auto using quiet_refl, tracks_refl; try lia. congruence.
    + unfold bind. rewrite (block_snd env DelayTick m).
      set (m1 := snd (block env DelayTick m)).
      destruct (block_spec env DelayTick m) as (m1' & Hb & Hops1 & Hq1 & _).
      assert (Hm1 : m1' = m1) by (unfold m1; rewrite Hb; reflexivity).
      subst m1'.
      assert (Ht1 : tracks env m m1) by apply block_tracks.
      destruct (IH m1) as (m' & k & -> & Hk & Ho & Hq & Ht & Hall).
      exists m', (S k). split; [reflexivity|]. split; [lia|]. split.
      * rewrite Ho, Hops1, <- app_assoc. reflexivity.
      * split; [eauto using quiet_trans|].
        split; [eauto using tracks_trans|].
        intros Hf. rewrite (Hall Hf). reflexivity.
Qed.

Lemma paused_shape (idx len : nat) (m : Machine) :
  exists k,
    ops (paused env idx len m) = ops m ++ repeat DelayTick k
    /\ quiet m (paused env idx len m)
    /\ tracks env m (paused env idx len m)
    /\ (stop_requested (app (paused env idx len m)) = false ->
        k = if idx <? len then Z.to_nat (delay_between (app m)) else 0).
Proof.
  unfold paused. destruct (idx <? len); cbn [andb].
  - destruct (stop_requested (app m)) eqn:Hflag; cbn [negb].
    + exists 0. cbn [repeat]. rewrite app_nil_r.
      conj; auto using quiet_refl, tracks_refl. congruence.
    + destruct (delay_loop_shape (Z.to_nat (delay_between (app m))) m)
        as (m' & k & -> & _ & Ho & Hq & Ht & Hall).
      exists k. cbn [snd]. auto.
  - exists 0. cbn [repeat]. rewrite app_nil_r.
    conj; auto using quiet_refl, tracks_refl.
Qed.

End Shapes.

Lemma length_attempts_retry_ops (number : string) (attempt : Z) (j : nat) :
  List.length (attempts_of (retry_ops number attempt j)) = j.
Proof. rewrite attempts_of_retry_ops, length_map, length_seq. reflexivity. Qed.

Lemma count_status_cons (status : string) (r : Row) (rows : list Row) :
  count_status status (r :: rows) =
  (if String.eqb (row_status r) status then 1 else 0)
  + count_status status rows.
Proof.
  unfold count_status. cbn [List.filter].
  destruct (String.eqb (row_status r) status); reflexivity.
Qed.

Section Ledgers.

Variable env : Env.

Lemma written_cons (k : nat) (row : Row) (timed : list (nat * Row)) :
  written env ((k, row) :: timed) =
  (if sent_log_io_ok env k then [row] else []) ++ written env timed.
Proof.
  unfold written. cbn [List.filter fst].
  destruct (sent_log_io_ok env k); reflexivity.
Qed.

(** What the loop has done when it returns: [p] recipients processed, one
    row built for each, and written to the log unless the write raised. *)
Lemma send_loop_ledger (message : string) (max_tries : Z) (len : nat)
  (numbers : list string) :
  forall (idx : nat) (m : Machine),
  idx = S (processed_count (app m)) ->
  exists (p : nat) (timed : list (nat * Row)),
    p <= List.length numbers
    /\ processed_count
         (app (snd (send_loop env numbers idx len message max_tries m)))
       = processed_count (app m) + p
    /\ sent_log (snd (send_loop env numbers idx len message max_tries m))
       = sent_log m ++ written env timed
    /\ map row_number (map snd timed) = firstn p numbers
    /\ Forall (fun r => row_message r = message) (map snd timed)
    /\ Forall row_outcome (map snd timed)
    /\ success_count
         (app (snd (send_loop env numbers idx len message max_tries m)))
       = success_count (app m) + count_status "OK" (map snd timed)
    /\ failed_count
         (app (snd (send_loop env numbers idx len message max_tries m)))
       = failed_count (app m) + count_status "FAILED" (map snd timed)
    /\ (p < List.length numbers ->
        stop_requested
          (app (snd (send_loop env numbers idx len message max_tries m)))
        = true)
    /\ List.length
         (attempts_of
            (ops (snd (send_loop env numbers idx len message max_tries m))))
       <= List.length (attempts_of (ops m)) + p * Z.to_nat max_tries
    /\ ((max_tries <= 0)%Z -> Forall row_untried (map snd timed))
    /\ exists visits : list Visit,
         timed = timed_rows (List.length (ops m)) visits
         /\ ops (snd (send_loop env numbers idx len message max_tries m))
            = ops m ++ flat_map visit_ops visits
         /\ Forall (fun v => visit_tries v <= Z.to_nat max_tries) visits.
Proof.
  induction numbers as [|number rest IH]; intros idx m Hidx.
  - rewrite send_loop_nil. exists 0, []. cbn [snd List.length firstn map].
    unfold written, count_status. cbn. rewrite app_nil_r.
    conj; auto; try lia.
    exists []. cbn. rewrite app_nil_r. auto.
  - rewrite send_loop_cons.
    destruct (stop_requested (app m)) eqn:Hflag.
    { exists 0, []. cbn [snd List.length firstn map].
      unfold written, count_status. cbn. rewrite app_nil_r.
      conj; auto; try lia.
      exists []. cbn. rewrite app_nil_r. auto. }
    destruct (send_via_wa_me_shape env number message max_tries
                (before_send idx len m))
      as ([success note] & m0 & j & -> & Hj & Hops0 & Hq0 & _ & Hzero & Hnote).
    cbn [fst snd] in *.
    set (mr := recorded env success note number message m0).
    destruct (paused_shape env idx len mr) as (k & Hopsp & Hqp & _).
    set (mp := paused env idx len mr) in *.
    destruct Hq0 as (_ & Hlog0 & _ & (_ & Hp0 & _ & Hs0 & Hf0 & _)).
    destruct Hqp as (_ & Hlogp & _ & (_ & Hpp & _ & Hsp & Hfp & _)).
    cbn [before_send app ops sent_log set_processed_count processed_count
         success_count failed_count] in Hp0, Hs0, Hf0, Hlog0, Hops0.
    assert (Hpr : processed_count (app mr) = idx).
    { unfold mr, recorded. destruct success; cbn; exact Hp0. }
    destruct (IH (S idx) mp ltac:(rewrite Hpp, Hpr; reflexivity))
      as (p & timed & Hp & Hproc & Hlog & Hnum & Hmsg & Hout & Hsucc & Hfail
          & Hstop & Hatt & Huntried & visits & Htimed & Hopsv & Htries).
    set (row := mkRow (now_strftime env (List.length (ops m0))) number message
                      (if success then "OK" else "FAILED") note).
    assert (Hlogr : sent_log mr
                    = sent_log m
                      ++ (if sent_log_io_ok env (List.length (ops m0))
                          then [row] else [])).
    { unfold mr, recorded. cbn [sent_log]. rewrite Hlog0. reflexivity. }
    exists (S p), ((List.length (ops m0), row) :: timed).
    rewrite written_cons. cbn [map snd].
    split; [cbn [List.length]; lia|].
    split; [rewrite Hproc, Hpp, Hpr; lia|].
    split; [rewrite Hlog, Hlogp, Hlogr, <- app_assoc; reflexivity|].
    split; [cbn [map firstn]; rewrite Hnum; reflexivity|].
    split; [constructor; [reflexivity|exact Hmsg]|].
    split.
    { constructor; [|exact Hout]. unfold row_outcome, row. cbn.
      destruct success; [left; split; [reflexivity|apply Hnote; reflexivity]
                        |right; reflexivity]. }
    split.
    { rewrite Hsucc, Hsp, count_status_cons. unfold mr, recorded, row.
      destruct success; cbn; rewrite Hs0; lia. }
    split.
    { rewrite Hfail, Hfp, count_status_cons. unfold mr, recorded, row.
      destruct success; cbn; rewrite Hf0; lia. }
    split; [intros Hlt; apply Hstop; cbn [List.length] in Hlt; lia|].
    split.
    { assert (Hatp : List.length (attempts_of (ops mp))
                     = List.length (attempts_of (ops m)) + j).
      { rewrite Hopsp. unfold mr, recorded. cbn [ops]. rewrite Hops0.
        rewrite !attempts_of_app, attempts_of_ticks, app_nil_r, length_app,
          length_attempts_retry_ops. reflexivity. }
      rewrite Hatp in Hatt. nia. }
    split.
    { intros Hle. constructor; [|exact (Huntried Hle)].
      specialize (Hzero Hle). injection Hzero as -> ->.
      unfold row_untried, row. cbn. auto. }
    assert (Hopsr : ops mr = ops m ++ retry_ops number 1 j).
    { unfold mr, recorded. cbn [ops]. exact Hops0. }
    exists (mkVisit row j k :: visits).
    cbn [timed_rows flat_map visit_ops visit_row visit_tries visit_ticks].
    unfold visit_ops.
    cbn [visit_row visit_tries visit_ticks row row_number].
    split.
    { rewrite Htimed, Hopsp, Hopsr, Hops0, !length_app. f_equal.
      rewrite Nat.add_assoc. reflexivity. }
    split; [rewrite Hopsv, Hopsp, Hopsr, <- !app_assoc; reflexivity|].
    constructor; [exact Hj|exact Htries].
Qed.

Lemma send_loop_tracks (message : string) (max_tries : Z) (len : nat)
  (numbers : list string) :
  forall (idx : nat) (m : Machine),
  tracks env m (snd (send_loop env numbers idx len message max_tries m)).
Proof.
  induction numbers as [|number rest IH]; intros idx m.
  - rewrite send_loop_nil. apply tracks_refl.
  - rewrite send_loop_cons.
    destruct (stop_requested (app m)); [apply tracks_refl|].
    destruct (send_via_wa_me_shape env number message max_tries
                (before_send idx len m))
      as ([success note] & m0 & j & -> & _ & _ & _ & Ht0 & _).
    cbn [fst snd].
    destruct (paused_shape env idx len
                (recorded env success note number message m0))
      as (k & _ & _ & Htp & _).
    eapply tracks_trans; [|apply IH].
    eapply tracks_trans; [|exact Htp].
    eapply tracks_trans; [|apply tracks_same with (m := m0)].
    + eapply tracks_trans; [|exact Ht0].
      apply tracks_same; reflexivity.
    + reflexivity.
    + unfold recorded. destruct success; reflexivity.
    + unfold recorded. destruct success; reflexivity.
Qed.

End Ledgers.

(** ** A whole run, continued *)



Lemma run_ledger (env : Env) (ui : Ui) (a0 a : App) (job : Job)
  (sent : list Row) (stats : StatsFile) :
  start_sending ui a0 = (a, Some job) ->
  exists (p : nat) (timed : list (nat * Row)),
    p <= List.length (job_numbers job)
    /\ processed_count (app (snd (run env job (boot a sent stats)))) = p
    /\ total_count (app (snd (run env job (boot a sent stats))))
       = List.length (job_numbers job)
    /\ sent_log (snd (run env job (boot a sent stats)))
       = sent ++ written env timed
    /\ map row_number (map snd timed) = firstn p (job_numbers job)
    /\ Forall (fun r => row_message r = job_message job) (map snd timed)
    /\ Forall row_outcome (map snd timed)
    /\ success_count (app (snd (run env job (boot a sent stats))))
       = count_status "OK" (map snd timed)
    /\ failed_count (app (snd (run env job (boot a sent stats))))
       = count_status "FAILED" (map snd timed)
    /\ (fst (run env job (boot a sent stats)) = Completed ->
        p = List.length (job_numbers job))
    /\ (fst (run env job (boot a sent stats)) = Failed -> p = 0)
    /\ List.length
         (attempts_of (ops (snd (run env job (boot a sent stats)))))
       <= p * Z.to_nat (job_max_tries job)
    /\ ((job_max_tries job <= 0)%Z -> Forall row_untried (map snd timed))
    /\ exists visits : list Visit,
         timed = timed_rows 2 visits
         /\ (fst (run env job (boot a sent stats)) <> Failed ->
             ops (snd (run env job (boot a sent stats)))
             = [DriverStart; WaitReady] ++ flat_map visit_ops visits)
         /\ Forall (fun v => visit_tries v <= Z.to_nat (job_max_tries job))
                   visits.
Proof.
  intros Hstart.
  destruct (start_sending_job ui a0 a job Hstart)
    as (_ & _ & _ & Hp & Hs & Hf & Ht & _).
  unfold run. rewrite thread_cases. cbv zeta.
  destruct (block_spec env DriverStart (boot a sent stats))
    as (m1 & -> & Hops1 & Hq1 & _). cbn [snd].
  destruct (block_spec env WaitReady m1) as (m2 & -> & Hops2 & Hq2 & _).
  cbn [snd].
  destruct Hq1 as (_ & Hl1 & _ & (_ & Hp1 & Ht1 & Hs1 & Hf1 & _)).
  destruct Hq2 as (_ & Hl2 & _ & (_ & Hp2 & Ht2 & Hs2 & Hf2 & _)).
  cbn [boot app ops sent_log] in *.
  assert (Hnone : forall m,
            processed_count (app m) = 0 -> success_count (app m) = 0 ->
            failed_count (app m) = 0 ->
            total_count (app m) = List.length (job_numbers job) ->
            sent_log m = sent ->
            attempts_of (ops m) = [] ->
            exists (p : nat) (timed : list (nat * Row)),
              p <= List.length (job_numbers job)
              /\ processed_count (app (finished env false m)) = p
              /\ total_count (app (finished env false m))
                 = List.length (job_numbers job)
              /\ sent_log (finished env false m) = sent ++ written env timed
              /\ map row_number (map snd timed) = firstn p (job_numbers job)
              /\ Forall (fun r => row_message r = job_message job)
                        (map snd timed)
              /\ Forall row_outcome (map snd timed)
              /\ success_count (app (finished env false m))
                 = count_status "OK" (map snd timed)
              /\ failed_count (app (finished env false m))
                 = count_status "FAILED" (map snd timed)
              /\ (Failed = Completed -> p = List.length (job_numbers job))
              /\ (Failed = Failed -> p = 0)
              /\ List.length (attempts_of (ops (finished env false m)))
                 <= p * Z.to_nat (job_max_tries job)
              /\ ((job_max_tries job <= 0)%Z ->
                  Forall row_untried (map snd timed))
              /\ exists visits : list Visit,
                   timed = timed_rows 2 visits
                   /\ (Failed <> Failed ->
                       ops (finished env false m)
                       = [DriverStart; WaitReady]
                         ++ flat_map visit_ops visits)
                   /\ Forall (fun v => visit_tries v
                                       <= Z.to_nat (job_max_tries job))
                             visits).
  { intros m Hpm Hsm Hfm Htm Hlm Ham.
    destruct (finished_spec env false m)
      as (Ho & _ & Hl & Hpc & Hsc & Hfc & Htc & _).
    exists 0, []. rewrite Ho, Hl, Hpc, Hsc, Hfc, Htc, Ham.
    unfold written, count_status. cbn. rewrite app_nil_r.
    conj; auto; try lia; try discriminate.
    exists []. conj; auto. intros H. contradiction H. reflexivity. }
  destruct (negb (driver_starts env)); cbn [fst snd].
  { apply Hnone; try congruence. rewrite Hops1. reflexivity. }
  destruct (negb (whatsapp_ready env)); cbn [fst snd].
  { apply Hnone; try congruence. rewrite Hops2, Hops1. reflexivity. }
  destruct (send_loop_ledger env (job_message job) (job_max_tries job)
              (List.length (job_numbers job)) (job_numbers job) 1 m2
              ltac:(lia))
    as (p & timed & Hple & Hproc & Hlog & Hnum & Hmsg & Hout & Hsucc & Hfail
        & Hstop & Hatt & Huntried & visits & Htimed & Hopsv & Htries).
  destruct (send_loop_frame env (job_message job) (job_max_tries job)
              (List.length (job_numbers job)) (job_numbers job) 1 m2)
    as (extra & _ & _ & _ & Htot).
  set (m3 := snd (send_loop env (job_numbers job) 1
                            (List.length (job_numbers job)) (job_message job)
                            (job_max_tries job) m2)) in *.
  assert (Hatt2 : attempts_of (ops m2) = [])
    by (rewrite Hops2, Hops1; reflexivity).
  rewrite Hatt2 in Hatt. cbn [List.length] in Hatt.
  assert (Hfin : forall success,
            processed_count (app (finished env success m3)) = p
            /\ total_count (app (finished env success m3))
               = List.length (job_numbers job)
            /\ sent_log (finished env success m3) = sent ++ written env timed
            /\ success_count (app (finished env success m3))
               = count_status "OK" (map snd timed)
            /\ failed_count (app (finished env success m3))
               = count_status "FAILED" (map snd timed)
            /\ List.length (attempts_of (ops (finished env success m3)))
               <= p * Z.to_nat (job_max_tries job)).
  { intros success.
    destruct (finished_spec env success m3)
      as (Ho & _ & Hl & Hpc & Hsc & Hfc & Htc & _).
    rewrite Ho, Hl, Hpc, Hsc, Hfc, Htc, Hproc, Hlog, Hsucc, Hfail, Htot.
    conj; try congruence; lia. }
  assert (Hvis : forall (o : Terminal) (success : bool),
            exists visits' : list Visit,
              timed = timed_rows 2 visits'
              /\ (o <> Failed ->
                  ops (finished env success m3)
                  = [DriverStart; WaitReady] ++ flat_map visit_ops visits')
              /\ Forall (fun v => visit_tries v
                                  <= Z.to_nat (job_max_tries job)) visits').
  { intros o success. exists visits.
    destruct (finished_spec env success m3) as (Ho & _).
    rewrite Ho, Hopsv, Htimed, Hops2, Hops1. conj; auto. }
  exists p, timed.
  destruct (stop_requested (app m3)) eqn:Hflag; cbn [negb fst snd];
    destruct (Hfin true) as (F1 & F2 & F3 & F4 & F5 & F6);
    destruct (Hfin false) as (G1 & G2 & G3 & G4 & G5 & G6);
    conj; auto; try discriminate; try apply Hvis.
  intros _. destruct (Nat.lt_ge_cases p (List.length (job_numbers job)));
    [|lia].
  specialize (Hstop H). congruence.
Qed.







Lemma retry_ops_within (number : string) (numbers : list string)
  (max_tries : Z) (j : nat) :
  In number numbers -> j <= Z.to_nat max_tries ->
  Forall (attempt_within numbers max_tries)
         (attempts_of (retry_ops number 1 j)).
Proof.
  intros Hin Hj. rewrite attempts_of_retry_ops. apply Forall_forall.
  intros x Hx. apply in_map_iff in Hx as (i & <- & Hi).
  apply in_seq in Hi. unfold attempt_within. cbn [fst snd].
  split; [exact Hin|lia].
Qed.

Lemma send_loop_attempts (env : Env) (message : string) (max_tries : Z)
  (len : nat) (all : list string) (numbers : list string) :
  forall (idx : nat) (m : Machine),
  incl numbers all ->
  exists extra,
    attempts_of (ops (snd (send_loop env numbers idx len message max_tries m)))
    = attempts_of (ops m) ++ extra
    /\ Forall (attempt_within all max_tries) extra.
Proof.
  induction numbers as [|number rest IH]; intros idx m Hincl.
  - rewrite send_loop_nil. exists []. rewrite app_nil_r. auto.
  - rewrite send_loop_cons.
    destruct (stop_requested (app m)).
    { exists []. rewrite app_nil_r. auto. }
    destruct (send_via_wa_me_shape env number message max_tries
                (before_send idx len m))
      as ([success note] & m0 & j & -> & Hj & Hops0 & _).
    cbn [fst snd].
    destruct (paused_shape env idx len
                (recorded env success note number message m0))
      as (k & Hopsp & _).
    destruct (IH (S idx)
                 (paused env idx len
                         (recorded env success note number message m0)))
      as (extra & Hatt & Hall).
    { intros x Hx. apply Hincl. right. exact Hx. }
    exists (attempts_of (retry_ops number 1 j) ++ extra).
    split.
    + rewrite Hatt, Hopsp. cbn [recorded ops]. rewrite Hops0.
      cbn [before_send ops].
      rewrite !attempts_of_app, attempts_of_ticks, app_nil_r, app_assoc.
      reflexivity.
    + apply Forall_app. split; [|exact Hall].
      apply retry_ops_within; [|exact Hj]. apply Hincl. left. reflexivity.
Qed.

(** X13: in every bulk run, each send attempt is for one of the recipients
    and carries a number from 1 to the retry setting, and the attempts are
    no more than that setting times the number of recipients processed. *)
Theorem attempts_stay_within_max_tries (env : Env) (ui : Ui) (a0 a : App)
  (job : Job) (sent : list Row) (stats : StatsFile) :
  start_sending ui a0 = (a, Some job) ->
  Forall (attempt_within (job_numbers job) (job_max_tries job))
         (attempts_of (ops (snd (run env job (boot a sent stats)))))
  /\ List.length (attempts_of (ops (snd (run env job (boot a sent stats)))))
     <= processed_count (app (snd (run env job (boot a sent stats))))
        * Z.to_nat (job_max_tries job).
Proof.
  intros Hstart. split.
  - unfold run. rewrite thread_cases. cbv zeta.
    destruct (block_spec env DriverStart (boot a sent stats))
      as (m1 & -> & Hops1 & _). cbn [snd].
    destruct (block_spec env WaitReady m1) as (m2 & -> & Hops2 & _).
    cbn [snd]. cbn [boot ops] in Hops1.
    destruct (send_loop_attempts env (job_message job) (job_max_tries job)
                (List.length (job_numbers job)) (job_numbers job)
                (job_numbers job) 1 m2 (incl_refl _))
      as (extra & Hatt & Hall).
    rewrite Hops2, Hops1 in Hatt. cbn [List.app attempts_of] in Hatt.
    destruct (negb (driver_starts env)); cbn [snd].
    { destruct (finished_spec env false m1) as (-> & _).
      rewrite Hops1. constructor. }
    destruct (negb (whatsapp_ready env)); cbn [snd].
    { destruct (finished_spec env false m2) as (-> & _).
      rewrite Hops2, Hops1. constructor. }
    destruct (negb (stop_requested _)); cbn [snd];
      match goal with
      | |- context [finished env ?b ?mm] =>
          destruct (finished_spec env b mm) as (-> & _)
      end; rewrite Hatt; exact Hall.
  - destruct (run_ledger env ui a0 a job sent stats Hstart)
      as (p & rows & _ & Hproc & _ & _ & _ & _ & _ & _ & _ & _ & _ & Hatt & _).
    rewrite Hproc. exact Hatt.
Qed.

Lemma attempts_stay_within_max_tries_witness :
  Forall (attempt_within (job_numbers (job_of three_numbers))
                         (job_max_tries (job_of three_numbers)))
         (attempts_of (ops (snd (run second_fails (job_of three_numbers)
                                     (booted three_numbers Absent)))))
  /\ List.length
       (attempts_of (ops (snd (run second_fails (job_of three_numbers)
                                   (booted three_numbers Absent)))))
     <= processed_count
          (app (snd (run second_fails (job_of three_numbers)
                         (booted three_numbers Absent))))
        * Z.to_nat (job_max_tries (job_of three_numbers)).
Proof.
  apply (attempts_stay_within_max_tries second_fails three_numbers init_app
           (fst (start_sending three_numbers init_app))
           (job_of three_numbers) [] Absent).
  reflexivity.
Defined.




(** The stop flag when the send loop of a run returns. *)
Lemma run_prefix (env : Env) (ui : Ui) (a0 a : App) (job : Job)
  (sent : list Row) (stats : StatsFile) :
  start_sending ui a0 = (a, Some job) ->
  let m1 := snd (block env DriverStart (boot a sent stats)) in
  let m2 := snd (block env WaitReady m1) in
  let m3 := snd (send_loop env (job_numbers job) 1
                           (List.length (job_numbers job)) (job_message job)
                           (job_max_tries job) m2) in
  ops m1 = [DriverStart]
  /\ ops m2 = [DriverStart; WaitReady]
  /\ sending (app m2) = true
  /\ (stop_requested (app m2) = true <-> requested env 0 2)
  /\ (stop_requested (app m3) = true <->
      requested env 0 (List.length (ops m3)))
  /\ (exists extra, ops m3 = [DriverStart; WaitReady] ++ extra).
Proof.
  intros Hstart m1 m2 m3.
  destruct (start_sending_job ui a0 a job Hstart) as (_ & Hs & Hflag & _).
  assert (T1 : tracks env (boot a sent stats) m1) by apply block_tracks.
  assert (T2 : tracks env m1 m2) by apply block_tracks.
  assert (T3 : tracks env m2 m3) by apply send_loop_tracks.
  assert (T12 := tracks_trans env _ _ _ T1 T2).
  assert (T13 := tracks_trans env _ _ _ T12 T3).
  assert (Ho1 : ops m1 = [DriverStart]) by reflexivity.
  assert (Ho2 : ops m2 = [DriverStart; WaitReady]) by reflexivity.
  destruct T12 as (_ & Hs2 & Hf2). destruct T13 as (_ & _ & Hf3).
  destruct T3 as ((extra & Ho3) & _).
  cbn [boot app ops List.length] in Hs2, Hf2, Hf3.
  specialize (Hf2 Hs). specialize (Hf3 Hs).
  rewrite Ho2 in Hf2. cbn [List.length] in Hf2.
  conj; auto.
  - congruence.
  - rewrite Hf2. split; [intros [H|H]; [congruence|exact H]|auto].
  - rewrite Hf3. split; [intros [H|H]; [congruence|exact H]|auto].
  - exists extra. rewrite Ho3, Ho2. reflexivity.
Qed.

(** X15: how a bulk run ends is decided by the browser and by stop
    requests alone: it fails exactly when the browser does not start or
    WhatsApp Web does not become ready; otherwise it is cancelled exactly
    when a stop request arrives during one of its operations, the send to
    the last recipient included, and completed exactly when none does. *)
Theorem run_outcome (env : Env) (ui : Ui) (a0 a : App) (job : Job)
  (sent : list Row) (stats : StatsFile) :
  start_sending ui a0 = (a, Some job) ->
  (fst (run env job (boot a sent stats)) = Failed <->
   driver_starts env = false \/ whatsapp_ready env = false)
  /\ (fst (run env job (boot a sent stats)) = Cancelled <->
      driver_starts env = true /\ whatsapp_ready env = true
      /\ requested env 0
           (List.length (ops (snd (run env job (boot a sent stats))))))
  /\ (fst (run env job (boot a sent stats)) = Completed <->
      driver_starts env = true /\ whatsapp_ready env = true
      /\ forall t,
           t < List.length (ops (snd (run env job (boot a sent stats)))) ->
           stop_during env t = false).
Proof.
  intros Hstart.
  destruct (run_prefix env ui a0 a job sent stats Hstart)
    as (_ & _ & _ & _ & Hf3 & _).
  unfold run. rewrite thread_cases. cbv zeta in *.
  set (m1 := snd (block env DriverStart (boot a sent stats))) in *.
  set (m2 := snd (block env WaitReady m1)) in *.
  set (m3 := snd (send_loop env (job_numbers job) 1
                            (List.length (job_numbers job)) (job_message job)
                            (job_max_tries job) m2)) in *.
  destruct (driver_starts env); cbn [negb fst snd].
  2:{ conj; split; auto; try discriminate; intros (H & _); discriminate. }
  destruct (whatsapp_ready env); cbn [negb fst snd].
  2:{ conj; split; auto; try discriminate; intros (_ & H & _);
      discriminate. }
  assert (Hlen : forall success, ops (finished env success m3) = ops m3).
  { intros success. destruct (finished_spec env success m3) as (-> & _).
    reflexivity. }
  destruct (stop_requested (app m3)) eqn:Hflag; cbn [negb fst snd];
    rewrite Hlen.
  - assert (Hreq : requested env 0 (List.length (ops m3)))
      by (apply Hf3; reflexivity).
    conj; split; auto; try discriminate.
    + intros [H | H]; discriminate.
    + intros (_ & _ & Hnone). destruct Hreq as (t & Ht & Hst).
      rewrite (Hnone t) in Hst by lia. discriminate.
  - assert (Hnone : forall t, t < List.length (ops m3) ->
                              stop_during env t = false).
    { intros t Ht. destruct (stop_during env t) eqn:Hst; [|reflexivity].
      assert (Hreq : requested env 0 (List.length (ops m3))).
      { exists t. split; [lia|exact Hst]. }
      apply Hf3 in Hreq. discriminate. }
    conj; split; auto; try discriminate.
    + intros [H | H]; discriminate.
    + intros (_ & _ & Hreq). apply Hf3 in Hreq. discriminate.
Qed.

Lemma run_outcome_witness :
  (fst (run stop_in_last_send (job_of two_numbers)
            (booted two_numbers Absent)) = Failed <->
   driver_starts stop_in_last_send = false
   \/ whatsapp_ready stop_in_last_send = false)
  /\ (fst (run stop_in_last_send (job_of two_numbers)
               (booted two_numbers Absent)) = Cancelled <->
      driver_starts stop_in_last_send = true
      /\ whatsapp_ready stop_in_last_send = true
      /\ requested stop_in_last_send 0
           (List.length (ops (snd (run stop_in_last_send (job_of two_numbers)
                                       (booted two_numbers Absent))))))
  /\ (fst (run stop_in_last_send (job_of two_numbers)
               (booted two_numbers Absent)) = Completed <->
      driver_starts stop_in_last_send = true
      /\ whatsapp_ready stop_in_last_send = true
      /\ forall t,
           t < List.length (ops (snd (run stop_in_last_send
                                          (job_of two_numbers)
                                          (booted two_numbers Absent)))) ->
           stop_during stop_in_last_send t = false).
Proof.
  apply (run_outcome stop_in_last_send two_numbers init_app
           (fst (start_sending two_numbers init_app)) (job_of two_numbers)
           [] Absent).
  reflexivity.
Defined.

(** X16: a bulk run that fails has done nothing but try the browser: no
    send attempt, no row in the sent log, no event for the interface, and
    all counters still at zero. *)
Theorem failed_run_sends_nothing (env : Env) (ui : Ui) (a0 a : App)
  (job : Job) (sent : list Row) (stats : StatsFile) :
  start_sending ui a0 = (a, Some job) ->
  fst (run env job (boot a sent stats)) = Failed ->
  (ops (snd (run env job (boot a sent stats))) = [DriverStart]
   \/ ops (snd (run env job (boot a sent stats))) = [DriverStart; WaitReady])
  /\ sent_log (snd (run env job (boot a sent stats))) = sent
  /\ events (snd (run env job (boot a sent stats))) = []
  /\ processed_count (app (snd (run env job (boot a sent stats)))) = 0
  /\ success_count (app (snd (run env job (boot a sent stats)))) = 0
  /\ failed_count (app (snd (run env job (boot a sent stats)))) = 0.
Proof.
  intros Hstart.
  destruct (start_sending_job ui a0 a job Hstart)
    as (_ & _ & _ & Hp & Hs & Hf & _).
  unfold run. rewrite thread_cases. cbv zeta.
  destruct (block_spec env DriverStart (boot a sent stats))
    as (m1 & -> & Hops1 & Hq1 & _). cbn [snd].
  destruct (block_spec env WaitReady m1) as (m2 & -> & Hops2 & Hq2 & _).
  cbn [snd].
  destruct Hq1 as (He1 & Hl1 & _ & (_ & Hp1 & _ & Hs1 & Hf1 & _)).
  destruct Hq2 as (He2 & Hl2 & _ & (_ & Hp2 & _ & Hs2 & Hf2 & _)).
  cbn [boot app ops sent_log events List.app] in *.
  rewrite Hops1 in Hops2. cbn [List.app] in Hops2.
  destruct (negb (driver_starts env)); cbn [fst snd].
  { intros _. destruct (finished_spec env false m1)
      as (-> & -> & -> & -> & -> & -> & _).
    conj; auto; congruence. }
  destruct (negb (whatsapp_ready env)); cbn [fst snd].
  { intros _. destruct (finished_spec env false m2)
      as (-> & -> & -> & -> & -> & -> & _).
    conj; auto; congruence. }
  destruct (negb (stop_requested _)); cbn [fst]; discriminate.
Qed.

Lemma failed_run_sends_nothing_witness :
  (ops (snd (run not_ready (job_of two_numbers) (booted two_numbers Absent)))
   = [DriverStart]
   \/ ops (snd (run not_ready (job_of two_numbers)
                    (booted two_numbers Absent)))
      = [DriverStart; WaitReady])
  /\ sent_log (snd (run not_ready (job_of two_numbers)
                        (booted two_numbers Absent))) = []
  /\ events (snd (run not_ready (job_of two_numbers)
                      (booted two_numbers Absent))) = []
  /\ processed_count (app (snd (run not_ready (job_of two_numbers)
                                    (booted two_numbers Absent)))) = 0
  /\ success_count (app (snd (run not_ready (job_of two_numbers)
                                  (booted two_numbers Absent)))) = 0
  /\ failed_count (app (snd (run not_ready (job_of two_numbers)
                                 (booted two_numbers Absent)))) = 0.
Proof.
  apply (failed_run_sends_nothing not_ready two_numbers init_app
           (fst (start_sending two_numbers init_app)) (job_of two_numbers)
           [] Absent); reflexivity.
Defined.

Lemma start_sending_needs_idle_only (ui : Ui) (a b : App) :
  sending a = false -> sending b = false ->
  snd (start_sending ui a) = snd (start_sending ui b)
  /\ snd (test_send ui a) = snd (test_send ui b).
Proof.
  intros Ha Hb. unfold start_sending, test_send. rewrite Ha, Hb.
  destruct (is_empty (strip (message_text ui))); [split; reflexivity|].
  destruct (is_empty (strip (numbers_text ui))); [split; reflexivity|].
  destruct (validate_numbers (strip (numbers_text ui))) as [numbers invalid].
  destruct (read_settings ui) as [delay max_tries].
  split.
  - destruct (negb (is_nil invalid) && negb (confirm_invalid ui));
      [reflexivity|].
    destruct (is_nil numbers); [reflexivity|].
    destruct (negb (confirm_send ui)); reflexivity.
  - destruct numbers; [reflexivity|].
    destruct (negb (confirm_test ui)); reflexivity.
Qed.

(** X17: however a bulk run ends, it leaves the application idle with no
    stop request pending, so the next command is treated as in a freshly
    opened application: [start_sending] and [test_send] start the same
    thread, or decline, as they would there. *)
Theorem run_leaves_application_idle (env : Env) (job : Job) (m : Machine)
  (ui : Ui) :
  sending (app (snd (run env job m))) = false
  /\ stop_requested (app (snd (run env job m))) = false
  /\ snd (start_sending ui (app (snd (run env job m))))
     = snd (start_sending ui init_app)
  /\ snd (test_send ui (app (snd (run env job m))))
     = snd (test_send ui init_app).
Proof.
  assert (Hidle : sending (app (snd (run env job m))) = false
                  /\ stop_requested (app (snd (run env job m))) = false).
  { unfold run. rewrite thread_cases. cbv zeta.
    assert (Hfin : forall success mm,
               sending (app (finished env success mm)) = false
               /\ stop_requested (app (finished env success mm)) = false).
    { intros success mm.
      unfold finished, sending_complete, save_session_stats, bind,
        modify_app, ret.
      destruct success; [destruct (stats_io_ok env)|]; cbn; auto. }
    destruct (negb (driver_starts env)); cbn [snd]; [apply Hfin|].
    destruct (negb (whatsapp_ready env)); cbn [snd]; [apply Hfin|].
    destruct (negb (stop_requested _)); cbn [snd]; apply Hfin. }
  destruct Hidle as [Hs Hf].
  destruct (start_sending_needs_idle_only ui (app (snd (run env job m)))
              init_app Hs eq_refl) as [H1 H2].
  auto.
Qed.

(** ** Retries, continued *)

Lemma attempt_loop_first_success (env : Env) (number : string)
  (max_tries : Z) (j : nat) :
  forall (remaining : nat) (attempt : Z) (m : Machine),
  j < remaining ->
  (attempt + Z.of_nat remaining - 1 = max_tries)%Z ->
  (forall i, i < j ->
     attempt_result env (List.length (ops m) + 2 * i) <> Clicked) ->
  attempt_result env (List.length (ops m) + 2 * j) = Clicked ->
  exists m',
    attempt_loop env number max_tries remaining attempt m
    = ((true, "Sent successfully"), m')
    /\ ops m' = ops m ++ retry_ops number attempt (S j)
    /\ quiet m m'.
Proof.
  induction j as [|j IH]; intros remaining attempt m Hj Hmax Hfail Hok;
    (destruct remaining as [|n]; [lia|]);
    cbn [attempt_loop]; unfold bind at 1;
    destruct (block_spec env (Attempt number attempt) m)
      as (m1 & -> & Hops1 & Hq1 & _).
  - rewrite Nat.add_0_r in Hok. rewrite Hok.
    exists m1. auto.
  - assert (H0 : attempt_result env (List.length (ops m)) <> Clicked).
    { specialize (Hfail 0 ltac:(lia)). rewrite Nat.add_0_r in Hfail.
      exact Hfail. }
    assert (Hlt : (attempt <? max_tries)%Z = true) by (apply Z.ltb_lt; lia).
    assert (Hnext :
      exists m',
        (block env Backoff ;;
         attempt_loop env number max_tries n (attempt + 1)%Z) m1
        = ((true, "Sent successfully"), m')
        /\ ops m' = ops m ++ retry_ops number attempt (S (S j))
        /\ quiet m m').
    { unfold bind.
      destruct (block_spec env Backoff m1) as (m2 & -> & Hops2 & Hq2 & _).
      assert (Hlen : List.length (ops m2) = List.length (ops m) + 2).
      { rewrite Hops2, Hops1, !length_app. cbn [List.length]. lia. }
      destruct (IH n (attempt + 1)%Z m2) as (m' & -> & Ho & Hq).
      - lia.
      - lia.
      - intros i Hi. rewrite Hlen.
        replace (List.length (ops m) + 2 + 2 * i)
          with (List.length (ops m) + 2 * S i) by lia.
        apply Hfail. lia.
      - rewrite Hlen.
        replace (List.length (ops m) + 2 + 2 * j)
          with (List.length (ops m) + 2 * S j) by lia.
        exact Hok.
      - exists m'. split; [reflexivity|]. split.
        + rewrite Ho, Hops2, Hops1, <- !app_assoc. reflexivity.
        + eauto using quiet_trans. }
    rewrite Hlt.
    destruct (attempt_result env (List.length (ops m))) eqn:Er;
      [congruence|exact Hnext..].
Qed.

(** X18: [send_via_wa_me] stops at the first attempt that succeeds: when
    the first [j] attempts fail and attempt [j]+1 succeeds, with [j]+1 at
    most the retry setting, it reports success after exactly [j]+1
    attempts, with [j] pauses between them, and changes nothing else. *)
Theorem first_success_ends_retries (env : Env) (number message : string)
  (max_tries : Z) (m : Machine) (j : nat) :
  j < Z.to_nat max_tries ->
  (forall i, i < j ->
     attempt_result env (List.length (ops m) + 2 * i) <> Clicked) ->
  attempt_result env (List.length (ops m) + 2 * j) = Clicked ->
  exists m',
    send_via_wa_me env number message max_tries m
    = ((true, "Sent successfully"), m')
    /\ ops m' = ops m ++ retry_ops number 1 (S j)
    /\ attempts_of (ops m')
       = attempts_of (ops m)
         ++ map (fun k => (number, Z.of_nat k)) (seq 1 (S j))
    /\ quiet m m'.
Proof.
  intros Hj Hfail Hok. unfold send_via_wa_me.
  destruct (attempt_loop_first_success env number max_tries j
              (Z.to_nat max_tries) 1%Z m Hj ltac:(lia) Hfail Hok)
    as (m' & Heq & Ho & Hq).
  exists m'. split; [exact Heq|]. split; [exact Ho|]. split; [|exact Hq].
  rewrite Ho, attempts_of_app, attempts_of_retry_ops. f_equal.
  rewrite <- seq_shift, map_map. apply map_ext. intros i. f_equal. lia.
Qed.

Lemma first_success_ends_retries_witness :
  exists m',
    send_via_wa_me first_try_fails "919876543210" "hello" 2 ready_machine
    = ((true, "Sent successfully"), m')
    /\ ops m' = ops ready_machine ++ retry_ops "919876543210" 1 2
    /\ attempts_of (ops m')
       = attempts_of (ops ready_machine)
         ++ map (fun k => ("919876543210", Z.of_nat k)) (seq 1 2)
    /\ quiet ready_machine m'.
Proof.
  apply (first_success_ends_retries first_try_fails "919876543210" "hello" 2
           ready_machine 1).
  - vm_compute. lia.
  - intros i Hi. replace i with 0 by lia. discriminate.
  - reflexivity.
Defined.

(** ** Stopping, continued *)

Lemma retry_ops_later (number : string) (j : nat) :
  forall (attempt : Z) (i : nat) (op : Op),
  (1 <= attempt)%Z ->
  (2 <= attempt)%Z \/ 1 <= i ->
  nth_error (retry_ops number attempt j) i = Some op ->
  starts_nothing op = true.
Proof.
  induction j as [|j IH]; intros attempt i op Ha Hi Hnth.
  - destruct i; discriminate Hnth.
  - destruct j as [|j].
    + destruct i as [|i]; cbn in Hnth.
      * injection Hnth as <-. cbn. destruct Hi as [Hi | Hi]; [|lia].
        apply negb_true_iff, Z.eqb_neq. lia.
      * destruct i; discriminate Hnth.
    + change (retry_ops number attempt (S (S j)))
        with (Attempt number attempt :: Backoff
              :: retry_ops number (attempt + 1)%Z (S j)) in Hnth.
      destruct i as [|[|i]]; cbn [nth_error] in Hnth.
      * injection Hnth as <-. cbn. destruct Hi as [Hi | Hi]; [|lia].
        apply negb_true_iff, Z.eqb_neq. lia.
      * injection Hnth as <-. reflexivity.
      * apply (IH (attempt + 1)%Z i op); [lia|left; lia|exact Hnth].
Qed.

Lemma paused_when_stopped (env : Env) (idx len : nat) (m : Machine) :
  stop_requested (app m) = true -> paused env idx len m = m.
Proof.
  intros H. unfold paused. rewrite H, andb_false_r. reflexivity.
Qed.

Lemma nth_error_ticks (k i : nat) (op : Op) :
  nth_error (repeat DelayTick k) i = Some op -> op = DelayTick.
Proof.
  intros H. apply nth_error_In in H. apply repeat_spec in H. exact H.
Qed.

(** Once a stop request has arrived, the loop begins nothing: what follows
    is at most the remaining tries for the recipient being sent to. *)
Lemma send_loop_winds_down (env : Env) (message : string) (max_tries : Z)
  (len : nat) (numbers : list string) :
  forall (idx : nat) (m : Machine) (t u : nat) (op : Op),
  sending (app m) = true ->
  List.length (ops m) <= t -> t < u ->
  stop_during env t = true ->
  nth_error (ops (snd (send_loop env numbers idx len message max_tries m))) u
  = Some op ->
  starts_nothing op = true.
Proof.
  induction numbers as [|number rest IH];
    intros idx m t u op Hs Ht Hu Hstop.
  - rewrite send_loop_nil. cbn [snd]. intros Hnth.
    assert (Hnone : nth_error (ops m) u = None)
      by (apply nth_error_None; lia).
    congruence.
  - rewrite send_loop_cons.
    destruct (stop_requested (app m)) eqn:Hflag.
    { cbn [snd]. intros Hnth.
      assert (Hnone : nth_error (ops m) u = None)
        by (apply nth_error_None; lia).
      congruence. }
    destruct (send_via_wa_me_shape env number message max_tries
                (before_send idx len m))
      as ([success note] & m0 & j & -> & _ & Hops0 & Hq0 & Ht0 & _).
    cbn [fst snd].
    set (mr := recorded env success note number message m0).
    assert (Hopsr : ops mr = ops m ++ retry_ops number 1 j) by exact Hops0.
    assert (Hs0 : sending (app m0) = true).
    { destruct Hq0 as (_ & _ & _ & (Hs0 & _)). rewrite Hs0. exact Hs. }
    assert (Hsr : sending (app mr) = true).
    { unfold mr, recorded. destruct success; cbn; exact Hs0. }
    assert (Hfr : stop_requested (app mr) = stop_requested (app m0)).
    { unfold mr, recorded. destruct success; reflexivity. }
    destruct (paused_shape env idx len mr) as (k & Hopsp & Hqp & _).
    assert (Hsp : sending (app (paused env idx len mr)) = true).
    { destruct Hqp as (_ & _ & _ & (Hsp & _)). congruence. }
    destruct (Nat.lt_ge_cases t (List.length (ops mr))) as [Hlt | Hge1].
    { assert (Hf0 : stop_requested (app m0) = true).
      { destruct Ht0 as (_ & _ & Hiff).
        apply (Hiff Hs). right. exists t.
        cbn [before_send ops]. split; [|exact Hstop].
        assert (Hrm : ops mr = ops m0) by reflexivity.
        rewrite Hrm in Hlt. lia. }
      rewrite <- Hfr in Hf0.
      rewrite (paused_when_stopped env idx len mr Hf0).
      rewrite (send_loop_stopped env rest (S idx) len message max_tries mr
                 Hf0).
      cbn [snd]. rewrite Hopsr. intros Hnth.
      rewrite nth_error_app2 in Hnth by lia.
      apply (retry_ops_later number j 1%Z (u - List.length (ops m)) op);
        [lia|right; lia|exact Hnth]. }
    destruct (Nat.lt_ge_cases t (List.length (ops (paused env idx len mr))))
      as [Hlt | Hge2].
    { assert (Htick : nth_error (ops (paused env idx len mr)) t
                      = Some DelayTick).
      { destruct (nth_error (ops (paused env idx len mr)) t) as [x|] eqn:E;
          [|apply nth_error_None in E; lia].
        rewrite Hopsp, nth_error_app2 in E by exact Hge1.
        rewrite (nth_error_ticks _ _ _ E). reflexivity. }
      destruct (paused_halts env idx len mr t Hsr Hge1 Htick Hstop)
        as [Hlen Hf].
      rewrite (send_loop_stopped env rest (S idx) len message max_tries _ Hf).
      cbn [snd]. intros Hnth.
      assert (Hnone : nth_error (ops (paused env idx len mr)) u = None)
        by (apply nth_error_None; lia).
      congruence. }
    apply (IH (S idx) (paused env idx len mr) t u op Hsp Hge2 Hu Hstop).
Qed.

(** X19: once a stop request has arrived during some operation of a bulk
    run, no later operation is a tick of the delay or a first attempt for a
    recipient: the worker at most goes through the remaining tries for the
    recipient it is sending to, and begins nothing new. *)
Theorem nothing_begins_after_stop (env : Env) (ui : Ui) (a0 a : App)
  (job : Job) (sent : list Row) (stats : StatsFile) (t u : nat) (op : Op) :
  start_sending ui a0 = (a, Some job) ->
  stop_during env t = true ->
  t < u ->
  nth_error (ops (snd (run env job (boot a sent stats)))) u = Some op ->
  starts_nothing op = true.
Proof.
  intros Hstart Hstop Hu.
  destruct (run_prefix env ui a0 a job sent stats Hstart)
    as (Ho1 & Ho2 & Hs2 & Hf2 & _ & _).
  unfold run. rewrite thread_cases. cbv zeta in *.
  set (m1 := snd (block env DriverStart (boot a sent stats))) in *.
  set (m2 := snd (block env WaitReady m1)) in *.
  assert (Hshort : forall (l : list Op),
             l = [DriverStart] \/ l = [DriverStart; WaitReady] ->
             nth_error l u = Some op -> starts_nothing op = true).
  { intros l [-> | ->] Hnth; destruct u as [|[|[|u]]]; cbn in Hnth;
      try discriminate; injection Hnth as <-; reflexivity. }
  destruct (negb (driver_starts env)); cbn [snd].
  { destruct (finished_spec env false m1) as (-> & _). apply Hshort. auto. }
  destruct (negb (whatsapp_ready env)); cbn [snd].
  { destruct (finished_spec env false m2) as (-> & _). apply Hshort. auto. }
  set (m3 := snd (send_loop env (job_numbers job) 1
                            (List.length (job_numbers job)) (job_message job)
                            (job_max_tries job) m2)).
  assert (Hgoal : nth_error (ops m3) u = Some op -> starts_nothing op = true).
  { destruct (Nat.lt_ge_cases t 2) as [Hlt | Hge].
    - assert (Hflag : stop_requested (app m2) = true).
      { apply Hf2. exists t. split; [lia|exact Hstop]. }
      unfold m3.
      rewrite (send_loop_stopped env _ 1 _ _ _ m2 Hflag). cbn [snd].
      apply Hshort. auto.
    - apply (send_loop_winds_down env (job_message job) (job_max_tries job)
               (List.length (job_numbers job)) (job_numbers job) 1 m2 t u op
               Hs2); [rewrite Ho2; exact Hge|exact Hu|exact Hstop]. }
  destruct (negb (stop_requested (app m3))); cbn [snd];
    match goal with
    | |- context [finished env ?b ?mm] =>
        destruct (finished_spec env b mm) as (-> & _)
    end; exact Hgoal.
Qed.

Lemma nothing_begins_after_stop_witness :
  stop_during stop_in_retry 3 = true
  /\ nth_error (ops (snd (run stop_in_retry (job_of three_numbers)
                              (booted three_numbers Absent)))) 5
     = Some (Attempt "919876543211" 2)
  /\ starts_nothing (Attempt "919876543211" 2) = true.
Proof.
  split; [reflexivity|]. split; [reflexivity|].
  apply (nothing_begins_after_stop stop_in_retry three_numbers init_app
           (fst (start_sending three_numbers init_app))
           (job_of three_numbers) [] Absent 3 5 (Attempt "919876543211" 2));
    reflexivity || (vm_compute; lia).
Defined.

(** X20: when stop is requested before the first send, while the browser
    starts or while WhatsApp Web loads, the bulk run makes no send attempt,
    logs no row, sends no event, counts nothing, and does not end as
    completed. *)
Theorem stop_before_first_send (env : Env) (ui : Ui) (a0 a : App)
  (job : Job) (sent : list Row) (stats : StatsFile) :
  start_sending ui a0 = (a, Some job) ->
  stop_during env 0 = true \/ stop_during env 1 = true ->
  attempts_of (ops (snd (run env job (boot a sent stats)))) = []
  /\ sent_log (snd (run env job (boot a sent stats))) = sent
  /\ events (snd (run env job (boot a sent stats))) = []
  /\ processed_count (app (snd (run env job (boot a sent stats)))) = 0
  /\ fst (run env job (boot a sent stats)) <> Completed.
Proof.
  intros Hstart Hstop.
  destruct (start_sending_job ui a0 a job Hstart) as (_ & _ & _ & Hp & _).
  destruct (run_prefix env ui a0 a job sent stats Hstart)
    as (Ho1 & Ho2 & _ & Hf2 & _ & _).
  unfold run. rewrite thread_cases. cbv zeta in *.
  destruct (block_spec env DriverStart (boot a sent stats))
    as (m1' & Hb1 & _ & Hq1 & _).
  set (m1 := snd (block env DriverStart (boot a sent stats))) in *.
  assert (m1' = m1) by (unfold m1; rewrite Hb1; reflexivity). subst m1'.
  destruct (block_spec env WaitReady m1) as (m2' & Hb2 & _ & Hq2 & _).
  set (m2 := snd (block env WaitReady m1)) in *.
  assert (m2' = m2) by (unfold m2; rewrite Hb2; reflexivity). subst m2'.
  destruct Hq1 as (He1 & Hl1 & _ & (_ & Hp1 & _)).
  destruct Hq2 as (He2 & Hl2 & _ & (_ & Hp2 & _)).
  cbn [boot app sent_log events] in He1, Hl1, Hp1.
  assert (Hflag : stop_requested (app m2) = true).
  { apply Hf2. destruct Hstop as [H | H];
      [exists 0|exists 1]; (split; [lia|exact H]). }
  rewrite (send_loop_stopped env _ 1 _ _ _ m2 Hflag). cbn [snd].
  rewrite Hflag. cbn [negb].
  assert (Hfin : forall mm,
             ops mm = [DriverStart] \/ ops mm = [DriverStart; WaitReady] ->
             sent_log mm = sent -> events mm = [] ->
             processed_count (app mm) = 0 ->
             attempts_of (ops (finished env false mm)) = []
             /\ sent_log (finished env false mm) = sent
             /\ events (finished env false mm) = []
             /\ processed_count (app (finished env false mm)) = 0).
  { intros mm Ho Hl He Hpc.
    destruct (finished_spec env false mm) as (-> & -> & -> & -> & _).
    conj; auto. destruct Ho as [-> | ->]; reflexivity. }
  destruct (negb (driver_starts env)); cbn [fst snd].
  { destruct (Hfin m1) as (F1 & F2 & F3 & F4); auto; try congruence.
    conj; auto. discriminate. }
  destruct (negb (whatsapp_ready env)); cbn [fst snd];
    (destruct (Hfin m2) as (F1 & F2 & F3 & F4); auto; try congruence;
     conj; auto; discriminate).
Qed.

Lemma stop_before_first_send_witness :
  attempts_of (ops (snd (run stop_at_once (job_of two_numbers)
                             (booted two_numbers Absent)))) = []
  /\ sent_log (snd (run stop_at_once (job_of two_numbers)
                        (booted two_numbers Absent))) = []
  /\ events (snd (run stop_at_once (job_of two_numbers)
                      (booted two_numbers Absent))) = []
  /\ processed_count (app (snd (run stop_at_once (job_of two_numbers)
                                    (booted two_numbers Absent)))) = 0
  /\ fst (run stop_at_once (job_of two_numbers) (booted two_numbers Absent))
     <> Completed.
Proof.
  apply (stop_before_first_send stop_at_once two_numbers init_app
           (fst (start_sending two_numbers init_app)) (job_of two_numbers)
           [] Absent).
  - reflexivity.
  - left. reflexivity.
Defined.

(** ** The delay between recipients *)

Lemma count_ticks_app (l1 l2 : list Op) :
  count_ticks (l1 ++ l2) = count_ticks l1 + count_ticks l2.
Proof. unfold count_ticks. rewrite filter_app, length_app. reflexivity. Qed.

Lemma count_ticks_repeat (k : nat) : count_ticks (repeat DelayTick k) = k.
Proof.
  unfold count_ticks. induction k as [|k IH]; [reflexivity|].
  cbn [repeat List.filter is_delay_tick List.length]. rewrite IH. reflexivity.
Qed.

Lemma count_ticks_retry_ops (number : string) (j : nat) :
  forall attempt, count_ticks (retry_ops number attempt j) = 0.
Proof.
  unfold count_ticks. induction j as [|j IH]; intros attempt; [reflexivity|].
  destruct j as [|j]; [reflexivity|].
  change (retry_ops number attempt (S (S j)))
    with (Attempt number attempt :: Backoff
          :: retry_ops number (attempt + 1)%Z (S j)).
  cbn [List.filter is_delay_tick]. apply IH.
Qed.

Lemma send_loop_ticks (env : Env) (message : string) (max_tries : Z)
  (len : nat) (numbers : list string) :
  forall (idx : nat) (m : Machine),
  len + 1 = idx + List.length numbers ->
  stop_requested
    (app (snd (send_loop env numbers idx len message max_tries m))) = false ->
  count_ticks (ops (snd (send_loop env numbers idx len message max_tries m)))
  = count_ticks (ops m)
    + (List.length numbers - 1) * Z.to_nat (delay_between (app m)).
Proof.
  induction numbers as [|number rest IH]; intros idx m Hlen.
  - rewrite send_loop_nil. cbn. lia.
  - rewrite send_loop_cons.
    destruct (stop_requested (app m)) eqn:Hflag; [cbn [snd]; congruence|].
    destruct (send_via_wa_me_shape env number message max_tries
                (before_send idx len m))
      as ([success note] & m0 & j & -> & _ & Hops0 & Hq0 & _).
    cbn [fst snd].
    set (mr := recorded env success note number message m0).
    destruct (paused_shape env idx len mr) as (k & Hopsp & Hqp & _ & Hk).
    set (mp := paused env idx len mr) in *.
    intros Hend.
    assert (Hfp : stop_requested (app mp) = false).
    { destruct (stop_requested (app mp)) eqn:E; [|reflexivity].
      rewrite (send_loop_stopped env rest (S idx) len message max_tries mp E)
        in Hend. cbn [snd] in Hend. congruence. }
    cbn [List.length] in Hlen.
    rewrite (IH (S idx) mp ltac:(lia) Hend), Hopsp.
    assert (Hopsr : ops mr = ops m ++ retry_ops number 1 j) by exact Hops0.
    rewrite Hopsr, !count_ticks_app, count_ticks_retry_ops,
      count_ticks_repeat, (Hk Hfp).
    assert (Hd : delay_between (app mp) = delay_between (app m)).
    { destruct Hqp as (_ & _ & _ & (_ & _ & _ & _ & _ & Hdp & _)).
      destruct Hq0 as (_ & _ & _ & (_ & _ & _ & _ & _ & Hd0 & _)).
      rewrite Hdp. unfold mr, recorded.
      destruct success; cbn; rewrite Hd0; reflexivity. }
    assert (Hdr : delay_between (app mr) = delay_between (app m)).
    { destruct Hq0 as (_ & _ & _ & (_ & _ & _ & _ & _ & Hd0 & _)).
      unfold mr, recorded. destruct success; cbn; rewrite Hd0; reflexivity. }
    rewrite Hd, Hdr. cbn [List.length].
    destruct rest as [|next rest].
    + assert (Hnot : (idx <? len) = false) by (apply Nat.ltb_ge;
                                                cbn [List.length] in Hlen; lia).
      rewrite Hnot. cbn. lia.
    + assert (Hyes : (idx <? len) = true) by (apply Nat.ltb_lt;
                                               cbn [List.length] in Hlen; lia).
      rewrite Hyes. cbn [List.length]. lia.
Qed.

Lemma send_loop_schedule (env : Env) (message : string) (max_tries : Z)
  (len : nat) (numbers : list string) :
  forall (idx : nat) (m : Machine),
  len + 1 = idx + List.length numbers ->
  stop_requested
    (app (snd (send_loop env numbers idx len message max_tries m))) = false ->
  exists tries : list nat,
    List.length tries = List.length numbers
    /\ Forall (fun j => j <= Z.to_nat max_tries) tries
    /\ ops (snd (send_loop env numbers idx len message max_tries m))
       = ops m
         ++ schedule (Z.to_nat (delay_between (app m))) numbers tries.
Proof.
  induction numbers as [|number rest IH]; intros idx m Hlen.
  - rewrite send_loop_nil. intros _. exists []. cbn. rewrite app_nil_r. auto.
  - rewrite send_loop_cons.
    destruct (stop_requested (app m)) eqn:Hflag; [cbn [snd]; congruence|].
    destruct (send_via_wa_me_shape env number message max_tries
                (before_send idx len m))
      as ([success note] & m0 & j & -> & Hj & Hops0 & Hq0 & _).
    cbn [fst snd].
    set (mr := recorded env success note number message m0).
    destruct (paused_shape env idx len mr) as (k & Hopsp & Hqp & _ & Hk).
    set (mp := paused env idx len mr) in *.
    intros Hend.
    assert (Hfp : stop_requested (app mp) = false).
    { destruct (stop_requested (app mp)) eqn:E; [|reflexivity].
      rewrite (send_loop_stopped env rest (S idx) len message max_tries mp E)
        in Hend. cbn [snd] in Hend. congruence. }
    cbn [List.length] in Hlen.
    destruct (IH (S idx) mp ltac:(lia) Hend) as (tries & Hlt & Hall & Hops).
    assert (Hopsr : ops mr = ops m ++ retry_ops number 1 j) by exact Hops0.
    assert (Hdr : delay_between (app mr) = delay_between (app m)).
    { destruct Hq0 as (_ & _ & _ & (_ & _ & _ & _ & _ & Hd0 & _)).
      unfold mr, recorded. destruct success; cbn; rewrite Hd0; reflexivity. }
    assert (Hd : delay_between (app mp) = delay_between (app m)).
    { destruct Hqp as (_ & _ & _ & (_ & _ & _ & _ & _ & Hdp & _)).
      rewrite Hdp. exact Hdr. }
    exists (j :: tries).
    split; [cbn [List.length]; rewrite Hlt; reflexivity|].
    split; [constructor; assumption|].
    rewrite Hops, Hopsp, Hopsr, Hd, (Hk Hfp), Hdr, <- !app_assoc.
    f_equal. cbn [schedule]. f_equal.
    destruct rest as [|next rest].
    + assert (Hnot : (idx <? len) = false)
        by (apply Nat.ltb_ge; cbn [List.length] in Hlen; lia).
      rewrite Hnot. destruct tries; reflexivity.
    + assert (Hyes : (idx <? len) = true)
        by (apply Nat.ltb_lt; cbn [List.length] in Hlen; lia).
      rewrite Hyes. reflexivity.
Qed.

(** X21: in a bulk run that ends as completed, the operations after the
    start of the browser and the wait for WhatsApp Web are, for each
    recipient in turn, its attempts (at most [max_tries], with a pause
    between two), followed by the delay setting in ticks of one second
    when another recipient comes next, and by nothing after the last
    recipient.  So the ticks number the setting times the number of
    recipients less one (none when the setting is zero or negative). *)
Theorem completed_run_delays (env : Env) (ui : Ui) (a0 a : App) (job : Job)
  (sent : list Row) (stats : StatsFile) :
  start_sending ui a0 = (a, Some job) ->
  fst (run env job (boot a sent stats)) = Completed ->
  (exists tries : list nat,
     List.length tries = List.length (job_numbers job)
     /\ Forall (fun j => j <= Z.to_nat (job_max_tries job)) tries
     /\ ops (snd (run env job (boot a sent stats)))
        = [DriverStart; WaitReady]
          ++ schedule (Z.to_nat (delay_between a)) (job_numbers job) tries)
  /\ count_ticks (ops (snd (run env job (boot a sent stats))))
     = (List.length (job_numbers job) - 1) * Z.to_nat (delay_between a).
Proof.
  intros Hstart.
  unfold run. rewrite thread_cases. cbv zeta.
  destruct (block_spec env DriverStart (boot a sent stats))
    as (m1 & -> & Hops1 & Hq1 & _). cbn [snd].
  destruct (block_spec env WaitReady m1) as (m2 & -> & Hops2 & Hq2 & _).
  cbn [snd]. cbn [boot ops app] in Hops1, Hq1.
  destruct (negb (driver_starts env)); cbn [fst snd]; [discriminate|].
  destruct (negb (whatsapp_ready env)); cbn [fst snd]; [discriminate|].
  set (m3 := snd (send_loop env (job_numbers job) 1
                            (List.length (job_numbers job)) (job_message job)
                            (job_max_tries job) m2)).
  destruct (stop_requested (app m3)) eqn:Hflag; cbn [negb fst snd];
    [discriminate|].
  intros _. destruct (finished_spec env true m3) as (-> & _).
  unfold m3 in *.
  destruct Hq1 as (_ & _ & _ & (_ & _ & _ & _ & _ & Hd1 & _)).
  destruct Hq2 as (_ & _ & _ & (_ & _ & _ & _ & _ & Hd2 & _)).
  cbn [boot app] in Hd1.
  split.
  - destruct (send_loop_schedule env (job_message job) (job_max_tries job)
                (List.length (job_numbers job)) (job_numbers job) 1 m2
                ltac:(lia) Hflag) as (tries & Hlt & Hall & Hops).
    exists tries. split; [exact Hlt|]. split; [exact Hall|].
    rewrite Hops, Hops2, Hops1, Hd2, Hd1. reflexivity.
  - rewrite (send_loop_ticks env (job_message job) (job_max_tries job)
               (List.length (job_numbers job)) (job_numbers job) 1 m2
               ltac:(lia) Hflag).
    rewrite Hops2, Hops1, Hd2, Hd1. reflexivity.
Qed.

Lemma completed_run_delays_witness :
  (exists tries : list nat,
     List.length tries = List.length (job_numbers (job_of two_numbers))
     /\ Forall (fun j => j <= Z.to_nat (job_max_tries (job_of two_numbers)))
               tries
     /\ ops (snd (run calm (job_of two_numbers) (booted two_numbers Absent)))
        = [DriverStart; WaitReady]
          ++ schedule
               (Z.to_nat
                  (delay_between (fst (start_sending two_numbers init_app))))
               (job_numbers (job_of two_numbers)) tries)
  /\ count_ticks (ops (snd (run calm (job_of two_numbers)
                                (booted two_numbers Absent))))
     = (List.length (job_numbers (job_of two_numbers)) - 1)
       * Z.to_nat (delay_between (fst (start_sending two_numbers init_app))).
Proof.
  apply (completed_run_delays calm two_numbers init_app
           (fst (start_sending two_numbers init_app)) (job_of two_numbers)
           [] Absent); reflexivity.
Defined.

(** ** The test send *)

Lemma trial_cases (env : Env) (numbers : list string) (message : string)
  (max_tries : Z) (m : Machine) :
  test_send_thread env numbers message max_tries m =
  let m1 := snd (block env DriverStart m) in
  if negb (driver_starts env) then (false, snd (test_complete false m1))
  else
    let m2 := snd (block env WaitReady m1) in
    if negb (whatsapp_ready env) then (false, snd (test_complete false m2))
    else
      match numbers with
      | [] => (false, snd (test_complete false m2))
      | number :: _ =>
          let '(r, m0) := send_via_wa_me env number message max_tries m2 in
          let m3 := before_send 1 1 m0 in
          if fst r
          then (true,
                snd (test_complete true
                       (snd (emit (SuccessValue 1)
                               (snd (modify_app (set_success_count 1) m3))))))
          else (false,
                snd (test_complete false
                       (snd (emit (FailedValue 1)
                               (snd (modify_app (set_failed_count 1) m3))))))
      end.
Proof.
  unfold test_send_thread, start_edge_driver, wait_for_whatsapp_ready.
  unfold bind at 1. unfold bind at 1.
  destruct (block env DriverStart m) as [k1 m1]. cbn [snd ret].
  destruct (driver_starts env); cbn [negb]; [|reflexivity].
  unfold bind at 1. unfold bind at 1.
  destruct (block env WaitReady m1) as [k2 m2]. cbn [snd ret].
  destruct (whatsapp_ready env); cbn [negb]; [|reflexivity].
  destruct numbers as [|number rest]; [reflexivity|].
  unfold bind at 1.
  destruct (send_via_wa_me env number message max_tries m2)
    as [[success note] m0].
  cbn [fst]. destruct success; reflexivity.
Qed.

(** X22: a test send never writes to the sent log or to the summary
    history, whatever happens, and leaves the application idle. *)
Theorem test_send_records_nothing (env : Env) (job : Job) (m : Machine) :
  sent_log (snd (trial env job m)) = sent_log m
  /\ stats_file (snd (trial env job m)) = stats_file m
  /\ sending (app (snd (trial env job m))) = false.
Proof.
  unfold trial. rewrite trial_cases. cbv zeta.
  destruct (block_spec env DriverStart m) as (m1 & -> & _ & Hq1 & _).
  cbn [snd].
  destruct (block_spec env WaitReady m1) as (m2 & -> & _ & Hq2 & _).
  cbn [snd].
  destruct Hq1 as (_ & Hl1 & Hst1 & _). destruct Hq2 as (_ & Hl2 & Hst2 & _).
  destruct (negb (driver_starts env)); cbn [snd]; [cbn; auto|].
  destruct (negb (whatsapp_ready env)); cbn [snd];
    [cbn; conj; congruence|].
  destruct (job_numbers job) as [|number rest]; [cbn; conj; congruence|].
  destruct (send_via_wa_me_shape env number (job_message job)
              (job_max_tries job) m2)
    as ([success note] & m0 & j & -> & _ & _ & Hq0 & _).
  destruct Hq0 as (_ & Hl0 & Hst0 & _).
  cbn [fst]. destruct success; cbn; conj; congruence.
Qed.

(** X23: a test that [test_send] starts is for one number, the first valid
    number of the text box.  When the browser starts and WhatsApp Web
    becomes ready, its operations after those two are attempts 1, 2, ...
    for that number, at most [max_tries] of them, with a pause between two;
    it ends with the processed counter at 1 and exactly one of the
    succeeded and failed counters at 1, succeeded exactly when the test
    reports success.  Otherwise it makes no attempt, reports failure and
    leaves all counters at zero. *)
Theorem test_send_outcome (env : Env) (ui : Ui) (a0 a : App) (job : Job)
  (sent : list Row) (stats : StatsFile) :
  test_send ui a0 = (a, Some job) ->
  exists (number : string) (others : list string) (j : nat),
    fst (validate_numbers (numbers_text ui)) = number :: others
    /\ job_numbers job = [number]
    /\ if channel_up env
       then ops (snd (trial env job (boot a sent stats)))
            = [DriverStart; WaitReady] ++ retry_ops number 1 j
            /\ j <= Z.to_nat (job_max_tries job)
            /\ processed_count (app (snd (trial env job (boot a sent stats))))
               = 1
            /\ success_count (app (snd (trial env job (boot a sent stats))))
               = (if fst (trial env job (boot a sent stats)) then 1 else 0)
            /\ failed_count (app (snd (trial env job (boot a sent stats))))
               = (if fst (trial env job (boot a sent stats)) then 0 else 1)
       else fst (trial env job (boot a sent stats)) = false
            /\ attempts_of (ops (snd (trial env job (boot a sent stats)))) = []
            /\ processed_count (app (snd (trial env job (boot a sent stats))))
               = 0
            /\ success_count (app (snd (trial env job (boot a sent stats))))
               = 0
            /\ failed_count (app (snd (trial env job (boot a sent stats))))
               = 0.
Proof.
  unfold test_send.
  destruct (sending a0); [discriminate|].
  destruct (is_empty (strip (message_text ui))); [discriminate|].
  destruct (is_empty (strip (numbers_text ui))); [discriminate|].
  rewrite (validate_numbers_strip (numbers_text ui)).
  destruct (validate_numbers (numbers_text ui)) as [numbers invalid].
  destruct numbers as [|number rest]; [discriminate|].
  destruct (negb (confirm_test ui)); [discriminate|].
  destruct (read_settings ui) as [delay max_tries].
  intros H. injection H as <- <-. cbn [job_numbers job_message job_max_tries].
  set (m := boot (mkApp true false 0 1 0 0 delay) sent stats).
  destruct (block_spec env DriverStart m) as (m1' & Hb1 & Hops1 & Hq1 & _).
  set (m1 := snd (block env DriverStart m)).
  assert (m1' = m1) by (unfold m1; rewrite Hb1; reflexivity). subst m1'.
  destruct (block_spec env WaitReady m1) as (m2' & Hb2 & Hops2 & Hq2 & _).
  set (m2 := snd (block env WaitReady m1)).
  assert (m2' = m2) by (unfold m2; rewrite Hb2; reflexivity). subst m2'.
  destruct (send_via_wa_me_shape env number (strip (message_text ui))
              max_tries m2)
    as ([success note] & m0 & j & Hsend & Hj & Hops0 & Hq0 & _).
  destruct Hq1 as (_ & _ & _ & (_ & Hp1 & _ & Hs1 & Hf1 & _)).
  destruct Hq2 as (_ & _ & _ & (_ & Hp2 & _ & Hs2 & Hf2 & _)).
  destruct Hq0 as (_ & _ & _ & (_ & Hp0 & _ & Hs0 & Hf0 & _)).
  cbn [m boot app ops processed_count success_count failed_count] in *.
  exists number, rest, j. split; [reflexivity|]. split; [reflexivity|].
  unfold trial, channel_up. rewrite trial_cases. cbv zeta.
  cbn [job_numbers job_message job_max_tries].
  fold m m1 m2.
  destruct (driver_starts env); cbn [negb andb].
  2:{ cbn [fst snd test_complete modify_app app ops processed_count
           success_count failed_count].
      rewrite Hops1. conj; auto; congruence. }
  destruct (whatsapp_ready env); cbn [negb].
  2:{ cbn [fst snd test_complete modify_app app ops processed_count
           success_count failed_count].
      rewrite Hops2, Hops1. conj; auto; congruence. }
  rewrite Hsend. cbn [fst].
  destruct success;
    cbn [fst snd test_complete modify_app emit before_send app ops
         set_processed_count set_success_count set_failed_count
         processed_count success_count failed_count];
    rewrite Hops0, Hops2, Hops1; conj; auto; congruence.
Qed.

Lemma test_send_outcome_witness :
  exists (number : string) (others : list string) (j : nat),
    fst (validate_numbers (numbers_text two_numbers)) = number :: others
    /\ job_numbers (test_job_of two_numbers) = [number]
    /\ if channel_up first_try_fails
       then ops (snd (trial first_try_fails (test_job_of two_numbers)
                            (test_booted two_numbers [] Absent)))
            = [DriverStart; WaitReady] ++ retry_ops number 1 j
            /\ j <= Z.to_nat (job_max_tries (test_job_of two_numbers))
            /\ processed_count
                 (app (snd (trial first_try_fails (test_job_of two_numbers)
                                  (test_booted two_numbers [] Absent)))) = 1
            /\ success_count
                 (app (snd (trial first_try_fails (test_job_of two_numbers)
                                  (test_booted two_numbers [] Absent))))
               = (if fst (trial first_try_fails (test_job_of two_numbers)
                                (test_booted two_numbers [] Absent))
                  then 1 else 0)
            /\ failed_count
                 (app (snd (trial first_try_fails (test_job_of two_numbers)
                                  (test_booted two_numbers [] Absent))))
               = (if fst (trial first_try_fails (test_job_of two_numbers)
                                (test_booted two_numbers [] Absent))
                  then 0 else 1)
       else fst (trial first_try_fails (test_job_of two_numbers)
                       (test_booted two_numbers [] Absent)) = false
            /\ attempts_of
                 (ops (snd (trial first_try_fails (test_job_of two_numbers)
                                  (test_booted two_numbers [] Absent)))) = []
            /\ processed_count
                 (app (snd (trial first_try_fails (test_job_of two_numbers)
                                  (test_booted two_numbers [] Absent)))) = 0
            /\ success_count
                 (app (snd (trial first_try_fails (test_job_of two_numbers)
                                  (test_booted two_numbers [] Absent)))) = 0
            /\ failed_count
                 (app (snd (trial first_try_fails (test_job_of two_numbers)
                                  (test_booted two_numbers [] Absent)))) = 0.
Proof.
  apply (test_send_outcome first_try_fails two_numbers init_app
           (fst (test_send two_numbers init_app)) (test_job_of two_numbers)
           [] Absent).
  reflexivity.
Defined.

(** ** Drafts *)

Lemma lstrip_idem (s : string) : lstrip (lstrip s) = lstrip s.
Proof.
  induction s as [|c r IH]; [reflexivity|].
  cbn [lstrip]. destruct (isspace c) eqn:Ec; [exact IH|].
  cbn [lstrip]. rewrite Ec. reflexivity.
Qed.

Lemma rstrip_idem (s : string) : rstrip (rstrip s) = rstrip s.
Proof.
  induction s as [|c r IH]; [reflexivity|].
  cbn [rstrip]. destruct (rstrip r) as [|c' r'] eqn:Er.
  - destruct (isspace c) eqn:Ec; [reflexivity|].
    cbn [rstrip]. rewrite Ec. reflexivity.
  - change (rstrip (String c (String c' r')))
      with (match rstrip (String c' r') with
            | EmptyString => if isspace c then EmptyString
                             else String c EmptyString
            | x => String c x
            end).
    rewrite IH. reflexivity.
Qed.

Lemma strip_idem (s : string) : strip (strip s) = strip s.
Proof.
  unfold strip. rewrite (lstrip_rstrip_comm s), lstrip_idem,
    (lstrip_rstrip_comm (rstrip s)), rstrip_idem.
  reflexivity.
Qed.

Lemma strip_empty (s : string) :
  is_empty (strip s) = true -> strip s = EmptyString.
Proof. destruct (strip s); [reflexivity|discriminate]. Qed.

(** X24: a draft that is saved and then restored brings back both texts
    trimmed of surrounding white space; a text that is blank is not
    restored, the box keeping what it holds.  Restored into the empty boxes
    of a freshly opened application, the boxes hold exactly the two trimmed
    texts, and saving and restoring them once more changes nothing. *)
Theorem draft_round_trip (saved current : Boxes) (timestamp : string)
  (file : DraftFile) :
  message_box (load_draft (save_draft saved timestamp true file) true current)
  = (if is_empty (strip (message_box saved)) then message_box current
     else strip (message_box saved))
  /\ numbers_box
       (load_draft (save_draft saved timestamp true file) true current)
     = (if is_empty (strip (numbers_box saved)) then numbers_box current
        else strip (numbers_box saved))
  /\ load_draft (save_draft saved timestamp true file) true empty_boxes
     = mkBoxes (strip (message_box saved)) (strip (numbers_box saved))
  /\ load_draft
       (save_draft
          (load_draft (save_draft saved timestamp true file) true empty_boxes)
          timestamp true file)
       true
       (load_draft (save_draft saved timestamp true file) true empty_boxes)
     = load_draft (save_draft saved timestamp true file) true empty_boxes.
Proof.
  assert (Hfresh :
    load_draft (save_draft saved timestamp true file) true empty_boxes
    = mkBoxes (strip (message_box saved)) (strip (numbers_box saved))).
  { unfold save_draft, load_draft. cbn [get_or_empty].
    destruct (is_empty (strip (message_box saved))) eqn:Em;
      destruct (is_empty (strip (numbers_box saved))) eqn:En;
      cbn [negb orb message_box numbers_box empty_boxes];
      rewrite ?(strip_empty _ Em), ?(strip_empty _ En); reflexivity. }
  split; [|split; [|split; [exact Hfresh|]]].
  - unfold save_draft, load_draft. cbn [get_or_empty].
    destruct (is_empty (strip (message_box saved)));
      destruct (is_empty (strip (numbers_box saved))); reflexivity.
  - unfold save_draft, load_draft. cbn [get_or_empty].
    destruct (is_empty (strip (message_box saved)));
      destruct (is_empty (strip (numbers_box saved))); reflexivity.
  - rewrite Hfresh. unfold save_draft, load_draft.
    cbn [get_or_empty message_box numbers_box]. rewrite !strip_idem.
    destruct (is_empty (strip (message_box saved)));
      destruct (is_empty (strip (numbers_box saved))); reflexivity.
Qed.

(** X25: the numbers of a draft survive the round trip: when a saved draft
    is restored into the empty boxes of a freshly opened application,
    normalising the restored numbers gives the same valid and invalid lists
    as normalising the text that was saved. *)
Theorem restored_draft_same_numbers (saved : Boxes) (timestamp : string)
  (file : DraftFile) :
  validate_numbers
    (numbers_box
       (load_draft (save_draft saved timestamp true file) true empty_boxes))
  = validate_numbers (numbers_box saved).
Proof.
  unfold save_draft, load_draft. cbn [get_or_empty].
  destruct (is_empty (strip (message_box saved))) eqn:Em;
    destruct (is_empty (strip (numbers_box saved))) eqn:En;
    cbn [negb orb message_box numbers_box empty_boxes];
    try apply validate_numbers_strip;
    rewrite <- (validate_numbers_strip (numbers_box saved)),
      (strip_empty _ En); reflexivity.
Qed.

(** ** Numbers read from a sheet *)

Lemma split_comma_free (s : string) : comma_free s -> split comma s = [s].
Proof.
  unfold comma_free. induction s as [|c r IH]; [reflexivity|].
  cbn [PyStr.forallb split]. intros H. apply andb_true_iff in H as [Hc Hr].
  apply negb_true_iff in Hc. rewrite Hc, (IH Hr). reflexivity.
Qed.

Lemma split_join_cells (v : string) (rest : list string) :
  Forall comma_free (v :: rest) ->
  split comma (join ", " (v :: rest)) = v :: map (String " ") rest.
Proof.
  revert v. induction rest as [|w rest IH]; intros v Hall.
  - apply split_comma_free. inversion Hall. assumption.
  - inversion Hall as [|? ? Hv Hrest]; subst.
    change (join ", " (v :: w :: rest))
      with (v ++ String comma (String " " (join ", " (w :: rest))))%string.
    rewrite split_app_sep, (split_comma_free v Hv).
    cbn [split app]. change (Ascii.eqb " " comma) with false. cbv iota.
    rewrite (IH w Hrest). reflexivity.
Qed.

(** X26: when [load_csv] finds numbers and none of them holds a comma, the
    text it puts in the numbers box normalises cell by cell: the result is
    that of running the normaliser's loop over the cells themselves, in row
    order, so every non-blank cell gives exactly one valid or invalid
    entry.  When it finds no number, the boxes are left as they were. *)
Theorem csv_cells_are_tokens (rows : list CsvRow) (boxes : Boxes) :
  (csv_numbers rows <> [] ->
   Forall comma_free (csv_numbers rows) ->
   validate_numbers (numbers_box (load_csv rows boxes))
   = fold_left validate_step (csv_numbers rows) ([], [])
   /\ message_box (load_csv rows boxes) = message_box boxes)
  /\ (csv_numbers rows = [] -> load_csv rows boxes = boxes).
Proof.
  unfold load_csv. split.
  - intros Hne Hfree. destruct (csv_numbers rows) as [|v rest];
      [contradiction Hne; reflexivity|].
    cbn [numbers_box message_box]. split; [|reflexivity].
    unfold validate_numbers. rewrite (split_join_cells v rest Hfree).
    apply fold_validate_strip. cbn [map]. f_equal.
    rewrite map_map. apply map_ext. intros t. apply strip_leading_space.
  - intros ->. reflexivity.
Qed.

Lemma csv_cells_are_tokens_witness :
  validate_numbers (numbers_box (load_csv sample_sheet empty_boxes))
  = fold_left validate_step (csv_numbers sample_sheet) ([], [])
  /\ message_box (load_csv sample_sheet empty_boxes)
     = message_box empty_boxes.
Proof.
  apply (proj1 (csv_cells_are_tokens sample_sheet empty_boxes)).
  - discriminate.
  - repeat constructor.
Defined.
